(** * agrinova-ver3-alm: the serverless handlers and the relational schema

    A shallow embedding of the parts of the repository that its specification
    talks about:

    - [JS]: the fragment of JavaScript the handlers rely on (binary64
      numbers, truthiness, property lookup through [Object.prototype],
      [Math.round], JSON values, thrown values), for a browser and for Deno;
    - [CarbonCreditService] and [CarbonCreditIntegration]: the credit
      calculator of [src/services/carbonCreditService.ts] and the edge
      function [carbon-credit-integration];
    - [SentinelHubClient] and [SentinelHubIntegration]: the mock-insight
      generator of [src/services/sentinelHub.ts] and the edge function
      [sentinel-hub-integration];
    - [Schema]: the tables of the migrations with their constraints;
    - [SaveApiCredentials] and [WhatsappWebhook]: the two handlers that
      write the credential row and the farmers / ivr_calls tables;
    - [GetApiCredentials], [EligiblePractices] and [SatelliteProxy]: the
      reader of the credential row, the practices the client offers, and the
      client's satellite request as the edge function receives it.

    JavaScript numbers are IEEE 754 binary64 values: they are modelled by
    Rocq's primitive floats, so that [0.1 + 0.2] is what it is in the
    program.  Strings are byte strings read as UTF-8; the functions that look
    at characters ([toLowerCase], [charCodeAt]) are written for ASCII text and
    leave other bytes alone. *)

From Stdlib Require Import ZArith String Ascii List Floats Uint63 Lia Bool.
From stdpp Require Import base option list strings pretty infinite.

Set Warnings "-inexact-float,-register-all".

Local Open Scope string_scope.
Local Open Scope list_scope.
Local Open Scope Z_scope.

(* ------------------------------------------------------------------------- *)
(** ** The JavaScript fragment *)

Module JS.

Definition number := float.

(** Exact conversion of an integer below 2^63 in magnitude. *)
Definition of_Z (z : Z) : number :=
  if z <? 0
  then PrimFloat.opp (PrimFloat.of_uint63 (Uint63.of_Z (Z.abs z)))
  else PrimFloat.of_uint63 (Uint63.of_Z z).

Definition signed_mantissa (s : bool) (m : positive) : Z :=
  if s then Z.neg m else Z.pos m.

Definition signed_zero (s : bool) : number :=
  if s then (-0)%float else 0%float.

(** [Math.floor]: the value of a finite float is [±m * 2^e]; with [e < 0]
    the floor is an exact integer division. *)
Definition Math_floor (x : number) : number :=
  match Prim2SF x with
  | S754_finite s m e =>
      if 0 <=? e then x
      else
        let n := signed_mantissa s m / 2 ^ (- e) in
        if n =? 0 then signed_zero s else of_Z n
  | _ => x
  end.

(** [Math.round]: the integer closest to [x], ties towards +infinity,
    computed exactly as [floor (x + 1/2)] over the integers. *)
Definition Math_round (x : number) : number :=
  match Prim2SF x with
  | S754_finite s m e =>
      if 0 <=? e then x
      else
        let d := 2 ^ (- e) in
        let n := (2 * signed_mantissa s m + d) / (2 * d) in
        if n =? 0 then signed_zero s else of_Z n
  | _ => x
  end.

Definition Math_abs (x : number) : number := PrimFloat.abs x.

Definition Math_max (a b : number) : number :=
  if PrimFloat.is_nan a || PrimFloat.is_nan b then nan
  else if PrimFloat.ltb a b then b
  else if PrimFloat.ltb b a then a
  else if PrimFloat.get_sign a then b else a.

Definition Math_min (a b : number) : number :=
  if PrimFloat.is_nan a || PrimFloat.is_nan b then nan
  else if PrimFloat.ltb a b then a
  else if PrimFloat.ltb b a then b
  else if PrimFloat.get_sign a then a else b.

(** [a >= b], [a > b], [a <= b], [a < b] on numbers (false on NaN). *)
Definition ge (a b : number) : bool := PrimFloat.leb b a.
Definition gt (a b : number) : bool := PrimFloat.ltb b a.
Definition le (a b : number) : bool := PrimFloat.leb a b.
Definition lt (a b : number) : bool := PrimFloat.ltb a b.

(** *** Values read out of an object

    What [obj[key]] can produce for the object literals of the program:
    a number stored in the literal, an object or function inherited from
    [Object.prototype], or [undefined]. *)
Inductive value :=
| VUndefined
| VNumber (n : number)
| VString (s : string)
| VObject (name : string).

Definition truthy (v : value) : bool :=
  match v with
  | VUndefined => false
  | VNumber n => negb (PrimFloat.is_nan n || PrimFloat.is_zero n)
  | VString s => negb (String.eqb s "")
  | VObject _ => true
  end.

(** [a || b] *)
Definition or_else (a b : value) : value := if truthy a then a else b.

(** ToNumber: an object or a function converts through its string form,
    which is not a numeric literal. *)
Definition ToNumber (v : value) : number :=
  match v with
  | VNumber n => n
  | VUndefined | VString _ | VObject _ => nan
  end.

(** The runtime the code runs in.  Browsers and Node keep the accessor
    [__proto__] of [Object.prototype]; Deno deletes it at startup. *)
Record runtime := Runtime { proto_accessor : bool }.

Definition browser : runtime := Runtime true.
Definition deno : runtime := Runtime false.

(** The properties every object literal inherits from [Object.prototype],
    the accessor [__proto__] apart. *)
Definition Object_prototype : list string :=
  [ "constructor"; "hasOwnProperty"; "isPrototypeOf"; "propertyIsEnumerable";
    "toLocaleString"; "toString"; "valueOf";
    "__defineGetter__"; "__defineSetter__"; "__lookupGetter__";
    "__lookupSetter__" ].

Definition inherited (rt : runtime) (key : string) : bool :=
  existsb (String.eqb key) Object_prototype
  || proto_accessor rt && String.eqb key "__proto__".

Fixpoint own_property {A} (o : list (string * A)) (key : string) : option A :=
  match o with
  | [] => None
  | (k, v) :: o' => if String.eqb k key then Some v else own_property o' key
  end.

(** [obj[key]] for an object literal [obj] with number-valued properties:
    own properties first, then the prototype chain. *)
Definition get (rt : runtime) (obj : list (string * number)) (key : string)
    : value :=
  match own_property obj key with
  | Some n => VNumber n
  | None => if inherited rt key then VObject key else VUndefined
  end.

(** [obj[key]] for an object literal with string-valued properties. *)
Definition get_text (rt : runtime) (obj : list (string * string)) (key : string)
    : value :=
  match own_property obj key with
  | Some s => VString s
  | None => if inherited rt key then VObject key else VUndefined
  end.

(** [obj[key] = v] on an object used as a map: the value of an existing key
    is replaced in place, a new key is added last (the order of keys that
    are no array indices; the handlers' keys are layer names).  Where the
    accessor [__proto__] exists, assigning an object to that key sets the
    prototype and adds no property. *)
Fixpoint assign {A} (o : list (string * A)) (key : string) (v : A)
    : list (string * A) :=
  match o with
  | [] => [(key, v)]
  | (k, x) :: o' =>
      if String.eqb k key then (k, v) :: o' else (k, x) :: assign o' key v
  end.

Definition set_property {A} (rt : runtime) (o : list (string * A)) (key : string)
    (v : A) : list (string * A) :=
  if proto_accessor rt && String.eqb key "__proto__" then o else assign o key v.

(** A property of an object literal, written after a spread: it replaces
    the spread's property of that name; with the value undefined the
    property is not serialised. *)
Definition define_property {A} (o : list (string * A)) (key : string) (v : option A)
    : list (string * A) :=
  match v with
  | Some x => assign o key x
  | None => filter (fun kv => String.eqb (fst kv) key = false) o
  end.

(** *** Strings *)

(** [toLowerCase] on a text in ASCII: the letters A to Z are lowered and
    every other character is kept.  Strings are sequences of bytes here; the
    letters outside ASCII that JavaScript lowers as well are kept as they
    are. *)
Definition lower_ascii (c : ascii) : ascii :=
  let n := nat_of_ascii c in
  if ((65 <=? n) && (n <=? 90))%nat then ascii_of_nat (n + 32) else c.

Fixpoint toLowerCase (s : string) : string :=
  match s with
  | EmptyString => EmptyString
  | String c s' => String (lower_ascii c) (toLowerCase s')
  end.

Fixpoint starts_with (p s : string) : bool :=
  match p, s with
  | EmptyString, _ => true
  | String a p', String b s' => Ascii.eqb a b && starts_with p' s'
  | String _ _, EmptyString => false
  end.

(** [s.includes(p)] *)
Fixpoint includes (s p : string) : bool :=
  starts_with p s ||
  match s with
  | EmptyString => false
  | String _ s' => includes s' p
  end.

(** *** JSON values, as request and response bodies carry them *)
Inductive json :=
| JNull
| JBool (b : bool)
| JNum (n : number)
| JStr (s : string)
| JArr (l : list json)
| JObj (fields : list (string * json)).

Definition json_truthy (j : json) : bool :=
  match j with
  | JNull => false
  | JBool b => b
  | JNum n => negb (PrimFloat.is_nan n || PrimFloat.is_zero n)
  | JStr s => negb (String.eqb s "")
  | JArr _ | JObj _ => true
  end.

(** A number in JSON: NaN and the infinities are written [null]. *)
Definition json_number (n : number) : json :=
  if PrimFloat.is_nan n || PrimFloat.is_infinity n then JNull else JNum n.

(** [{ ...o }] for a JSON value: the properties of an object, none of
    null or of a primitive. *)
Definition spread (o : option json) : list (string * json) :=
  match o with
  | Some (JObj fields) => fields
  | _ => []
  end.

(** A string is truthy when it is not empty. *)
Definition str_truthy (s : string) : bool := negb (String.eqb s "").
Definition num_truthy (n : number) : bool :=
  negb (PrimFloat.is_nan n || PrimFloat.is_zero n).

(** Property of a JSON object; the last of several equal keys wins, as in
    [JSON.parse]. *)
Definition field (fields : list (string * json)) (key : string) : option json :=
  own_property (rev fields) key.

(** *** Thrown values

    Everything the handlers and the runtime throw is an [Error] instance
    (with its class name and message); [Thrown] stands for any other value a
    [throw] could carry, for which [e instanceof Error] is false and
    [e.message] is undefined. *)
Inductive thrown :=
| ErrorObject (name message : string)
| Thrown (v : json).

Definition new_Error (message : string) : thrown := ErrorObject "Error" message.

(** [e.message], [None] for undefined. *)
Definition message_of (e : thrown) : option string :=
  match e with
  | ErrorObject _ m => Some m
  | Thrown _ => None
  end.

(** [e instanceof Error ? e.message : 'Unknown error'] *)
Definition message_or_unknown (e : thrown) : string :=
  match e with
  | ErrorObject _ m => m
  | Thrown _ => "Unknown error"
  end.

(** The outcome of a block that may throw. *)
Inductive completion (A : Type) :=
| Normal (a : A)
| Throw (e : thrown).
Arguments Normal {A} a.
Arguments Throw {A} e.

Definition bind {A B} (c : completion A) (k : A -> completion B) : completion B :=
  match c with
  | Normal a => k a
  | Throw e => Throw e
  end.

(** [JSON.stringify] drops the properties whose value is undefined. *)
Definition stringify_fields (fields : list (string * option json)) : list (string * json) :=
  omap (fun kv => match snd kv with Some v => Some (fst kv, v) | None => None end) fields.

(** HTTP responses: status, and the body as the JSON value that is
    serialised into it ([Text] for a plain-text body, [NoBody] for null). *)
Inductive body :=
| NoBody
| Text (s : string)
| Json (j : json).

Record response := Response { status : Z; payload : body }.

(** What a handler run leaves behind: the console lines it wrote and the
    response it returned ([None] when the handler falls off its end). *)
Inductive console_line :=
| console_error (label : string) (e : thrown)
| console_error_text (label : string) (text : string)
| console_log (text : string).

Record run := Run {
  console : list console_line;
  returned : option response
}.

End JS.

Notation "'try!' x := c 'in' k" := (JS.bind c (fun x => k))
(at level 10, x name, c at level 100, k at level 200).

(* ------------------------------------------------------------------------- *)
(** ** The relational schema (supabase/migrations)

    Each table is the list of its rows, a nullable column an [option].  What
    is modelled of the database is what the DDL declares: DEFAULT, NOT NULL,
    PRIMARY KEY, UNIQUE, CHECK and REFERENCES.  A CHECK is satisfied when its
    condition is true or NULL.  Of the conversions of the column types, the
    overflow of the numeric columns of carbon_credits is modelled
    ([fits_numeric]); the rounding of a number to the scale of its column,
    the numeric columns of farmers and the syntax of [uuid] and [date] are
    not: an identifier is the text PostgreSQL writes it in
    ([canonical_uuid]), and two identifiers are equal when their texts are. *)

Module Schema.
Import JS.

Definition uuid := string.
Definition timestamptz := Z.
Definition date := string.

(** A column in the payload of an INSERT: left out (the DEFAULT applies), or
    supplied, possibly as NULL. *)
Inductive supplied (A : Type) :=
| Omitted
| Given (v : option A).
Arguments Omitted {A}.
Arguments Given {A} v.

Definition with_default {A} (default : option A) (c : supplied A) : option A :=
  match c with
  | Omitted => default
  | Given v => v
  end.

(** A property of a JavaScript payload object: [undefined] properties are
    dropped by the serialisation, so the column is left out. *)
Definition property {A} (v : option A) : supplied A :=
  match v with
  | Some a => Given (Some a)
  | None => Omitted
  end.

(** Errors, by SQLSTATE (PostgREST's own codes start with PGRST). *)
Record pg_error := PgError { code : string; constraint : string }.

Definition not_null_violation (column : string) := PgError "23502" column.
Definition foreign_key_violation (name : string) := PgError "23503" name.
Definition unique_violation (name : string) := PgError "23505" name.
Definition check_violation (name : string) := PgError "23514" name.
(** [.single()] on a result that is not exactly one row. *)
Definition PGRST116 := PgError "PGRST116" "".

(** The [message] of an error, which a handler passes on in its answer.
    It stands for the sentence PostgreSQL words: the code and the
    constraint or column identify it. *)
Definition error_message (e : pg_error) : string :=
  code e +:+ ": " +:+ constraint e.

Inductive pg_result (A : Type) :=
| PgOk (a : A)
| PgErr (e : pg_error).
Arguments PgOk {A} a.
Arguments PgErr {A} e.

(** [CHECK (c IN (...))] and [CHECK (c BETWEEN lo AND hi)] *)
Definition check_in (allowed : list string) (v : option string) : bool :=
  match v with
  | None => true
  | Some s => existsb (String.eqb s) allowed
  end.

Definition check_between (lo hi : Z) (v : option Z) : bool :=
  match v with
  | None => true
  | Some z => (lo <=? z) && (z <=? hi)
  end.

(** *** Column types *)

Definition numeric_value_out_of_range (column : string) := PgError "22003" column.

(** A value for a column [numeric(p,2)].  The number arrives as the shortest
    decimal that denotes it and is rounded to two decimals; it is refused
    (SQLSTATE 22003) when it then has more than [p - 2] digits before the
    point, that is from [10^(p-2) - 0.005] on, and when it is an infinity.
    NULL and NaN are values of the type. *)
Definition fits_numeric (limit : number) (v : option number) : bool :=
  match v with
  | None => true
  | Some x => PrimFloat.is_nan x || PrimFloat.ltb (PrimFloat.abs x) limit
  end.

(** the first magnitude that [numeric(10,2)] and [numeric(12,2)] refuse *)
Definition numeric_10_2 : number := 99999999.995%float.
Definition numeric_12_2 : number := 9999999999.995%float.

(** A column of the payload of an UPDATE: a column left out is not
    converted. *)
Definition supplied_fits (limit : number) (c : supplied number) : bool :=
  match c with
  | Omitted => true
  | Given v => fits_numeric limit v
  end.

(** The text PostgreSQL writes a [uuid] in: 8-4-4-4-12 hexadecimal digits in
    lower case. *)
Definition lower_hex (c : ascii) : bool :=
  let n := nat_of_ascii c in
  ((48 <=? n) && (n <=? 57) || (97 <=? n) && (n <=? 102))%nat.

Fixpoint canonical_from (i : nat) (s : string) : bool :=
  match s with
  | EmptyString => (i =? 36)%nat
  | String c s' =>
      (if ((i =? 8) || (i =? 13) || (i =? 18) || (i =? 23))%nat
       then Ascii.eqb c "-"
       else lower_hex c)
      && canonical_from (S i) s'
  end.

Definition canonical_uuid (s : string) : bool := canonical_from 0 s.

(** *** farmers *)

Record farmer := Farmer {
  farmer_id : uuid;                        (* PRIMARY KEY DEFAULT gen_random_uuid() *)
  phone_number : string;                   (* UNIQUE NOT NULL *)
  full_name : option string;
  location_name : option string;
  latitude : option number;
  longitude : option number;
  preferred_language : option string;      (* DEFAULT 'English' *)
  crop : option string;
  farmer_created_at : option timestamptz;  (* DEFAULT now() *)
  farmer_updated_at : option timestamptz;  (* DEFAULT now() *)
  crop_details : option json;              (* DEFAULT '[]' *)
  field_locations : option json            (* DEFAULT '[]' *)
}.

Record farmer_insert := FarmerInsert {
  ins_farmer_id : supplied uuid;
  ins_phone_number : supplied string;
  ins_full_name : supplied string;
  ins_location_name : supplied string;
  ins_latitude : supplied number;
  ins_longitude : supplied number;
  ins_preferred_language : supplied string;
  ins_crop : supplied string;
  ins_farmer_created_at : supplied timestamptz;
  ins_farmer_updated_at : supplied timestamptz;
  ins_crop_details : supplied json;
  ins_field_locations : supplied json
}.

Definition has_farmer_id (farmers : list farmer) (id : uuid) : bool :=
  existsb (fun r => String.eqb (farmer_id r) id) farmers.

Definition has_phone_number (farmers : list farmer) (phone : string) : bool :=
  existsb (fun r => String.eqb (phone_number r) phone) farmers.

(** INSERT INTO farmers: the new row and the table after the statement; the
    table is the old one when the statement fails. *)
Definition insert_farmer (now : timestamptz) (gen_random_uuid : uuid)
    (farmers : list farmer) (p : farmer_insert) : pg_result farmer * list farmer :=
  match with_default (Some gen_random_uuid) (ins_farmer_id p),
        with_default None (ins_phone_number p) with
  | None, _ => (PgErr (not_null_violation "id"), farmers)
  | Some _, None => (PgErr (not_null_violation "phone_number"), farmers)
  | Some id, Some phone =>
      let row :=
        {| farmer_id := id;
           phone_number := phone;
           full_name := with_default None (ins_full_name p);
           location_name := with_default None (ins_location_name p);
           latitude := with_default None (ins_latitude p);
           longitude := with_default None (ins_longitude p);
           preferred_language := with_default (Some "English") (ins_preferred_language p);
           crop := with_default None (ins_crop p);
           farmer_created_at := with_default (Some now) (ins_farmer_created_at p);
           farmer_updated_at := with_default (Some now) (ins_farmer_updated_at p);
           crop_details := with_default (Some (JArr [])) (ins_crop_details p);
           field_locations := with_default (Some (JArr [])) (ins_field_locations p) |} in
      if has_farmer_id farmers id
      then (PgErr (unique_violation "farmers_pkey"), farmers)
      else if has_phone_number farmers phone
      then (PgErr (unique_violation "farmers_phone_number_key"), farmers)
      else (PgOk row, farmers ++ [row])
  end.


(** [.select('*').eq('phone_number', phone)] *)
Definition farmers_by_phone (farmers : list farmer) (phone : string) : list farmer :=
  filter (fun r => String.eqb (phone_number r) phone = true) farmers.

(** [.single()]: the row when the result is exactly one row, else no data
    and the error PGRST116. *)
Definition single {A} (rows : list A) : option A * option pg_error :=
  match rows with
  | [r] => (Some r, None)
  | _ => (None, Some PGRST116)
  end.

(** [.maybeSingle()]: no row is no error. *)
Definition maybeSingle {A} (rows : list A) : option A * option pg_error :=
  match rows with
  | [] => (None, None)
  | [r] => (Some r, None)
  | _ => (None, Some PGRST116)
  end.

(** *** ivr_calls *)

Definition call_types : list string :=
  [ "traditional_ivr"; "elevenlabs_voice"; "whatsapp"; "whatsapp_sent";
    "whatsapp_delivered"; "whatsapp_read" ].

Record ivr_call := IvrCall {
  call_id : uuid;                          (* PRIMARY KEY DEFAULT gen_random_uuid() *)
  call_farmer_id : option uuid;            (* REFERENCES farmers(id) *)
  call_time : option timestamptz;          (* DEFAULT now() *)
  crop_selected : option string;
  crop_condition : option Z;               (* CHECK (crop_condition BETWEEN 1 AND 3) *)
  rain_recent : option bool;               (* DEFAULT false *)
  opted_in_carbon : option bool;           (* DEFAULT false *)
  transcript : option string;
  call_duration : option Z;                (* DEFAULT 0 *)
  call_status : option string;             (* DEFAULT 'completed' *)
  call_created_at : option timestamptz;    (* DEFAULT now() *)
  call_type : option string                (* DEFAULT 'traditional_ivr', CHECK (call_type IN ...) *)
}.

Record ivr_call_insert := IvrCallInsert {
  ins_call_id : supplied uuid;
  ins_call_farmer_id : supplied uuid;
  ins_call_time : supplied timestamptz;
  ins_crop_selected : supplied string;
  ins_crop_condition : supplied Z;
  ins_rain_recent : supplied bool;
  ins_opted_in_carbon : supplied bool;
  ins_transcript : supplied string;
  ins_call_duration : supplied Z;
  ins_call_status : supplied string;
  ins_call_created_at : supplied timestamptz;
  ins_call_type : supplied string
}.

Definition references_farmer (farmers : list farmer) (id : option uuid) : bool :=
  match id with
  | None => true
  | Some i => has_farmer_id farmers i
  end.

Definition insert_ivr_call (now : timestamptz) (gen_random_uuid : uuid)
    (farmers : list farmer) (calls : list ivr_call) (p : ivr_call_insert)
    : pg_result ivr_call * list ivr_call :=
  match with_default (Some gen_random_uuid) (ins_call_id p) with
  | None => (PgErr (not_null_violation "id"), calls)
  | Some id =>
      let row :=
        {| call_id := id;
           call_farmer_id := with_default None (ins_call_farmer_id p);
           call_time := with_default (Some now) (ins_call_time p);
           crop_selected := with_default None (ins_crop_selected p);
           crop_condition := with_default None (ins_crop_condition p);
           rain_recent := with_default (Some false) (ins_rain_recent p);
           opted_in_carbon := with_default (Some false) (ins_opted_in_carbon p);
           transcript := with_default None (ins_transcript p);
           call_duration := with_default (Some 0) (ins_call_duration p);
           call_status := with_default (Some "completed") (ins_call_status p);
           call_created_at := with_default (Some now) (ins_call_created_at p);
           call_type := with_default (Some "traditional_ivr") (ins_call_type p) |} in
      if negb (check_between 1 3 (crop_condition row))
      then (PgErr (check_violation "ivr_calls_crop_condition_check"), calls)
      else if negb (check_in call_types (call_type row))
      then (PgErr (check_violation "ivr_calls_call_type_check"), calls)
      else if existsb (fun r => String.eqb (call_id r) id) calls
      then (PgErr (unique_violation "ivr_calls_pkey"), calls)
      else if negb (references_farmer farmers (call_farmer_id row))
      then (PgErr (foreign_key_violation "ivr_calls_farmer_id_fkey"), calls)
      else (PgOk row, calls ++ [row])
  end.

(** *** carbon_credits *)

Definition verification_statuses : list string :=
  [ "pending"; "verified"; "rejected" ].

Record carbon_credit := CarbonCredit {
  credit_id : uuid;                        (* PRIMARY KEY DEFAULT gen_random_uuid() *)
  credit_farmer_id : option uuid;          (* REFERENCES farmers(id) *)
  opt_in_date : date;                      (* NOT NULL *)
  practices_reported : option string;
  verification_status : option string;     (* DEFAULT 'pending', CHECK (... IN ...) *)
  estimated_credits : option number;       (* DEFAULT 0 *)
  verified_credits : option number;        (* DEFAULT 0 *)
  credit_price : option number;            (* DEFAULT 0 *)
  total_value : option number;             (* DEFAULT 0 *)
  registry_id : option string;
  credit_created_at : option timestamptz;  (* DEFAULT now() *)
  credit_updated_at : option timestamptz   (* DEFAULT now() *)
}.

Record carbon_credit_insert := CarbonCreditInsert {
  ins_credit_id : supplied uuid;
  ins_credit_farmer_id : supplied uuid;
  ins_opt_in_date : supplied date;
  ins_practices_reported : supplied string;
  ins_verification_status : supplied string;
  ins_estimated_credits : supplied number;
  ins_verified_credits : supplied number;
  ins_credit_price : supplied number;
  ins_total_value : supplied number;
  ins_registry_id : supplied string;
  ins_credit_created_at : supplied timestamptz;
  ins_credit_updated_at : supplied timestamptz
}.

(** The conversion of the payload to the types of the columns, which comes
    before every constraint: the first numeric column that overflows. *)
Definition numeric_overflow (p : carbon_credit_insert) : option pg_error :=
  if negb (fits_numeric numeric_10_2
             (with_default (Some 0%float) (ins_estimated_credits p)))
  then Some (numeric_value_out_of_range "estimated_credits")
  else if negb (fits_numeric numeric_10_2
                  (with_default (Some 0%float) (ins_verified_credits p)))
  then Some (numeric_value_out_of_range "verified_credits")
  else if negb (fits_numeric numeric_10_2
                  (with_default (Some 0%float) (ins_credit_price p)))
  then Some (numeric_value_out_of_range "credit_price")
  else if negb (fits_numeric numeric_12_2
                  (with_default (Some 0%float) (ins_total_value p)))
  then Some (numeric_value_out_of_range "total_value")
  else None.

Definition insert_carbon_credit (now : timestamptz) (gen_random_uuid : uuid)
    (farmers : list farmer) (credits : list carbon_credit)
    (p : carbon_credit_insert) : pg_result carbon_credit * list carbon_credit :=
  match numeric_overflow p,
        with_default (Some gen_random_uuid) (ins_credit_id p),
        with_default None (ins_opt_in_date p) with
  | Some e, _, _ => (PgErr e, credits)
  | None, None, _ => (PgErr (not_null_violation "id"), credits)
  | None, Some _, None => (PgErr (not_null_violation "opt_in_date"), credits)
  | None, Some id, Some day =>
      let row :=
        {| credit_id := id;
           credit_farmer_id := with_default None (ins_credit_farmer_id p);
           opt_in_date := day;
           practices_reported := with_default None (ins_practices_reported p);
           verification_status := with_default (Some "pending") (ins_verification_status p);
           estimated_credits := with_default (Some 0%float) (ins_estimated_credits p);
           verified_credits := with_default (Some 0%float) (ins_verified_credits p);
           credit_price := with_default (Some 0%float) (ins_credit_price p);
           total_value := with_default (Some 0%float) (ins_total_value p);
           registry_id := with_default None (ins_registry_id p);
           credit_created_at := with_default (Some now) (ins_credit_created_at p);
           credit_updated_at := with_default (Some now) (ins_credit_updated_at p) |} in
      if negb (check_in verification_statuses (verification_status row))
      then (PgErr (check_violation "carbon_credits_verification_status_check"), credits)
      else if existsb (fun r => String.eqb (credit_id r) id) credits
      then (PgErr (unique_violation "carbon_credits_pkey"), credits)
      else if negb (references_farmer farmers (credit_farmer_id row))
      then (PgErr (foreign_key_violation "carbon_credits_farmer_id_fkey"), credits)
      else (PgOk row, credits ++ [row])
  end.

(** [UPDATE carbon_credits SET verification_status = s WHERE id = i]: the
    CHECK is evaluated on every row the statement rewrites. *)
Definition set_verification_status (credits : list carbon_credit) (id : uuid)
    (s : option string) : option pg_error * list carbon_credit :=
  if existsb (fun r => String.eqb (credit_id r) id) credits
     && negb (check_in verification_statuses s)
  then (Some (check_violation "carbon_credits_verification_status_check"), credits)
  else
    (None,
     map (fun r =>
            if String.eqb (credit_id r) id
            then {| credit_id := credit_id r;
                    credit_farmer_id := credit_farmer_id r;
                    opt_in_date := opt_in_date r;
                    practices_reported := practices_reported r;
                    verification_status := s;
                    estimated_credits := estimated_credits r;
                    verified_credits := verified_credits r;
                    credit_price := credit_price r;
                    total_value := total_value r;
                    registry_id := registry_id r;
                    credit_created_at := credit_created_at r;
                    credit_updated_at := credit_updated_at r |}
            else r) credits).

(** *** api_credentials *)

Record api_credential := ApiCredential {
  cred_id : string;                        (* PRIMARY KEY DEFAULT 'main' *)
  credentials : json;                      (* NOT NULL DEFAULT '{}' *)
  cred_created_at : option timestamptz;    (* DEFAULT now() *)
  cred_updated_at : option timestamptz     (* DEFAULT now() *)
}.

Record api_credential_insert := ApiCredentialInsert {
  ins_cred_id : supplied string;
  ins_credentials : supplied json;
  ins_cred_created_at : supplied timestamptz;
  ins_cred_updated_at : supplied timestamptz
}.

(** The blob is stored as it was submitted; the order jsonb gives to the
    keys of an object is not modelled. *)
Definition insert_api_credential (now : timestamptz)
    (rows : list api_credential) (p : api_credential_insert)
    : option pg_error * list api_credential :=
  match with_default (Some "main") (ins_cred_id p),
        with_default (Some (JObj [])) (ins_credentials p) with
  | None, _ => (Some (not_null_violation "id"), rows)
  | Some _, None => (Some (not_null_violation "credentials"), rows)
  | Some id, Some blob =>
      if existsb (fun r => String.eqb (cred_id r) id) rows
      then (Some (unique_violation "api_credentials_pkey"), rows)
      else
        (None,
         rows ++ [ {| cred_id := id;
                      credentials := blob;
                      cred_created_at := with_default (Some now) (ins_cred_created_at p);
                      cred_updated_at := with_default (Some now) (ins_cred_updated_at p) |} ])
  end.

(** [.update({ credentials, updated_at }).eq('id', id)] *)
Definition update_api_credential (rows : list api_credential) (id : string)
    (blob : json) (updated_at : timestamptz) : option pg_error * list api_credential :=
  (None,
   map (fun r =>
          if String.eqb (cred_id r) id
          then {| cred_id := cred_id r;
                  credentials := blob;
                  cred_created_at := cred_created_at r;
                  cred_updated_at := Some updated_at |}
          else r) rows).

(** [.select('*').eq('id', id)] *)
Definition api_credentials_by_id (rows : list api_credential) (id : string)
    : list api_credential :=
  filter (fun r => String.eqb (cred_id r) id = true) rows.

(** *** What the CHECK constraints say of a stored row *)

Definition credit_checked (r : carbon_credit) : Prop :=
  verification_status r = None
  \/ exists s, verification_status r = Some s /\ In s verification_statuses.

Definition call_checked (r : ivr_call) : Prop :=
  (crop_condition r = None
   \/ exists n, crop_condition r = Some n /\ (1 <= n <= 3)%Z)
  /\ (call_type r = None
      \/ exists t, call_type r = Some t /\ In t call_types).

(** *** The database under a sequence of statements *)

Record database := Database {
  farmers : list farmer;
  ivr_calls : list ivr_call;
  carbon_credits : list carbon_credit;
  api_credentials : list api_credential
}.

Definition empty_database : database :=
  {| farmers := []; ivr_calls := []; carbon_credits := []; api_credentials := [] |}.

Inductive statement :=
| InsertFarmer (now : timestamptz) (gen_random_uuid : uuid) (p : farmer_insert)
| InsertIvrCall (now : timestamptz) (gen_random_uuid : uuid) (p : ivr_call_insert)
| InsertCarbonCredit (now : timestamptz) (gen_random_uuid : uuid) (p : carbon_credit_insert)
| SetVerificationStatus (id : uuid) (s : option string).

Definition execute (db : database) (st : statement) : database :=
  match st with
  | InsertFarmer now gen p =>
      {| farmers := snd (insert_farmer now gen (farmers db) p);
         ivr_calls := ivr_calls db;
         carbon_credits := carbon_credits db;
         api_credentials := api_credentials db |}
  | InsertIvrCall now gen p =>
      {| farmers := farmers db;
         ivr_calls := snd (insert_ivr_call now gen (farmers db) (ivr_calls db) p);
         carbon_credits := carbon_credits db;
         api_credentials := api_credentials db |}
  | InsertCarbonCredit now gen p =>
      {| farmers := farmers db;
         ivr_calls := ivr_calls db;
         carbon_credits :=
           snd (insert_carbon_credit now gen (farmers db) (carbon_credits db) p);
         api_credentials := api_credentials db |}
  | SetVerificationStatus id s =>
      {| farmers := farmers db;
         ivr_calls := ivr_calls db;
         carbon_credits := snd (set_verification_status (carbon_credits db) id s);
         api_credentials := api_credentials db |}
  end.

Definition execute_all (db : database) (sts : list statement) : database :=
  fold_left execute sts db.

End Schema.

(* ------------------------------------------------------------------------- *)
(** ** The carbon-credit calculator (src/services/carbonCreditService.ts) *)

Module CarbonCreditService.
Import JS.
Local Open Scope float_scope.

Definition creditRates : list (string * number) :=
  [ ("no-till", 0.5);
    ("cover-cropping", 0.3);
    ("rotational-grazing", 0.4);
    ("agroforestry", 0.8);
    ("precision-agriculture", 0.2);
    ("organic-farming", 0.6) ].

Definition cropMultipliers : list (string * number) :=
  [ ("corn", 1.0);
    ("soy", 1.1);
    ("wheat", 0.9);
    ("rice", 1.2);
    ("cotton", 0.8) ].

Section Runtime.

Variable rt : runtime.

(** The body of [practices.forEach]: one step of the accumulation. *)
Definition add_practice (acreage : number) (estimatedCredits : number)
    (practice : string) : number :=
  let rate := or_else (get rt creditRates practice) (VNumber 0.1) in
  estimatedCredits + ToNumber rate * acreage.

Definition calculateEstimatedCredits (practices : list string)
    (acreage : number) (cropType : string) : number :=
  let estimatedCredits := fold_left (add_practice acreage) practices 0 in
  let multiplier :=
    or_else (get rt cropMultipliers (toLowerCase cropType)) (VNumber 1.0) in
  Math_round (estimatedCredits * ToNumber multiplier * 100) / 100.

End Runtime.

(** *** The documented calculation

    The tables as the specification words them: a rate per listed practice
    and 0.1 for any other one, a multiplier per listed crop (compared
    without regard to case) and 1.0 for any other one. *)
Definition documented_rate (practice : string) : number :=
  if String.eqb practice "no-till" then 0.5
  else if String.eqb practice "cover-cropping" then 0.3
  else if String.eqb practice "rotational-grazing" then 0.4
  else if String.eqb practice "agroforestry" then 0.8
  else if String.eqb practice "precision-agriculture" then 0.2
  else if String.eqb practice "organic-farming" then 0.6
  else 0.1.

Definition documented_multiplier (cropType : string) : number :=
  let crop := toLowerCase cropType in
  if String.eqb crop "corn" then 1.0
  else if String.eqb crop "soy" then 1.1
  else if String.eqb crop "wheat" then 0.9
  else if String.eqb crop "rice" then 1.2
  else if String.eqb crop "cotton" then 0.8
  else 1.0.

Definition round2 (x : number) : number := Math_round (x * 100) / 100.

Definition documented_credits (practices : list string) (acreage : number)
    (cropType : string) : number :=
  round2 (fold_left (fun sum p => sum + documented_rate p * acreage) practices 0
          * documented_multiplier cropType).

End CarbonCreditService.

(* ------------------------------------------------------------------------- *)
(** ** The edge function carbon-credit-integration

    The handler is a function of the request, of the tables it reads and
    writes, and of what the run takes from outside ([world]): the clock, the
    draws of [Math.random], the identifier the database generates, and
    whether the database client could be created and reached. *)

Module CarbonCreditIntegration.
Import JS Schema.
Local Open Scope float_scope.

Record CarbonCreditRequest := {
  farmerId : string;
  practices : list string;
  acreage : number;
  cropType : string
}.

Record request := Request {
  method : string;
  (** [new URL(req.url).searchParams.get("farmer_id")], [None] for null *)
  farmer_id_param : option string;
  (** [await req.json()], which throws on a body that is not JSON *)
  json_body : completion CarbonCreditRequest
}.

Record world := World {
  (** [createClient(url, key)] throws when the URL or the key is missing *)
  createClient : completion unit;
  (** a failure of the SELECT request of a run, reported in its [error]
      (which the POST branch does not read, lines 66-70) *)
  select_failure : option pg_error;
  (** a failure of the INSERT or UPDATE request of lines 75-103, which is a
      request of its own *)
  write_failure : option pg_error;
  Math_random : nat -> number;
  now : timestamptz;
  (** [new Date().toISOString().split('T')[0]] *)
  today : date;
  (** [Date.now()] in decimal *)
  Date_now : string;
  gen_random_uuid : uuid
}.

Record tables := Tables {
  farmers : list farmer;
  carbon_credits : list carbon_credit
}.

(** *** Lexical scopes

    The [const] and [let] declarations visible at a point of the handler, by
    block.  An identifier that no enclosing block declares and that is not a
    global throws a ReferenceError when it is evaluated. *)
Inductive binding :=
| BTable (o : list (string * number))
| BValue.

Definition scope := list (string * binding).

Definition global_scope : scope :=
  [ ("Object", BValue); ("Math", BValue); ("JSON", BValue); ("Response", BValue);
    ("URL", BValue); ("Deno", BValue); ("Error", BValue); ("Date", BValue);
    ("console", BValue) ].

Definition module_scope : scope :=
  [ ("serve", BValue); ("createClient", BValue); ("corsHeaders", BValue) ]
  ++ global_scope.

Definition handler_scope : scope := ("req", BValue) :: module_scope.

Definition try_scope : scope := ("supabase", BValue) :: handler_scope.

(** the block of [if (req.method === "POST") { ... }] *)
Definition post_scope : scope :=
  [ ("farmerId", BValue); ("practices", BValue); ("acreage", BValue);
    ("cropType", BValue); ("estimatedCredits", BValue);
    ("creditRates", BTable CarbonCreditService.creditRates);
    ("cropMultipliers", BTable CarbonCreditService.cropMultipliers);
    ("multiplier", BValue); ("carbonPrice", BValue);
    ("existingCredit", BValue); ("result", BValue);
    ("verificationResult", BValue) ]
  ++ try_scope.

(** the block of [if (req.method === "GET") { ... }] *)
Definition get_scope : scope :=
  [ ("url", BValue); ("farmerId", BValue); ("carbonCredit", BValue);
    ("error", BValue); ("marketData", BValue) ]
  ++ try_scope.

Definition ReferenceError (x : string) : thrown :=
  ErrorObject "ReferenceError" (x +:+ " is not defined").

(** Evaluation of an identifier that is used as an object. *)
Definition resolve_table (sc : scope) (x : string)
    : completion (list (string * number)) :=
  match own_property sc x with
  | Some (BTable o) => Normal o
  | Some BValue => Normal []
  | None => Throw (ReferenceError x)
  end.

(** [Object.keys(o)] *)
Definition Object_keys (o : list (string * number)) : json :=
  JArr (map (fun kv => JStr (fst kv)) o).

Definition round2 (x : number) : number := Math_round (x * 100) / 100.

(** A number in a JSON payload: NaN and the infinities are written [null],
    and [-0] is written [0]. *)
Definition sent_number (n : number) : option number :=
  if PrimFloat.is_nan n || PrimFloat.is_infinity n then None
  else Some (if PrimFloat.is_zero n then 0 else n).

Definition number_column (n : number) : supplied number := Given (sent_number n).

(** [s.slice(-6)] on ASCII text *)
Definition slice_last6 (s : string) : string :=
  String.substring (String.length s - 6) 6 s.

Definition credits_of_farmer (credits : list carbon_credit) (farmerId : string)
    : list carbon_credit :=
  filter (fun r => credit_farmer_id r = Some farmerId) credits.

(** The columns a resubmission rewrites, in the rows of the farmer. *)
Definition rewrite_estimate (credits : list carbon_credit) (farmerId : string)
    (practices_text : string) (estimated price value : supplied number)
    (updated_at : timestamptz) : list carbon_credit :=
  map (fun r =>
         if bool_decide (credit_farmer_id r = Some farmerId)
         then {| credit_id := credit_id r;
                 credit_farmer_id := credit_farmer_id r;
                 opt_in_date := opt_in_date r;
                 practices_reported := Some practices_text;
                 verification_status := verification_status r;
                 estimated_credits := with_default (estimated_credits r) estimated;
                 verified_credits := verified_credits r;
                 credit_price := with_default (credit_price r) price;
                 total_value := with_default (total_value r) value;
                 registry_id := registry_id r;
                 credit_created_at := credit_created_at r;
                 credit_updated_at := Some updated_at |}
         else r) credits.

(** [.update({...}).eq("farmer_id", farmerId)] of lines 75-84.  The payload
    is converted to the types of the columns first: a number that overflows
    its column fails the statement, and the table is as before. *)
Definition update_estimate (credits : list carbon_credit) (farmerId : string)
    (practices_text : string) (estimated price value : supplied number)
    (updated_at : timestamptz) : option pg_error * list carbon_credit :=
  if negb (supplied_fits numeric_10_2 estimated)
  then (Some (numeric_value_out_of_range "estimated_credits"), credits)
  else if negb (supplied_fits numeric_10_2 price)
  then (Some (numeric_value_out_of_range "credit_price"), credits)
  else if negb (supplied_fits numeric_12_2 value)
  then (Some (numeric_value_out_of_range "total_value"), credits)
  else (None,
        rewrite_estimate credits farmerId practices_text estimated price value
          updated_at).

Section Handler.

Variable rt : runtime.
(** PostgREST's JSON rendering of a row. *)
Variable row_json : carbon_credit -> json.

(** *** The POST branch *)

(** [estimatedCredits] after the multiplier is applied (lines 35-60), with
    the two tables read through the block's scope. *)
Definition post_estimatedCredits (r : CarbonCreditRequest) : completion number :=
  try! creditRates := resolve_table post_scope "creditRates" in
  let estimatedCredits :=
    fold_left
      (fun sum practice =>
         let rate := or_else (get rt creditRates practice) (VNumber 0.1) in
         sum + ToNumber rate * acreage r)
      (practices r) 0 in
  try! cropMultipliers := resolve_table post_scope "cropMultipliers" in
  let multiplier :=
    or_else (get rt cropMultipliers (toLowerCase (cropType r))) (VNumber 1.0) in
  Normal (estimatedCredits * ToNumber multiplier).

Definition verificationResult : json :=
  JObj [ ("status", JStr "submitted");
         ("estimatedTimeframe", JStr "14-21 days");
         ("requiredDocuments",
          JArr [ JStr "Soil carbon analysis"; JStr "Practice implementation photos";
                 JStr "Field management records" ]);
         ("nextSteps",
          JArr [ JStr "Site verification scheduled"; JStr "Documentation review";
                 JStr "Credit issuance upon approval" ]) ].

Definition post_branch (w : world) (db : tables) (req : request)
    : tables * completion response :=
  match json_body req with
  | Throw e => (db, Throw e)
  | Normal r =>
      match post_estimatedCredits r with
      | Throw e => (db, Throw e)
      | Normal estimatedCredits =>
          let carbonPrice := 15 + Math_random w 0 * 10 in
          let existingCredit :=
            match select_failure w with
            | Some _ => None
            | None => fst (single (credits_of_farmer (carbon_credits db) (farmerId r)))
            end in
          let practices_text := String.concat ", " (practices r) in
          let estimated := number_column (round2 estimatedCredits) in
          let price := number_column (round2 carbonPrice) in
          let value := number_column (round2 (estimatedCredits * carbonPrice)) in
          let result :=
            match write_failure w with
            | Some e => (PgErr e, carbon_credits db)
            | None =>
                match existingCredit with
                | Some _ =>
                    match update_estimate (carbon_credits db) (farmerId r)
                            practices_text estimated price value (now w) with
                    | (Some e, credits') => (PgErr e, credits')
                    | (None, credits') =>
                        match single (credits_of_farmer credits' (farmerId r)) with
                        | (Some row, _) => (PgOk row, credits')
                        | (None, _) => (PgErr PGRST116, credits')
                        end
                    end
                | None =>
                    insert_carbon_credit (now w) (gen_random_uuid w)
                      (farmers db) (carbon_credits db)
                      {| ins_credit_id := Omitted;
                         ins_credit_farmer_id := Given (Some (farmerId r));
                         ins_opt_in_date := Given (Some (today w));
                         ins_practices_reported := Given (Some practices_text);
                         ins_verification_status := Given (Some "pending");
                         ins_estimated_credits := estimated;
                         ins_verified_credits := Omitted;
                         ins_credit_price := price;
                         ins_total_value := value;
                         ins_registry_id :=
                           Given (Some ("AGS-" +:+ Date_now w +:+ "-"
                                        +:+ slice_last6 (farmerId r)));
                         ins_credit_created_at := Omitted;
                         ins_credit_updated_at := Omitted |}
                end
            end in
          let db' := {| farmers := farmers db; carbon_credits := snd result |} in
          match fst result with
          | PgErr e => (db', Throw (new_Error (error_message e)))
          | PgOk row =>
              (db',
               Normal
                 (Response 200
                    (Json
                       (JObj
                          [ ("carbonCredit", row_json row);
                            ("verification", verificationResult);
                            ("marketInfo",
                             JObj [ ("currentPrice", json_number carbonPrice);
                                    ("priceRange", JStr "$15-25 per credit");
                                    ("marketTrend", JStr "stable");
                                    ("projectedValue",
                                     json_number
                                       (round2 (estimatedCredits * carbonPrice))) ]) ]))))
          end
      end
  end.

(** *** The GET branch (lines 146-188) *)

Definition get_branch (w : world) (db : tables) (req : request)
    : completion response :=
  let farmerId := farmer_id_param req in
  if negb (match farmerId with Some s => str_truthy s | None => false end)
  then Throw (new_Error "farmer_id is required")
  else
    let '(carbonCredit, error) :=
      match select_failure w with
      | Some e => (None, Some e)
      | None =>
          single (credits_of_farmer (carbon_credits db)
                    (match farmerId with Some s => s | None => "" end))
      end in
    try! checked :=
      match error with
      | Some e =>
          if negb (String.eqb (code e) "PGRST116")
          then Throw (new_Error (error_message e))
          else Normal tt
      | None => Normal tt
      end in
    let currentPrice := 15 + Math_random w 0 * 10 in
    let marketData :=
      JObj [ ("currentPrice", json_number currentPrice);
             ("volume24h", json_number (1250 + Math_random w 1 * 500));
             ("priceChange", json_number ((Math_random w 2 - 0.5) * 4));
             ("topBuyers",
              JArr [ JStr "Microsoft"; JStr "Google"; JStr "Amazon"; JStr "Apple" ]);
             ("averageVerificationTime", JStr "18 days") ] in
    (* the argument of JSON.stringify, property by property *)
    try! rates := resolve_table get_scope "creditRates" in
    Normal
      (Response 200
         (Json
            (JObj
               [ ("carbonCredit",
                  match carbonCredit with Some row => row_json row | None => JNull end);
                 ("marketData", marketData);
                 ("eligiblePractices", Object_keys rates);
                 ("estimatedEarnings",
                  match carbonCredit with
                  | Some row =>
                      json_number
                        (round2
                           (match estimated_credits row with
                            | Some c => c
                            | None => 0
                            end * currentPrice))
                  | None => JNum 0
                  end) ]))).

(** The [catch] of lines 190-202. *)
Definition catch (e : thrown) : run :=
  {| console := [ console_error "Error in carbon-credit-integration:" e ];
     returned :=
       Some (Response 500
               (Json (JObj (stringify_fields
                              [ ("error", option_map JStr (message_of e)) ])))) |}.

(** The [try] block of lines 25-188: the tables after it, and the response
    it returns ([None] when no branch applies) or what it throws. *)
Definition try_block (w : world) (db : tables) (req : request)
    : tables * completion (option response) :=
  match createClient w with
  | Throw e => (db, Throw e)
  | Normal _ =>
      if String.eqb (method req) "POST"
      then let '(db', c) := post_branch w db req in
           (db', try! r := c in Normal (Some r))
      else if String.eqb (method req) "GET"
      then (db, try! r := get_branch w db req in Normal (Some r))
      else (db, Normal None)
  end.

Definition serve (w : world) (db : tables) (req : request) : tables * run :=
  if String.eqb (method req) "OPTIONS"
  then (db, {| console := []; returned := Some (Response 200 NoBody) |})
  else
    match try_block w db req with
    | (db', Normal r) => (db', {| console := []; returned := r |})
    | (db', Throw e) => (db', catch e)
    end.

End Handler.

End CarbonCreditIntegration.

(* ------------------------------------------------------------------------- *)
(** ** The client-side satellite service (src/services/sentinelHub.ts)

    [Math.sin] and the month of a date string are the host's: they are
    parameters of every function that uses them, and two runs on two hosts
    are two calls with two such parameters.  What a run takes from outside
    besides is the clock, of which the code reads the month
    ([new Date().getMonth()]). *)

Module SentinelHubClient.
Import JS.
Local Open Scope float_scope.

Record FieldBoundary := {
  field_name : string;
  latitude : number;
  longitude : number;
  bounding_box : option (list (list number))
}.

Record SentinelData := {
  bbox : list number;
  acquisitionDate : string;
  cloudCoverage : number;
  season : string;
  climateZone : string;
  qualityScore : number;
  fieldCount : nat;
  enhancedPrecision : bool;
  managementScore : string;
  apiResponse : bool
}.

Record SatelliteInsight := {
  farmerId : string;
  imageDate : string;
  ndviScore : number;
  soilMoisture : number;
  vegetationIndex : number;
  recommendation : string;
  sentinelData : SentinelData
}.

(** ToInt32 *)
Definition to_int32 (z : Z) : Z := ((z + 2 ^ 31) mod 2 ^ 32 - 2 ^ 31)%Z.

(** [charCodeAt] for a text in ASCII.  A character outside ASCII is one or
    two UTF-16 units in JavaScript and two to four bytes here. *)
Definition charCode (c : ascii) : Z := Z.of_nat (nat_of_ascii c).

(** One turn of the loop of [hashCode]: [hash << 5] wraps to 32 bits, the
    subtraction and the addition are exact, [hash & hash] wraps again. *)
Definition hash_step (hash : Z) (c : ascii) : Z :=
  to_int32 (to_int32 (hash * 32) - hash + charCode c)%Z.

Definition hashCode (str : string) : number :=
  of_Z (Z.abs (fold_left hash_step (list_ascii_of_string str) 0%Z)).

(** [arr[i]] of an array of numbers, converted by [Math.min] / [Math.max]:
    a missing element is undefined, hence NaN. *)
Definition element (coord : list number) (i : nat) : number := nth i coord nan.

Definition extend_box (box : number * number * number * number)
    (field : FieldBoundary) : number * number * number * number :=
  let with_point '(minLat, maxLat, minLng, maxLng) (lat lng : number) :=
    (Math_min minLat lat, Math_max maxLat lat,
     Math_min minLng lng, Math_max maxLng lng) in
  match bounding_box field with
  | Some (c :: cs) =>
      fold_left (fun b coord => with_point b (element coord 1) (element coord 0))
        (c :: cs) box
  | _ =>
      let buffer := 0.002 in
      let '(minLat, maxLat, minLng, maxLng) := box in
      (Math_min minLat (latitude field - buffer),
       Math_max maxLat (latitude field + buffer),
       Math_min minLng (longitude field - buffer),
       Math_max maxLng (longitude field + buffer))
  end.

Definition calculateOptimalBoundingBox (fieldBoundaries : list FieldBoundary)
    : list number :=
  let '(minLat, maxLat, minLng, maxLng) :=
    fold_left extend_box fieldBoundaries
      (infinity, neg_infinity, infinity, neg_infinity) in
  let buffer := 0.001 in
  [ minLng - buffer; minLat - buffer; maxLng + buffer; maxLat + buffer ].

Definition getSeasonalFactor (month latitude : number) : number :=
  if ge latitude 0 then
    if ge month 3 && le month 8 then 0.8 else 0.5
  else
    if ge month 9 || le month 2 then 0.8 else 0.5.

Definition getClimateFactor (latitude longitude : number) : number :=
  let absLat := Math_abs latitude in
  if le absLat 23.5 then 0.9
  else if le absLat 35 then 0.8
  else if le absLat 60 then 0.7
  else 0.4.

Definition getClimateZone (latitude longitude : number) : string :=
  let absLat := Math_abs latitude in
  if le absLat 23.5 then "Tropical"
  else if le absLat 35 then "Subtropical"
  else if le absLat 60 then "Temperate"
  else "Polar".

Definition getSeason (month latitude : number) : string :=
  if ge latitude 0 then
    if ge month 3 && le month 5 then "Spring"
    else if ge month 6 && le month 8 then "Summer"
    else if ge month 9 && le month 11 then "Fall"
    else "Winter"
  else
    if ge month 9 || le month 2 then "Summer"
    else if ge month 3 && le month 5 then "Fall"
    else if ge month 6 && le month 8 then "Winter"
    else "Spring".

(** [fieldBoundaries?.length || 1] *)
Definition count_fields (fieldBoundaries : option (list FieldBoundary)) : nat :=
  match fieldBoundaries with
  | Some (f :: fs) => List.length (f :: fs)
  | _ => 1
  end.

(** The clock of a run: [new Date().getMonth()]. *)
Record clock := { now_month : number }.

Definition generateEnhancedRecommendation (c : clock) (ndvi soilMoisture : number)
    (latitude longitude : number) (fieldBoundaries : option (list FieldBoundary))
    : string :=
  let climateZone := getClimateZone latitude longitude in
  let month := now_month c in
  let season := getSeason month latitude in
  let fieldCount := count_fields fieldBoundaries in
  let hasMultipleFields := (1 <? fieldCount)%nat in
  let recommendation := "" in
  let recommendation :=
    if hasMultipleFields
    then recommendation +:+ "Multi-field analysis (" +:+ pretty fieldCount
         +:+ " fields mapped): "
    else recommendation in
  let recommendation :=
    if gt ndvi 0.7 && gt soilMoisture 60 then
      recommendation
      +:+ ("Excellent crop health detected across "
           +:+ (if hasMultipleFields then "all fields" else "the field")
           +:+ " in " +:+ toLowerCase climateZone +:+ " " +:+ toLowerCase season
           +:+ " conditions. ")
      +:+ (if hasMultipleFields
           then "Continue current field rotation practices and monitor for optimal harvest timing across fields. "
           else "Continue current practices and consider harvest timing optimization. ")
      +:+ "Field-specific monitoring recommended for the next 2-3 weeks."
    else if gt ndvi 0.6 && gt soilMoisture 50 then
      recommendation
      +:+ ("Good vegetation health observed for " +:+ toLowerCase season +:+ " season. ")
      +:+ (if hasMultipleFields
           then "Maintain current irrigation schedule and consider field-specific fertilization based on individual field performance. "
           else "Maintain current irrigation schedule and monitor crop development. ")
      +:+ "Consider precision agriculture techniques for optimization."
    else if gt ndvi 0.4 && gt soilMoisture 40 then
      recommendation
      +:+ ("Moderate vegetation health in " +:+ toLowerCase climateZone +:+ " zone. ")
      +:+ (if hasMultipleFields
           then "Field-specific analysis shows variation - prioritize irrigation and fertilization for underperforming fields. "
           else "Consider increasing irrigation frequency and check for nutrient deficiencies. ")
      +:+ "Soil testing recommended for targeted interventions."
    else if gt ndvi 0.3 && lt soilMoisture 30 then
      recommendation
      +:+ ("Low soil moisture detected during " +:+ toLowerCase season +:+ " season. ")
      +:+ (if hasMultipleFields
           then "Immediate field-specific irrigation recommended - prioritize most critical fields first. "
           else "Immediate irrigation recommended to prevent crop stress. ")
      +:+ "Consider drought-resistant varieties for future planting cycles."
    else if lt ndvi 0.3 then
      recommendation
      +:+ ("Poor vegetation index detected in " +:+ toLowerCase climateZone
           +:+ " conditions. ")
      +:+ (if hasMultipleFields
           then "Urgent field-by-field assessment required - investigate potential causes across all mapped areas. "
           else "Investigate potential causes: pests, disease, or severe nutrient deficiency. ")
      +:+ "Consult agricultural extension services for immediate intervention."
    else
      recommendation
      +:+ ("Mixed conditions detected for " +:+ toLowerCase season +:+ " "
           +:+ toLowerCase climateZone +:+ " farming. ")
      +:+ (if hasMultipleFields
           then "Field-specific interventions recommended based on individual field performance data. "
           else "Consider targeted interventions based on field observations. ")
      +:+ "Enhanced monitoring recommended over the next 1-2 weeks." in
  let recommendation :=
    if hasMultipleFields
    then recommendation
         +:+ " Field management advantage: Multiple mapped fields enable precision agriculture and optimized resource allocation."
    else recommendation in
  if String.eqb climateZone "Tropical" && gt soilMoisture 70
  then recommendation +:+ " Monitor for fungal diseases in high humidity conditions."
  else if String.eqb climateZone "Arid" && lt soilMoisture 40
  then recommendation +:+ " Water conservation techniques strongly recommended."
  else recommendation.

Section Host.

(** [Math.sin] of the engine the run is on; the language leaves its last
    digits to the implementation. *)
Variable Math_sin : number -> number.
(** [new Date(date).getMonth()] on the host of the run, NaN for a string
    that is no date.  A date without a time is midnight UTC, and the month is
    read in the time zone of the host: west of Greenwich the first day of a
    month falls in the month before. *)
Variable Date_getMonth : string -> number.

(** [seededRandom(seed)]: the closure's variable [x] is the state of the
    generator; a call of the closure returns the draw and the next state. *)
Definition seededRandom (seed : number) : number := Math_sin seed * 10000.

Definition random (x : number) : number * number :=
  let x := Math_sin x * 10000 in
  (x - Math_floor x, x).

Definition generateEnhancedMockData (c : clock) (farmerId : string)
    (latitude longitude : number) (date : string)
    (fieldBoundaries : option (list FieldBoundary)) : SatelliteInsight :=
  let seed := hashCode (farmerId +:+ date) in
  let x := seededRandom seed in
  let fieldCount := count_fields fieldBoundaries in
  let hasMultipleFields := (1 <? fieldCount)%nat in
  let latitudeFactor := Math_max 0.3 (1 - Math_abs latitude / 90) in
  let fieldDiversityBonus := if hasMultipleFields then 0.05 else 0 in
  let month := Date_getMonth date in
  let seasonalFactor := getSeasonalFactor month latitude in
  let climateFactor := getClimateFactor latitude longitude in
  let managementFactor := if hasMultipleFields then 1.1 else 1.0 in
  let baseNDVI :=
    (latitudeFactor * seasonalFactor * climateFactor * managementFactor)
    + fieldDiversityBonus in
  let '(r1, x) := random x in
  let ndviVariation := (r1 - 0.5) * 0.15 in
  let ndviScore := Math_max 0.1 (Math_min 0.9 (baseNDVI + ndviVariation)) in
  let baseMoisture := ndviScore * 55 + 25 in
  let '(r2, x) := random x in
  let fieldVariation :=
    if hasMultipleFields then (r2 - 0.5) * 15 else (r2 - 0.5) * 20 in
  let soilMoisture := Math_max 15 (Math_min 85 (baseMoisture + fieldVariation)) in
  let vegetationIndex := ndviScore * 95 + (if hasMultipleFields then 5 else 0) in
  let recommendation :=
    generateEnhancedRecommendation c ndviScore soilMoisture latitude longitude
      fieldBoundaries in
  let '(r3, x) := random x in
  let '(r4, x) := random x in
  {| farmerId := farmerId;
     imageDate := date;
     ndviScore := Math_round (ndviScore * 1000) / 1000;
     soilMoisture := Math_round (soilMoisture * 10) / 10;
     vegetationIndex := Math_round (vegetationIndex * 10) / 10;
     recommendation := recommendation;
     sentinelData :=
       {| bbox :=
            match fieldBoundaries with
            | Some fields => calculateOptimalBoundingBox fields
            | None =>
                [ longitude - 0.005; latitude - 0.005;
                  longitude + 0.005; latitude + 0.005 ]
            end;
          acquisitionDate := date;
          cloudCoverage := Math_round (r3 * 25);
          season := getSeason month latitude;
          climateZone := getClimateZone latitude longitude;
          qualityScore := Math_round ((0.75 + r4 * 0.25) * 100) / 100;
          fieldCount := fieldCount;
          enhancedPrecision := hasMultipleFields;
          managementScore := if hasMultipleFields then "Advanced" else "Standard";
          apiResponse := false |} |}.

(** *** [getSatelliteInsights] (lines 74-173)

    What a run takes from outside: the clock, whether [loadCredentials]
    found credentials (it returns false on any failure), and the answer to
    the POST to the edge function ([response.data], or what [axios] threw).
    The console output of the client is not modelled. *)
Record world := {
  run_clock : clock;
  hasCredentials : bool;
  post : completion json
}.

(** The result: the vendor's data as the edge function sent it, with the
    [sentinelData] the client adds, or the mock insight. *)
Inductive insight :=
| FromApi (data : list (string * json))
| Mock (i : SatelliteInsight).

Definition FieldBoundary_json (f : FieldBoundary) : json :=
  JObj (stringify_fields
          [ ("field_name", Some (JStr (field_name f)));
            ("latitude", Some (json_number (latitude f)));
            ("longitude", Some (json_number (longitude f)));
            ("bounding_box",
             option_map (fun box => JArr (map (fun c => JArr (map json_number c)) box))
               (bounding_box f)) ]).

(** [response.data && response.data.farmerId] *)
Definition delivered (w : world) : bool :=
  hasCredentials w
  && match post w with
     | Normal (JObj data) =>
         match field data "farmerId" with
         | Some v => json_truthy v
         | None => false
         end
     | _ => false
     end.

Definition getSatelliteInsights (w : world) (farmerId : string)
    (latitude longitude : number) (startDate endDate : string)
    (fieldBoundaries : option (list FieldBoundary)) : insight :=
  let bbox :=
    match fieldBoundaries with
    | Some (f :: fs) => calculateOptimalBoundingBox (f :: fs)
    | _ => [ longitude - 0.005; latitude - 0.005; longitude + 0.005; latitude + 0.005 ]
    end in
  if delivered w then
    FromApi
      (define_property
         (spread (match post w with Normal d => Some d | Throw _ => None end))
         "sentinelData"
         (Some (JObj
            (fold_left (fun o kv => define_property o (fst kv) (snd kv))
               [ ("dataSource", Some (JStr "Sentinel Hub API"));
                 ("apiResponse", Some (JBool true));
                 ("fieldBoundaries",
                  Some (JArr (map FieldBoundary_json
                                (match fieldBoundaries with Some l => l | None => [] end))));
                 ("bbox", Some (JArr (map json_number bbox)));
                 ("enhancedPrecision",
                  option_map (fun l => JBool (0 <? List.length l)%nat) fieldBoundaries) ]
               (spread (match post w with
                        | Normal (JObj data) => field data "sentinelData"
                        | _ => None
                        end))))))
  else
    Mock (generateEnhancedMockData (run_clock w) farmerId latitude longitude endDate
            fieldBoundaries).

End Host.

End SentinelHubClient.

(* ------------------------------------------------------------------------- *)
(** ** The edge function sentinel-hub-integration

    What a run takes from outside: the answers of the Sentinel Hub endpoints
    and the draws of [Math.random]. *)

Module SentinelHubIntegration.
Import JS.
Local Open Scope float_scope.

Record world := World {
  (** POST /oauth/token: the token of a 2xx answer, or what went wrong *)
  oauth : completion string;
  (** POST /api/v1/process for a layer: the image in base64, or what went
      wrong (a failed fetch, or [HTTP status: text] of an answer not ok) *)
  process : string -> completion string;
  Math_random : nat -> number
}.

Record SentinelData := {
  bbox : list number;
  acquisitionDate : string;
  cloudCoverage : number;
  processingLevel : string;
  apiResponse : bool;
  dataSource : string
}.

Record SatelliteInsight := {
  insight_farmerId : string;
  insight_imageDate : string;
  ndviScore : number;
  soilMoisture : number;
  vegetationIndex : number;
  recommendation : string;
  sentinelData : SentinelData
}.

(** An entry of the images object: [{ url }] or [{ error }]. *)
Inductive image :=
| ImageUrl (url : string)
| ImageError (error : string).

(** [getAccessToken] of a service instance that holds no token yet. *)
Definition getAccessToken (w : world) (clientId clientSecret : string)
    : list console_line * completion string :=
  if negb (str_truthy clientId) || negb (str_truthy clientSecret)
  then ([], Throw (new_Error "Sentinel Hub credentials not provided"))
  else
    match oauth w with
    | Normal token => ([], Normal token)
    | Throw e =>
        ([ console_error "Failed to get Sentinel Hub access token:" e ],
         Throw (new_Error "Failed to authenticate with Sentinel Hub"))
    end.

Definition testConnection (w : world) (clientId clientSecret : string)
    : list console_line * (bool * string) :=
  if negb (str_truthy clientId) || negb (str_truthy clientSecret)
  then ([], (false, "Sentinel Hub credentials not provided. Please configure them in Settings."))
  else
    match getAccessToken w clientId clientSecret with
    | (log, Normal _) => (log, (true, "Successfully connected to Sentinel Hub API"))
    | (log, Throw e) =>
        (log, (false, "Failed to connect to Sentinel Hub: " +:+ message_or_unknown e))
    end.

(** the ids of [getImageLayers()] *)
Definition image_layer_ids : list string := [ "rgb"; "ndvi"; "moisture"; "infrared" ].

(** the [format] of every layer *)
Definition layer_format : string := "image/png".

Definition generateRecommendation (ndvi : number) : string :=
  if gt ndvi 0.6 then "Excellent vegetation health detected. Continue current practices."
  else if gt ndvi 0.4 then "Moderate vegetation health. Consider irrigation or fertilization."
  else "Low vegetation index detected. Immediate attention required.".

(** The object both branches of [getSatelliteInsights] build; the draws of
    [Math.random] are taken in the order of the properties. *)
Definition insight_object (w : world) (farmerId : string)
    (latitude longitude : number) (endDate : string)
    (apiResponse : bool) (dataSource : string) : SatelliteInsight :=
  {| insight_farmerId := farmerId;
     insight_imageDate := endDate;
     ndviScore := 0.3 + Math_random w 0 * 0.5;
     soilMoisture := 20 + Math_random w 1 * 60;
     vegetationIndex := (0.3 + Math_random w 2 * 0.5) * 100;
     recommendation := generateRecommendation (0.3 + Math_random w 3 * 0.5);
     sentinelData :=
       {| bbox := [ longitude - 0.005; latitude - 0.005;
                    longitude + 0.005; latitude + 0.005 ];
          acquisitionDate := endDate;
          cloudCoverage := Math_random w 4 * 30;
          processingLevel := "L2A";
          apiResponse := apiResponse;
          dataSource := dataSource |} |}.

Definition getSatelliteInsights (w : world) (clientId clientSecret : string)
    (farmerId : string) (latitude longitude : number) (startDate endDate : string)
    : list console_line * SatelliteInsight :=
  match getAccessToken w clientId clientSecret with
  | (log, Normal token) =>
      (log, insight_object w farmerId latitude longitude endDate true "Sentinel Hub API")
  | (log, Throw e) =>
      (log ++ [ console_error "Failed to get satellite insights:" e ],
       insight_object w farmerId latitude longitude endDate false "Mock Data (API Error)")
  end.

(** *** URLs of the Google Maps Static API *)

Definition hex_digit (n : nat) : ascii :=
  ascii_of_nat (if (n <? 10)%nat then 48 + n else 55 + n).

Definition unreserved (c : ascii) : bool :=
  let n := nat_of_ascii c in
  ((48 <=? n) && (n <=? 57) || (65 <=? n) && (n <=? 90) || (97 <=? n) && (n <=? 122)
   || (n =? 42) || (n =? 45) || (n =? 46) || (n =? 95))%nat.

(** The application/x-www-form-urlencoded serialisation of a string, byte
    by byte of its UTF-8 form. *)
Fixpoint form_urlencode (s : string) : string :=
  match s with
  | EmptyString => EmptyString
  | String c s' =>
      let n := nat_of_ascii c in
      if unreserved c then String c (form_urlencode s')
      else if (n =? 32)%nat then String "+" (form_urlencode s')
      else String "%" (String (hex_digit (n / 16)) (String (hex_digit (n mod 16))
                                                      (form_urlencode s')))
  end.

(** [new URLSearchParams(...).toString()] *)
Definition URLSearchParams_toString (params : list (string * string)) : string :=
  String.concat "&"
    (map (fun kv => form_urlencode (fst kv) +:+ "=" +:+ form_urlencode (snd kv)) params).

Definition marker_colors : list (string * string) :=
  [ ("ndvi", "green"); ("moisture", "blue"); ("infrared", "red") ].

Section Host.

Variable rt : runtime.
(** The decimal form of a number in a template literal. *)
Variable Number_toString : number -> string.
(** The string form of the member of [Object.prototype] of a given name. *)
Variable member_text : string -> string.

(** One turn of the loop over the requested layers. *)
Definition fetch_layer (w : world)
    (acc : list console_line * list (string * image)) (layerId : string)
    : list console_line * list (string * image) :=
  let '(log, results) := acc in
  if existsb (String.eqb layerId) image_layer_ids then
    match process w layerId with
    | Normal base64 =>
        (log,
         set_property rt results layerId
           (ImageUrl ("data:" +:+ layer_format +:+ ";base64," +:+ base64)))
    | Throw e =>
        (log ++ [ console_error ("Error fetching " +:+ layerId +:+ " layer:") e ],
         set_property rt results layerId (ImageError (message_or_unknown e)))
    end
  else (log, set_property rt results layerId (ImageError "Layer not found")).

Definition fetchSatelliteImages (w : world) (clientId clientSecret : string)
    (latitude longitude : number) (imageDate : string) (layers : list string)
    : list console_line * completion (list (string * image)) :=
  match getAccessToken w clientId clientSecret with
  | (log, Throw e) =>
      (log ++ [ console_error "Error in fetchSatelliteImages:" e ], Throw e)
  | (log, Normal token) =>
      let '(log', results) := fold_left (fetch_layer w) layers (log, []) in
      (log', Normal results)
  end.

Definition ToString (v : value) : string :=
  match v with
  | VUndefined => "undefined"
  | VNumber n => Number_toString n
  | VString s => s
  | VObject name => member_text name
  end.

Definition getLayerMarkerColor (layerId : string) : string :=
  ToString (or_else (get_text rt marker_colors layerId) (VString "yellow")).

Definition staticmap : string := "https://maps.googleapis.com/maps/api/staticmap".

Definition mock_image_url (googleMapsApiKey : string) (latitude longitude : number)
    (layerId : string) : string :=
  let center := Number_toString latitude +:+ "," +:+ Number_toString longitude in
  let params :=
    [ ("center", center); ("zoom", "16"); ("size", "512x512"); ("scale", "2");
      ("maptype", "satellite"); ("format", "png"); ("key", googleMapsApiKey) ] in
  let params :=
    if negb (String.eqb layerId "rgb")
    then params ++ [ ("markers", "color:" +:+ getLayerMarkerColor layerId +:+ "|" +:+ center) ]
    else params in
  staticmap +:+ "?" +:+ URLSearchParams_toString params.

Definition generateMockImages (googleMapsApiKey : string) (latitude longitude : number)
    (imageDate : string) (layers : list string) : list (string * image) :=
  if negb (str_truthy googleMapsApiKey)
  then
    fold_left
      (fun results layerId =>
         set_property rt results layerId
           (ImageError "Google Maps API key not configured"))
      layers []
  else
    fold_left
      (fun results layerId =>
         set_property rt results layerId
           (ImageUrl (mock_image_url googleMapsApiKey latitude longitude layerId)))
      layers [].

(** *** The handler *)

Record sentinelHub_credentials := {
  clientId : option string;
  clientSecret : option string
}.

Record maps_credentials := { googleMapsApiKey : option string }.

Record credentials := {
  sentinelHub : option sentinelHub_credentials;
  maps : option maps_credentials
}.

(** The body of a request, as the handler reads it (line 493 and after).
    A property is [None] when it is absent.  [layers], when present, is an
    array of strings, the only shape the loops of lines 265, 420 and 434
    are written for; a body whose [layers] is truthy and no array of strings (a
    number, an object) is outside this type: iterating it throws, and the
    handler's own [catch] answers. *)
Record request_body := {
  action : option string;
  body_credentials : option credentials;
  farmerId : option string;
  latitude : option number;
  longitude : option number;
  imageDate : option string;
  layers : option (list string);
  startDate : option string;
  endDate : option string
}.

Record request := Request {
  method : string;
  json_body : completion request_body
}.

(** [x || ''] for an optional string *)
Definition or_empty (x : option string) : string :=
  match x with
  | Some s => s
  | None => ""
  end.

Definition text_given (x : option string) : bool := str_truthy (or_empty x).

Definition number_given (x : option number) : bool :=
  match x with
  | Some n => num_truthy n
  | None => false
  end.

Definition number_of (x : option number) : number :=
  match x with
  | Some n => n
  | None => nan
  end.

Definition body_clientId (b : request_body) : string :=
  or_empty (c ← body_credentials b; s ← sentinelHub c; clientId s).

Definition body_clientSecret (b : request_body) : string :=
  or_empty (c ← body_credentials b; s ← sentinelHub c; clientSecret s).

Definition body_googleMapsApiKey (b : request_body) : string :=
  or_empty (c ← body_credentials b; m ← maps c; googleMapsApiKey m).

(** [layers || ['rgb', 'ndvi', 'moisture', 'infrared']] *)
Definition requested_layers (b : request_body) : list string :=
  match layers b with
  | Some l => l
  | None => [ "rgb"; "ndvi"; "moisture"; "infrared" ]
  end.

Definition image_json (i : image) : json :=
  match i with
  | ImageUrl url => JObj [ ("url", JStr url) ]
  | ImageError error => JObj [ ("error", JStr error) ]
  end.

Definition images_json (images : list (string * image)) : json :=
  JObj (map (fun kv => (fst kv, image_json (snd kv))) images).

Definition insight_json (i : SatelliteInsight) : json :=
  JObj [ ("farmerId", JStr (insight_farmerId i));
         ("imageDate", JStr (insight_imageDate i));
         ("ndviScore", json_number (ndviScore i));
         ("soilMoisture", json_number (soilMoisture i));
         ("vegetationIndex", json_number (vegetationIndex i));
         ("recommendation", JStr (recommendation i));
         ("sentinelData",
          JObj [ ("bbox", JArr (map json_number (bbox (sentinelData i))));
                 ("acquisitionDate", JStr (acquisitionDate (sentinelData i)));
                 ("cloudCoverage", json_number (cloudCoverage (sentinelData i)));
                 ("processingLevel", JStr (processingLevel (sentinelData i)));
                 ("apiResponse", JBool (apiResponse (sentinelData i)));
                 ("dataSource", JStr (dataSource (sentinelData i))) ]) ].

(** The images of a fetch-images request (lines 541-571): the real ones, or
    the mock ones when there are no Sentinel Hub credentials or when the
    fetch throws. *)
Definition fetch_images (w : world) (b : request_body)
    : list console_line * list (string * image) :=
  let mock :=
    generateMockImages (body_googleMapsApiKey b) (number_of (latitude b))
      (number_of (longitude b)) (or_empty (imageDate b)) (requested_layers b) in
  if str_truthy (body_clientId b) && str_truthy (body_clientSecret b) then
    match fetchSatelliteImages w (body_clientId b) (body_clientSecret b)
            (number_of (latitude b)) (number_of (longitude b))
            (or_empty (imageDate b)) (requested_layers b) with
    | (log, Normal images) => (log, images)
    | (log, Throw e) =>
        (log ++ [ console_error "Failed to fetch real images, using Google Maps mock:" e ],
         mock)
    end
  else ([], mock).

(** The fetch-images branch (lines 522-602).  A failed fetch is caught
    inside (lines 553-562), and over a list of strings
    [generateMockImages] does not throw, so for the bodies of
    [request_body] the branch's own [catch] (lines 586-601) is not reached;
    it is reached when iterating [layers] throws, which [request_body] does
    not represent. *)
Definition fetch_images_branch (w : world) (b : request_body) : run :=
  if negb (text_given (farmerId b)) || negb (number_given (latitude b))
     || negb (number_given (longitude b)) || negb (text_given (imageDate b))
  then
    {| console := [];
       returned :=
         Some (Response 400
                 (Json (JObj [ ("success", JBool false);
                               ("error", JStr "Missing required parameters for image fetching") ]))) |}
  else
    let '(log, images) := fetch_images w b in
    {| console := log;
       returned :=
         Some (Response 200
                 (Json (JObj [ ("success", JBool true);
                               ("images", images_json images);
                               ("source",
                                JStr (if str_truthy (body_clientId b)
                                         && str_truthy (body_clientSecret b)
                                      then "sentinel-hub" else "google-maps-mock")) ]))) |}.

Definition insights_branch (w : world) (b : request_body) : run :=
  if negb (text_given (farmerId b)) || negb (number_given (latitude b))
     || negb (number_given (longitude b)) || negb (text_given (startDate b))
     || negb (text_given (endDate b))
  then
    {| console := [];
       returned :=
         Some (Response 400 (Json (JObj [ ("error", JStr "Missing required parameters") ]))) |}
  else
    let '(log, insights) :=
      getSatelliteInsights w (body_clientId b) (body_clientSecret b)
        (or_empty (farmerId b)) (number_of (latitude b)) (number_of (longitude b))
        (or_empty (startDate b)) (or_empty (endDate b)) in
    {| console := log; returned := Some (Response 200 (Json (insight_json insights))) |}.

(** The outer [catch] (lines 638-654). *)
Definition catch (e : thrown) : run :=
  {| console := [ console_error "Error in sentinel-hub-integration function:" e ];
     returned :=
       Some (Response 500
               (Json (JObj [ ("error", JStr "Internal server error");
                             ("message", JStr (message_or_unknown e)) ]))) |}.

(** The [try] block of lines 472-636: the run it completes with, or what
    it throws. *)
Definition try_block (w : world) (req : request) : completion run :=
  if String.eqb (method req) "OPTIONS"
  then Normal {| console := []; returned := Some (Response 200 NoBody) |}
  else if negb (String.eqb (method req) "POST")
  then Normal
         {| console := [];
            returned :=
              Some (Response 405 (Json (JObj [ ("error", JStr "Method not allowed") ]))) |}
  else
    try! b := json_body req in
    if bool_decide (action b = Some "test-connection") then
      let '(log, (success, message)) :=
        testConnection w (body_clientId b) (body_clientSecret b) in
      Normal
        {| console := log;
           returned :=
             Some (Response 200
                     (Json (JObj [ ("success", JBool success);
                                   ("message", JStr message) ]))) |}
    else if bool_decide (action b = Some "fetch-images")
    then Normal (fetch_images_branch w b)
    else Normal (insights_branch w b).

Definition serve (w : world) (req : request) : run :=
  match try_block w req with
  | Normal r => r
  | Throw e => catch e
  end.

End Host.

End SentinelHubIntegration.

(* ------------------------------------------------------------------------- *)
(** ** The edge function save-api-credentials *)

Module SaveApiCredentials.
Import JS Schema.

Record request := Request {
  method : string;
  (** [await req.json()] *)
  json_body : completion json
}.

Record world := World {
  (** [createClient(url, key)] throws when the URL or the key is missing *)
  createClient : completion unit;
  (** a failure of the requests to the database, reported in [error] *)
  db_failure : option pg_error;
  (** [new Date()] *)
  now : timestamptz
}.

(** [const { credentials } = body]: destructuring null throws, a value that
    is no object has no such property. *)
Definition destructure_credentials (body : json) : completion (option json) :=
  match body with
  | JNull =>
      Throw (ErrorObject "TypeError"
               "Cannot destructure property 'credentials' of 'null' as it is null.")
  | JObj fields => Normal (field fields "credentials")
  | _ => Normal None
  end.

Definition answer (success : bool) (message : string) : response :=
  Response 200 (Json (JObj [ ("success", JBool success); ("message", JStr message) ])).

(** The [catch] of lines 98-113. *)
Definition catch (e : thrown) : run :=
  {| console := [ console_error "Error in save-api-credentials:" e ];
     returned :=
       Some (Response 500
               (Json (JObj [ ("success", JBool false);
                             ("message", JStr (message_or_unknown e)) ]))) |}.

(** Lines 40-67: look the row 'main' up, then update it or insert it. *)
Definition save (w : world) (rows : list api_credential) (blob : json)
    : option pg_error * list api_credential :=
  match db_failure w with
  | Some e => (Some e, rows)
  | None =>
      let existingData := fst (maybeSingle (api_credentials_by_id rows "main")) in
      match existingData with
      | Some _ => update_api_credential rows "main" blob (now w)
      | None =>
          insert_api_credential (now w) rows
            {| ins_cred_id := Given (Some "main");
               ins_credentials := Given (Some blob);
               ins_cred_created_at := Given (Some (now w));
               ins_cred_updated_at := Given (Some (now w)) |}
      end
  end.

(** [!credentials] *)
Definition missing (credentials : option json) : bool :=
  match credentials with
  | Some blob => negb (json_truthy blob)
  | None => true
  end.

(** The [try] block of lines 17-96: the table after it, and the run it
    completes with or what it throws. *)
Definition try_block (w : world) (rows : list api_credential) (req : request)
    : list api_credential * completion run :=
  match (try! client := createClient w in
         try! body := json_body req in
         destructure_credentials body) with
  | Throw e => (rows, Throw e)
  | Normal credentials =>
      match credentials with
      | Some blob =>
          if missing credentials
          then (rows,
                Normal {| console := [];
                          returned := Some (answer false "Credentials are required") |})
          else
            match save w rows blob with
            | (Some e, rows') =>
                (rows',
                 Normal
                   {| console := [ console_error_text "Error saving credentials:"
                                     (error_message e) ];
                      returned := Some (answer false (error_message e)) |})
            | (None, rows') =>
                (rows',
                 Normal {| console := [];
                           returned := Some (answer true "Credentials saved successfully") |})
            end
      | None =>
          (rows,
           Normal {| console := [];
                     returned := Some (answer false "Credentials are required") |})
      end
  end.

Definition serve (w : world) (rows : list api_credential) (req : request)
    : list api_credential * run :=
  if String.eqb (method req) "OPTIONS"
  then (rows, {| console := []; returned := Some (Response 200 NoBody) |})
  else
    match try_block w rows req with
    | (rows', Normal r) => (rows', r)
    | (rows', Throw e) => (rows', catch e)
    end.

(** A sequence of invocations, one after the other. *)
Definition serve_all (rows : list api_credential) (calls : list (world * request))
    : list api_credential :=
  fold_left (fun rows call => fst (serve (fst call) rows (snd call))) calls rows.

(** The blob an invocation submits and the handler accepts: the request is
    not a preflight, the client is created, the body is JSON with a truthy
    [credentials] property, and the database is reached. *)
Definition submitted (call : world * request) : option json :=
  let '(w, req) := call in
  if String.eqb (method req) "OPTIONS" then None
  else
    match (try! client := createClient w in
           try! body := json_body req in
           destructure_credentials body) with
    | Normal (Some blob) =>
        if json_truthy blob
        then match db_failure w with Some _ => None | None => Some blob end
        else None
    | _ => None
    end.

(** The blob of the last invocation that submitted one. *)
Definition last_submitted (calls : list (world * request)) : option json :=
  fold_left (fun last call =>
               match submitted call with
               | Some blob => Some blob
               | None => last
               end) calls None.

(** *** What a request submits, read off the request

    The blob a request submits: the value of the property [credentials] of
    a body that is a JSON object, when that value is truthy.  This is written
    from the shape of the request, not from the handler's code. *)
Definition posted_credentials (req : request) : option json :=
  match json_body req with
  | Normal (JObj fields) =>
      match field fields "credentials" with
      | Some blob => if json_truthy blob then Some blob else None
      | None => None
      end
  | _ => None
  end.

(** A save operation: a request that is no preflight and submits a blob, in
    a run in which the client is created and the database answers. *)
Definition save_operation (call : world * request) : option json :=
  if String.eqb (method (snd call)) "OPTIONS" then None
  else
    match createClient (fst call), db_failure (fst call) with
    | Normal _, None => posted_credentials (snd call)
    | _, _ => None
    end.

(** The same, as a proposition: the request of a run submits [blob] and
    the run can store it. *)
Definition accepted (w : world) (req : request) (blob : json) : Prop :=
  method req <> "OPTIONS"
  /\ (exists u, createClient w = Normal u)
  /\ db_failure w = None
  /\ exists fields,
       json_body req = Normal (JObj fields)
       /\ field fields "credentials" = Some blob
       /\ json_truthy blob = true.

(** The blob of the most recent save operation. *)
Fixpoint most_recent_blob (calls : list (world * request)) : option json :=
  match calls with
  | [] => None
  | call :: later =>
      match most_recent_blob later with
      | Some blob => Some blob
      | None => save_operation call
      end
  end.

(** The table is empty, or holds the row 'main' alone with a given blob. *)
Inductive single_row : list api_credential -> option json -> Prop :=
| no_row : single_row [] None
| main_row r : cred_id r = "main" -> single_row [r] (Some (credentials r)).

End SaveApiCredentials.

(* ------------------------------------------------------------------------- *)
(** ** The edge function whatsapp-webhook: inbound messages

    [handleIncomingMessage] and the loop that calls it (lines 93-113 and
    163-284).  The texts of the seven replies are static: they and their
    first hundred characters, which the transcript quotes, are parameters
    here.  The branches that send a message and that verify the webhook are
    not part of the model.  The database answers every request: the handler
    reads the error of none of its three requests (lines 169, 180 and 274),
    and a run in which one of them fails is not represented. *)

Module WhatsappWebhook.
Import JS Schema.

Record contact := {
  wa_id : string;
  (** [profile?.name] *)
  profile_name : option string
}.

Record message := {
  from : string;
  (** [text?.body] *)
  text_body : option string
}.

Record tables := Tables {
  farmers : list farmer;
  ivr_calls : list ivr_call
}.

Record world := World {
  now : timestamptz;
  (** the identifiers [gen_random_uuid()] yields for the two inserts *)
  farmer_uuid : uuid;
  call_uuid : uuid
}.

Inductive reply :=
| CropConditionReport
| WeatherForecast
| CarbonCreditProgram
| SatelliteInsights
| AgriculturalAdvisor
| PlatformMenu
| Welcome.

(** [messageText?.includes(word)], undefined (falsy) without a text *)
Definition mentions (messageText : option string) (word : string) : bool :=
  match messageText with
  | Some text => includes text word
  | None => false
  end.

Definition choose_reply (messageText : option string) : reply :=
  if mentions messageText "crop" || mentions messageText "1" then CropConditionReport
  else if mentions messageText "weather" || mentions messageText "2" then WeatherForecast
  else if mentions messageText "carbon" || mentions messageText "3" then CarbonCreditProgram
  else if mentions messageText "satellite" || mentions messageText "4" then SatelliteInsights
  else if mentions messageText "advisor" || mentions messageText "5" then AgriculturalAdvisor
  else if mentions messageText "menu" || mentions messageText "6" then PlatformMenu
  else Welcome.

Definition dquote : string := String (ascii_of_nat 34) EmptyString.

(** [contact?.profile?.name || 'Unknown Farmer'] *)
Definition contact_name (contacts : option (list contact)) (phoneNumber : string)
    : string :=
  match c ← (l ← contacts; List.find (fun c => String.eqb (wa_id c) phoneNumber) l);
        profile_name c with
  | Some name => if str_truthy name then name else "Unknown Farmer"
  | None => "Unknown Farmer"
  end.

(** The payload of lines 180-184. *)
Definition registration (phoneNumber name : string) : farmer_insert :=
  {| ins_farmer_id := Omitted;
     ins_phone_number := Given (Some phoneNumber);
     ins_full_name := Given (Some name);
     ins_location_name := Omitted;
     ins_latitude := Omitted;
     ins_longitude := Omitted;
     ins_preferred_language := Given (Some "English");
     ins_crop := Omitted;
     ins_farmer_created_at := Omitted;
     ins_farmer_updated_at := Omitted;
     ins_crop_details := Omitted;
     ins_field_locations := Omitted |}.

(** The payload of lines 274-279; [farmer_id: farmer?.id]. *)
Definition interaction (farmer : option farmer) (transcript : string)
    : ivr_call_insert :=
  {| ins_call_id := Omitted;
     ins_call_farmer_id := property (option_map farmer_id farmer);
     ins_call_time := Omitted;
     ins_crop_selected := Omitted;
     ins_crop_condition := Omitted;
     ins_rain_recent := Omitted;
     ins_opted_in_carbon := Omitted;
     ins_transcript := Given (Some transcript);
     ins_call_duration := Given (Some 0);
     ins_call_status := Given (Some "whatsapp_received");
     ins_call_created_at := Omitted;
     ins_call_type := Omitted |}.

Section Replies.

(** the text of each of the replies, and its [substring(0, 100)] *)
Variable reply_text : reply -> string.
Variable reply_excerpt : reply -> string.

Definition transcript_of (messageText : option string) (r : reply) : string :=
  "Received: " +:+ dquote
  +:+ match messageText with Some t => t | None => "undefined" end
  +:+ dquote +:+ " | Replied: " +:+ dquote +:+ reply_excerpt r +:+ "..." +:+ dquote.

Definition handleIncomingMessage (w : world) (db : tables) (m : message)
    (contacts : option (list contact)) : tables * list console_line :=
  let phoneNumber := from m in
  let messageText := option_map toLowerCase (text_body m) in
  (* Find farmer by phone number *)
  let farmer := fst (single (farmers_by_phone (farmers db) phoneNumber)) in
  let farmers' :=
    match farmer with
    | Some _ => farmers db
    | None =>
        (* Register new farmer *)
        let name := contact_name contacts phoneNumber in
        snd (insert_farmer (now w) (farmer_uuid w) (farmers db)
               (registration phoneNumber name))
    end in
  let responseMessage := choose_reply messageText in
  let log :=
    [ console_log ("Would send to " +:+ phoneNumber +:+ ": "
                   +:+ reply_text responseMessage) ] in
  (* Log the interaction *)
  let calls' :=
    snd (insert_ivr_call (now w) (call_uuid w) farmers' (ivr_calls db)
           (interaction farmer (transcript_of messageText responseMessage))) in
  ({| farmers := farmers'; ivr_calls := calls' |}, log).

(** The loops over the messages of a webhook delivery (lines 94-107): each
    message with the contacts of its change and with the world of its own
    run. *)
Definition handle_messages (db : tables)
    (messages : list (world * message * option (list contact)))
    : tables * list console_line :=
  fold_left
    (fun acc wmc =>
       let '(db, log) := acc in
       let '(w, m, contacts) := wmc in
       let '(db', log') := handleIncomingMessage w db m contacts in
       (db', log ++ log'))
    messages (db, []).

End Replies.

End WhatsappWebhook.

(* ------------------------------------------------------------------------- *)
(** ** The handlers' top-level catch

    [caught h e r]: a request to the handler [h] whose [try] block threw
    [e], and the run [r] the handler made of it. *)

Module Handlers.
Import JS.

Inductive handler :=
| carbon_credit_integration
| sentinel_hub_integration
| save_api_credentials.

Inductive caught : handler -> thrown -> run -> Prop :=
| caught_carbon_credit rt row_json w db req db' e :
    String.eqb (CarbonCreditIntegration.method req) "OPTIONS" = false ->
    CarbonCreditIntegration.try_block rt row_json w db req = (db', Throw e) ->
    caught carbon_credit_integration e
      (snd (CarbonCreditIntegration.serve rt row_json w db req))
| caught_sentinel_hub rt Number_toString member_text w req e :
    SentinelHubIntegration.try_block rt Number_toString member_text w req = Throw e ->
    caught sentinel_hub_integration e
      (SentinelHubIntegration.serve rt Number_toString member_text w req)
| caught_save_api_credentials w rows req rows' e :
    String.eqb (SaveApiCredentials.method req) "OPTIONS" = false ->
    SaveApiCredentials.try_block w rows req = (rows', Throw e) ->
    caught save_api_credentials e (snd (SaveApiCredentials.serve w rows req)).

(** the label of the [console.error] line *)
Definition label (h : handler) : string :=
  match h with
  | carbon_credit_integration => "Error in carbon-credit-integration:"
  | sentinel_hub_integration => "Error in sentinel-hub-integration function:"
  | save_api_credentials => "Error in save-api-credentials:"
  end.

(** the property of the body that carries the error's message *)
Definition message_key (h : handler) : string :=
  match h with
  | carbon_credit_integration => "error"
  | sentinel_hub_integration | save_api_credentials => "message"
  end.

(** whether the body has a [success] property *)
Definition has_success (h : handler) : bool :=
  match h with
  | save_api_credentials => true
  | carbon_credit_integration | sentinel_hub_integration => false
  end.

End Handlers.

(* ------------------------------------------------------------------------- *)
(** ** Sample data, for the examples below *)

Module Samples.
Import JS Schema.

Definition amina : farmer_insert :=
  WhatsappWebhook.registration "+254700000001" "Amina".

(** the farmers table after Amina registered *)
Definition one_farmer : list farmer :=
  snd (insert_farmer 1750150000000 "0b5c1c2e-0001" [] amina).

(** a call record with a status that only the voice handler writes *)
Definition voice_call (status : string) : ivr_call_insert :=
  {| ins_call_id := Omitted;
     ins_call_farmer_id := Omitted;
     ins_call_time := Omitted;
     ins_crop_selected := Omitted;
     ins_crop_condition := Omitted;
     ins_rain_recent := Omitted;
     ins_opted_in_carbon := Omitted;
     ins_transcript := Omitted;
     ins_call_duration := Given (Some 0);
     ins_call_status := Given (Some status);
     ins_call_created_at := Omitted;
     ins_call_type := Given (Some "elevenlabs_voice") |}.

(** *** carbon-credit-integration *)

Definition credit_world : CarbonCreditIntegration.world :=
  {| CarbonCreditIntegration.createClient := Normal tt;
     CarbonCreditIntegration.select_failure := None;
     CarbonCreditIntegration.write_failure := None;
     CarbonCreditIntegration.Math_random := fun _ => 0.5%float;
     CarbonCreditIntegration.now := 1750150000000;
     CarbonCreditIntegration.today := "2025-06-17";
     CarbonCreditIntegration.Date_now := "1750150000000";
     CarbonCreditIntegration.gen_random_uuid := "0b5c1c2e-0004" |}.

Definition no_credits : CarbonCreditIntegration.tables :=
  {| CarbonCreditIntegration.farmers := [];
     CarbonCreditIntegration.carbon_credits := [] |}.

Definition get_status (farmer_id : option string) : CarbonCreditIntegration.request :=
  {| CarbonCreditIntegration.method := "GET";
     CarbonCreditIntegration.farmer_id_param := farmer_id;
     CarbonCreditIntegration.json_body :=
       Throw (ErrorObject "SyntaxError" "Unexpected end of JSON input") |}.

(** *** sentinel-hub-integration *)

(** Sentinel Hub does not answer; [Math.random] draws [r] every time. *)
Definition vendor_down (r : number) : SentinelHubIntegration.world :=
  {| SentinelHubIntegration.oauth := Throw (ErrorObject "TypeError" "fetch failed");
     SentinelHubIntegration.process :=
       fun _ => Throw (ErrorObject "TypeError" "fetch failed");
     SentinelHubIntegration.Math_random := fun _ => r |}.

(** a fetch-images request for Nairobi with Sentinel Hub credentials, and
    with or without a Google Maps key *)
Definition images_request (maps_key : option string)
    : SentinelHubIntegration.request_body :=
  {| SentinelHubIntegration.action := Some "fetch-images";
     SentinelHubIntegration.body_credentials :=
       Some {| SentinelHubIntegration.sentinelHub :=
                 Some {| SentinelHubIntegration.clientId := Some "sh-client";
                         SentinelHubIntegration.clientSecret := Some "sh-secret" |};
               SentinelHubIntegration.maps :=
                 option_map
                   (fun k => {| SentinelHubIntegration.googleMapsApiKey := Some k |})
                   maps_key |};
     SentinelHubIntegration.farmerId := Some "farmer-1";
     SentinelHubIntegration.latitude := Some (-1.2921)%float;
     SentinelHubIntegration.longitude := Some 36.8219%float;
     SentinelHubIntegration.imageDate := Some "2025-06-01";
     SentinelHubIntegration.layers := None;
     SentinelHubIntegration.startDate := None;
     SentinelHubIntegration.endDate := None |}.

Definition post (b : SentinelHubIntegration.request_body)
    : SentinelHubIntegration.request :=
  {| SentinelHubIntegration.method := "POST";
     SentinelHubIntegration.json_body := Normal b |}.

(** *** whatsapp-webhook *)

Definition first_contact : WhatsappWebhook.message :=
  {| WhatsappWebhook.from := "+254700000002";
     WhatsappWebhook.text_body := Some "MENU" |}.

Definition webhook_world : WhatsappWebhook.world :=
  {| WhatsappWebhook.now := 1750150120000;
     WhatsappWebhook.farmer_uuid := "0b5c1c2e-0005";
     WhatsappWebhook.call_uuid := "0b5c1c2e-0006" |}.

Definition registered : WhatsappWebhook.tables :=
  {| WhatsappWebhook.farmers := one_farmer; WhatsappWebhook.ivr_calls := [] |}.

End Samples.

(* ------------------------------------------------------------------------- *)
(** ** The edge function get-api-credentials

    The reader of the credential row: it selects the row 'main' with
    [.maybeSingle()] and answers with its blob, or with an empty object. *)

Module GetApiCredentials.
Import JS Schema.

Record world := World {
  (** [createClient(url, key)] throws when the URL or the key is missing *)
  createClient : completion unit;
  (** a failure of the request to the database, reported in [error] *)
  db_failure : option pg_error
}.

(** [data?.credentials || {}] *)
Definition credentials_or_empty (data : option api_credential) : json :=
  match data with
  | Some r => if json_truthy (credentials r) then credentials r else JObj []
  | None => JObj []
  end.

(** The [catch] of lines 59-75. *)
Definition catch (e : thrown) : run :=
  {| console := [ console_error "Error in get-api-credentials:" e ];
     returned :=
       Some (Response 500
               (Json (JObj [ ("success", JBool false);
                             ("error", JStr (message_or_unknown e));
                             ("credentials", JObj []) ]))) |}.

Definition serve (w : world) (rows : list api_credential) (method : string) : run :=
  if String.eqb method "OPTIONS"
  then {| console := []; returned := Some (Response 200 NoBody) |}
  else
    match createClient w with
    | Throw e => catch e
    | Normal _ =>
        let '(data, error) :=
          match db_failure w with
          | Some e => (None, Some e)
          | None => maybeSingle (api_credentials_by_id rows "main")
          end in
        match error with
        | Some e =>
            {| console := [ console_error_text "Error fetching credentials:"
                              (error_message e) ];
               returned :=
                 Some (Response 200
                         (Json (JObj [ ("success", JBool false);
                                       ("error", JStr (error_message e));
                                       ("credentials", JObj []) ]))) |}
        | None =>
            {| console := [];
               returned :=
                 Some (Response 200
                         (Json (JObj [ ("success", JBool true);
                                       ("credentials", credentials_or_empty data) ]))) |}
        end
    end.

End GetApiCredentials.

(* ------------------------------------------------------------------------- *)
(** ** Histories of invocations *)

Module Histories.
Import JS Schema.

(** *** save-api-credentials: the clock of the invocations that stored a blob *)

Definition accepted_at (call : SaveApiCredentials.world * SaveApiCredentials.request)
    : option timestamptz :=
  match SaveApiCredentials.submitted call with
  | Some _ => Some (SaveApiCredentials.now (fst call))
  | None => None
  end.

Definition first_accepted_at
    (calls : list (SaveApiCredentials.world * SaveApiCredentials.request))
    : option timestamptz :=
  fold_left (fun first call =>
               match first with
               | Some t => Some t
               | None => accepted_at call
               end) calls None.

Definition last_accepted_at
    (calls : list (SaveApiCredentials.world * SaveApiCredentials.request))
    : option timestamptz :=
  fold_left (fun last call =>
               match accepted_at call with
               | Some t => Some t
               | None => last
               end) calls None.

(** *** carbon-credit-integration: a sequence of invocations, one after the
    other, each with the world of its own run *)

Definition carbon_serve_all (rt : runtime) (row_json : carbon_credit -> json)
    (db : CarbonCreditIntegration.tables)
    (calls : list (CarbonCreditIntegration.world * CarbonCreditIntegration.request))
    : CarbonCreditIntegration.tables :=
  fold_left
    (fun db call =>
       fst (CarbonCreditIntegration.serve rt row_json (fst call) db (snd call)))
    calls db.

End Histories.

(* ------------------------------------------------------------------------- *)
(** ** The practices the client offers (carbonCreditService.ts, lines 112-151) *)

Module EligiblePractices.
Import JS.
Local Open Scope float_scope.

Record practice := {
  id : string;
  name : string;
  description : string;
  creditRate : number
}.

Definition getEligiblePractices : list practice :=
  [ {| id := "no-till"; name := "No-Till Farming";
       description := "Avoid disturbing soil through tillage"; creditRate := 0.5 |};
    {| id := "cover-cropping"; name := "Cover Cropping";
       description := "Plant cover crops during off-season"; creditRate := 0.3 |};
    {| id := "rotational-grazing"; name := "Rotational Grazing";
       description := "Systematic livestock rotation"; creditRate := 0.4 |};
    {| id := "agroforestry"; name := "Agroforestry";
       description := "Integrate trees with crops/livestock"; creditRate := 0.8 |};
    {| id := "precision-agriculture"; name := "Precision Agriculture";
       description := "Technology-driven farming optimization"; creditRate := 0.2 |};
    {| id := "organic-farming"; name := "Organic Farming";
       description := "Chemical-free agricultural practices"; creditRate := 0.6 |} ].

End EligiblePractices.

(* ------------------------------------------------------------------------- *)
(** ** The client's request as the edge function receives it

    [getSatelliteInsights] of the client posts its arguments to the edge
    function sentinel-hub-integration (sentinelHub.ts, lines 109-130); the
    edge function reads the body property by property (index.ts, lines
    493-604).  [axios] rejects an answer whose status is not 2xx. *)

Module SatelliteProxy.
Import JS.

(** A number after [JSON.stringify] and [JSON.parse]: NaN and the infinities
    arrive as null. *)
Definition posted_number (n : number) : option number :=
  if PrimFloat.is_nan n || PrimFloat.is_infinity n then None else Some n.

(** The body of the client's POST, read as the edge function reads it: the
    client's [credentials] object holds [clientId] and [clientSecret]
    themselves, so that it has no property [sentinelHub] and none [maps];
    there is no [action], no [imageDate] and no [layers]. *)
Definition posted_body (farmerId : string) (latitude longitude : number)
    (startDate endDate : string) : SentinelHubIntegration.request_body :=
  {| SentinelHubIntegration.action := None;
     SentinelHubIntegration.body_credentials :=
       Some {| SentinelHubIntegration.sentinelHub := None;
               SentinelHubIntegration.maps := None |};
     SentinelHubIntegration.farmerId := Some farmerId;
     SentinelHubIntegration.latitude := posted_number latitude;
     SentinelHubIntegration.longitude := posted_number longitude;
     SentinelHubIntegration.imageDate := None;
     SentinelHubIntegration.layers := None;
     SentinelHubIntegration.startDate := Some startDate;
     SentinelHubIntegration.endDate := Some endDate |}.

(** [response.data] of the POST, or the error [axios] throws. *)
Definition axios_data (r : run) : completion json :=
  match returned r with
  | Some (Response status (Json j)) =>
      if (200 <=? status) && (status <? 300) then Normal j
      else Throw (ErrorObject "AxiosError"
                    ("Request failed with status code " +:+ pretty status))
  | Some (Response status (Text s)) =>
      if (200 <=? status) && (status <? 300) then Normal (JStr s)
      else Throw (ErrorObject "AxiosError"
                    ("Request failed with status code " +:+ pretty status))
  | Some (Response status NoBody) =>
      if (200 <=? status) && (status <? 300) then Normal (JStr "")
      else Throw (ErrorObject "AxiosError"
                    ("Request failed with status code " +:+ pretty status))
  | None => Throw (ErrorObject "AxiosError" "Network Error")
  end.

Section Host.

Variable rt : runtime.
Variable Number_toString : number -> string.
Variable member_text : string -> string.
Variable Math_sin : number -> number.
Variable Date_getMonth : string -> number.

(** The client's [getSatelliteInsights] when [loadCredentials] found
    credentials, against the edge function run in the world [vendor]. *)
Definition getSatelliteInsights_through_edge (vendor : SentinelHubIntegration.world)
    (c : SentinelHubClient.clock) (farmerId : string) (latitude longitude : number)
    (startDate endDate : string)
    (fieldBoundaries : option (list SentinelHubClient.FieldBoundary))
    : SentinelHubClient.insight :=
  SentinelHubClient.getSatelliteInsights Math_sin Date_getMonth
    {| SentinelHubClient.run_clock := c;
       SentinelHubClient.hasCredentials := true;
       SentinelHubClient.post :=
         axios_data
           (SentinelHubIntegration.serve rt Number_toString member_text vendor
              {| SentinelHubIntegration.method := "POST";
                 SentinelHubIntegration.json_body :=
                   Normal (posted_body farmerId latitude longitude startDate endDate) |}) |}
    farmerId latitude longitude startDate endDate fieldBoundaries.

End Host.

End SatelliteProxy.

(* ------------------------------------------------------------------------- *)
(** ** Further sample data *)

Module Scenarios.
Import JS Schema.
Local Open Scope float_scope.

(** *** carbon-credit-integration *)

(** the id the database generated for Amina's row *)
Definition amina_id : uuid := "0b5c1c2e-0000-4000-8000-000000000001".

Definition amina_registered : CarbonCreditIntegration.tables :=
  {| CarbonCreditIntegration.farmers :=
       snd (insert_farmer 1750150000000%Z amina_id [] Samples.amina);
     CarbonCreditIntegration.carbon_credits := [] |}.

(** A farmer reports practices on some acres of soy. *)
Definition submission (farmerId : string) (practices : list string)
    (acreage : number) : CarbonCreditIntegration.request :=
  {| CarbonCreditIntegration.method := "POST";
     CarbonCreditIntegration.farmer_id_param := None;
     CarbonCreditIntegration.json_body :=
       Normal {| CarbonCreditIntegration.farmerId := farmerId;
                 CarbonCreditIntegration.practices := practices;
                 CarbonCreditIntegration.acreage := acreage;
                 CarbonCreditIntegration.cropType := "Soy" |} |}.

(** A run of the handler: its clock, the id the database generates in it,
    and whether its SELECT is answered. *)
Definition carbon_run (now : Z) (today Date_now : string) (id : uuid)
    (select_failure : option pg_error) : CarbonCreditIntegration.world :=
  {| CarbonCreditIntegration.createClient := Normal tt;
     CarbonCreditIntegration.select_failure := select_failure;
     CarbonCreditIntegration.write_failure := None;
     CarbonCreditIntegration.Math_random := fun _ => 0.5;
     CarbonCreditIntegration.now := now;
     CarbonCreditIntegration.today := today;
     CarbonCreditIntegration.Date_now := Date_now;
     CarbonCreditIntegration.gen_random_uuid := id |}.

Definition first_run : CarbonCreditIntegration.world :=
  carbon_run 1750150000000%Z "2025-06-17" "1750150000000"
    "0b5c1c2e-0000-4000-8000-000000000004" None.

Definition later_run : CarbonCreditIntegration.world :=
  carbon_run 1750236400000%Z "2025-06-18" "1750236400000"
    "0b5c1c2e-0000-4000-8000-000000000010" None.

(** a run in which the database does not answer the SELECT *)
Definition unanswered_run : CarbonCreditIntegration.world :=
  carbon_run 1750322800000%Z "2025-06-19" "1750322800000"
    "0b5c1c2e-0000-4000-8000-000000000011"
    (Some (PgError "57P03" "the database system is starting up")).

Definition amina_opted_in : CarbonCreditIntegration.tables :=
  fst (CarbonCreditIntegration.serve deno (fun _ => JNull) first_run
         amina_registered (submission amina_id [ "no-till"; "cover-cropping" ] 100)).

(** *** sentinel-hub-integration *)

(** Sentinel Hub answers every request; [Math.random] draws [r] every time. *)
Definition vendor_up (r : number) : SentinelHubIntegration.world :=
  {| SentinelHubIntegration.oauth := Normal "token";
     SentinelHubIntegration.process :=
       fun layerId =>
         if String.eqb layerId "moisture"
         then Throw (new_Error "HTTP 503: Service Unavailable")
         else Normal "iVBORw0KGgo=";
     SentinelHubIntegration.Math_random := fun _ => r |}.

(** a request for Nairobi, with an action, a latitude and optional Sentinel
    Hub credentials *)
Definition edge_request (action : string) (latitude : number)
    (sentinelHub : option SentinelHubIntegration.sentinelHub_credentials)
    : SentinelHubIntegration.request :=
  {| SentinelHubIntegration.method := "POST";
     SentinelHubIntegration.json_body :=
       Normal
         {| SentinelHubIntegration.action := Some action;
            SentinelHubIntegration.body_credentials :=
              Some {| SentinelHubIntegration.sentinelHub := sentinelHub;
                      SentinelHubIntegration.maps :=
                        Some {| SentinelHubIntegration.googleMapsApiKey :=
                                  Some "maps-key" |} |};
            SentinelHubIntegration.farmerId := Some "farmer-1";
            SentinelHubIntegration.latitude := Some latitude;
            SentinelHubIntegration.longitude := Some 36.8219;
            SentinelHubIntegration.imageDate := Some "2025-06-01";
            SentinelHubIntegration.layers := Some [ "rgb"; "moisture"; "thermal" ];
            SentinelHubIntegration.startDate := Some "2025-05-01";
            SentinelHubIntegration.endDate := Some "2025-06-01" |} |}.

Definition sh_credentials : SentinelHubIntegration.sentinelHub_credentials :=
  {| SentinelHubIntegration.clientId := Some "sh-client";
     SentinelHubIntegration.clientSecret := Some "sh-secret" |}.

(** *** whatsapp-webhook *)

(** Amina is registered and has not written yet. *)
Definition amina_on_whatsapp : WhatsappWebhook.tables :=
  {| WhatsappWebhook.farmers := CarbonCreditIntegration.farmers amina_registered;
     WhatsappWebhook.ivr_calls := [] |}.

Definition whatsapp_run : WhatsappWebhook.world :=
  {| WhatsappWebhook.now := 1750150120000%Z;
     WhatsappWebhook.farmer_uuid := "0b5c1c2e-0000-4000-8000-000000000005";
     WhatsappWebhook.call_uuid := "0b5c1c2e-0000-4000-8000-000000000006" |}.

(** *** save-api-credentials *)

Definition save_request (blob : json) (now : Z)
    : SaveApiCredentials.world * SaveApiCredentials.request :=
  ({| SaveApiCredentials.createClient := Normal tt;
      SaveApiCredentials.db_failure := None;
      SaveApiCredentials.now := now |},
   {| SaveApiCredentials.method := "POST";
      SaveApiCredentials.json_body := Normal (JObj [ ("credentials", blob) ]) |}).

End Scenarios.

(* ========================================================================= *)
(** * Properties *)

Module CarbonCreditFacts.
Import JS CarbonCreditService.
Local Open Scope float_scope.

Lemma rate_documented rt (practice : string) :
  inherited rt practice = false ->
  ToNumber (or_else (get rt creditRates practice) (VNumber 0.1))
  = documented_rate practice.
Proof.
  intros Hproto. unfold get, creditRates, documented_rate.
  cbn [own_property]. rewrite !(String.eqb_sym _ practice).
  repeat (destruct (String.eqb practice _); [reflexivity|]).
  rewrite Hproto. reflexivity.
Qed.

Lemma multiplier_documented rt (cropType : string) :
  inherited rt (toLowerCase cropType) = false ->
  ToNumber (or_else (get rt cropMultipliers (toLowerCase cropType)) (VNumber 1.0))
  = documented_multiplier cropType.
Proof.
  intros Hproto. unfold get, cropMultipliers, documented_multiplier.
  cbn [own_property] ; cbv zeta. rewrite !(String.eqb_sym _ (toLowerCase cropType)).
  repeat (destruct (String.eqb (toLowerCase cropType) _); [reflexivity|]).
  rewrite Hproto. reflexivity.
Qed.

Lemma fold_documented rt (acreage : number) (practices : list string) :
  forallb (fun p => negb (inherited rt p)) practices = true ->
  forall acc,
    fold_left (add_practice rt acreage) practices acc
    = fold_left (fun sum p => sum + documented_rate p * acreage) practices acc.
Proof.
  induction practices as [|p ps IH]; intros Hall acc; [reflexivity|].
  cbn [forallb] in Hall. apply andb_true_iff in Hall as [Hp Hps].
  cbn [fold_left]. unfold add_practice at 2.
  rewrite rate_documented by (now apply negb_true_iff).
  now apply IH.
Qed.

(** On practice and crop names that are not property names of
    [Object.prototype], the calculator returns the documented value. *)
Lemma calculateEstimatedCredits_documented rt practices acreage cropType :
  forallb (fun p => negb (inherited rt p)) practices = true ->
  inherited rt (toLowerCase cropType) = false ->
  calculateEstimatedCredits rt practices acreage cropType
  = documented_credits practices acreage cropType.
Proof.
  intros Hps Hc. unfold calculateEstimatedCredits, documented_credits, round2.
  cbv zeta. rewrite fold_documented by assumption.
  rewrite multiplier_documented by assumption. reflexivity.
Qed.

Example credits_88 :
  calculateEstimatedCredits browser ["no-till"; "cover-cropping"] 100 "Soy" = 88.
Proof. vm_compute. reflexivity. Qed.

Example credits_case_insensitive :
  calculateEstimatedCredits browser ["no-till"; "mulching"] 12.5 "RICE" = 9.
Proof. vm_compute. reflexivity. Qed.

(** The accessor [__proto__] is a member of [Object.prototype] in a
    browser, and an unlisted name like any other in Deno. *)
Example credits_proto_accessor :
  calculateEstimatedCredits browser ["__proto__"] 10 "corn" = nan
  /\ calculateEstimatedCredits deno ["__proto__"] 10 "corn" = 1.
Proof. split; vm_compute; reflexivity. Qed.

(** C1 (the evaluation at the failing input): for the practice name
    ["constructor"], which is not in the rate table, the lookup
    [creditRates[practice]] finds the function inherited from
    [Object.prototype]; it is truthy, so the [|| 0.1] default is not taken,
    and the product with the acreage is NaN, in every runtime, where the
    documented value for an unlisted practice on 10 acres of corn is
    0.1 * 10 * 1.0 = 1. *)
Theorem calculateEstimatedCredits_inherited_name (rt : runtime) :
  calculateEstimatedCredits rt ["constructor"] 10 "corn" = nan
  /\ documented_credits ["constructor"] 10 "corn" = 1.
Proof. destruct rt as [[|]]; split; vm_compute; reflexivity. Qed.

End CarbonCreditFacts.

Module CarbonCreditIntegrationFacts.
Import JS Schema CarbonCreditService CarbonCreditIntegration.
Local Open Scope float_scope.

(** The edge function computes the same estimate as the client service. *)
Lemma post_estimatedCredits_service rt (r : CarbonCreditRequest) :
  exists x,
    post_estimatedCredits rt r = Normal x
    /\ CarbonCreditIntegration.round2 x
       = calculateEstimatedCredits rt (practices r) (acreage r) (cropType r).
Proof.
  eexists. split; [reflexivity|].
  unfold CarbonCreditIntegration.round2, calculateEstimatedCredits. reflexivity.
Qed.

Lemma creditRates_not_in_get_scope :
  resolve_table get_scope "creditRates" = Throw (ReferenceError "creditRates").
Proof. reflexivity. Qed.

Lemma creditRates_in_post_scope :
  resolve_table post_scope "creditRates" = Normal creditRates.
Proof. reflexivity. Qed.

Lemma get_branch_throws row_json w db req :
  exists e, get_branch row_json w db req = Throw e.
Proof.
  unfold get_branch.
  destruct (negb _); [eexists; reflexivity|].
  destruct (match select_failure w with Some _ => _ | None => _ end) as [credit err].
  destruct err as [e|]; cbn [bind].
  - destruct (negb _); cbn [bind]; eexists; reflexivity.
  - eexists; reflexivity.
Qed.

(** C3: a GET request with a [farmer_id] parameter never gets the success
    body.  The run ends in the handler's [catch]: it logs the error and
    answers with status 500 and the body [{ error }].  When the client was
    created, the parameter is not empty and the database answered, the error
    is the ReferenceError of [creditRates], which only the POST block
    declares. *)
Theorem get_with_farmer_id_returns_500 rt row_json w db req fid :
  method req = "GET" ->
  farmer_id_param req = Some fid ->
  exists e,
    serve rt row_json w db req = (db, catch e)
    /\ returned (catch e)
       = Some (Response 500
                 (Json (JObj (stringify_fields [("error", option_map JStr (message_of e))]))))
    /\ (createClient w = Normal tt -> str_truthy fid = true ->
        select_failure w = None -> e = ReferenceError "creditRates").
Proof.
  intros Hm Hfid. unfold serve, try_block. rewrite Hm.
  cbn [String.eqb Ascii.eqb Bool.eqb].
  destruct (createClient w) as [[]|e0] eqn:Hc.
  - destruct (get_branch_throws row_json w db req) as [e He].
    exists e. rewrite He. cbn [bind]. split; [reflexivity|]. split; [reflexivity|].
    intros _ Ht Hs. unfold get_branch in He. rewrite Hfid, Ht, Hs in He.
    cbn [negb] in He.
    unfold single in He.
    destruct (credits_of_farmer _ _) as [|r [|r' l]]; cbn in He; congruence.
  - exists e0. split; [reflexivity|]. split; [reflexivity|]. discriminate.
Qed.

Lemma get_with_farmer_id_returns_500_witness :
  exists e,
    serve deno (fun _ => JNull) Samples.credit_world Samples.no_credits
      (Samples.get_status (Some "farmer-1"))
    = (Samples.no_credits, catch e)
    /\ e = ReferenceError "creditRates".
Proof.
  destruct (get_with_farmer_id_returns_500 deno (fun _ => JNull) Samples.credit_world
              Samples.no_credits (Samples.get_status (Some "farmer-1")) "farmer-1"
              eq_refl eq_refl) as [e (Hserve & _ & Hcause)].
  exists e. split; [exact Hserve|]. exact (Hcause eq_refl eq_refl eq_refl).
Defined.

Example get_status_answer :
  snd (serve deno (fun _ => JNull) Samples.credit_world Samples.no_credits
         (Samples.get_status (Some "farmer-1")))
  = {| console := [ console_error "Error in carbon-credit-integration:"
                      (ErrorObject "ReferenceError" "creditRates is not defined") ];
       returned :=
         Some (Response 500
                 (Json (JObj [ ("error", JStr "creditRates is not defined") ]))) |}.
Proof. reflexivity. Qed.

End CarbonCreditIntegrationFacts.

Module SchemaFacts.
Import JS Schema.

Lemma existsb_eqb_In (l : list string) (s : string) :
  existsb (String.eqb s) l = true <-> In s l.
Proof.
  rewrite existsb_exists. split.
  - intros [x [Hin Heq]]. apply String.eqb_eq in Heq. now subst.
  - intros Hin. exists s. split; [assumption|apply String.eqb_refl].
Qed.

Lemma no_phone_no_rows (farmers : list farmer) (phone : string) :
  has_phone_number farmers phone = false ->
  farmers_by_phone farmers phone = [].
Proof.
  unfold has_phone_number, farmers_by_phone.
  induction farmers as [|r rs IH]; intros H; [reflexivity|].
  cbn [existsb] in H. apply orb_false_iff in H as [Hr Hrs].
  rewrite filter_cons_False by (rewrite Hr; discriminate).
  now apply IH.
Qed.









(** *** Check constraints *)

Lemma check_in_spec allowed v :
  check_in allowed v = true ->
  v = None \/ exists s, v = Some s /\ In s allowed.
Proof.
  destruct v as [s|]; [|now left]. cbn. intros H. right. exists s.
  split; [reflexivity|]. now apply existsb_eqb_In.
Qed.

Lemma check_between_spec lo hi v :
  check_between lo hi v = true ->
  v = None \/ exists n, v = Some n /\ (lo <= n <= hi)%Z.
Proof.
  destruct v as [n|]; [|now left]. cbn. intros H. right. exists n.
  split; [reflexivity|]. apply andb_true_iff in H as [H1 H2]. lia.
Qed.

Lemma insert_carbon_credit_checked now gen farmers credits p :
  Forall credit_checked credits ->
  Forall credit_checked (snd (insert_carbon_credit now gen farmers credits p)).
Proof.
  intros Hall. unfold insert_carbon_credit.
  destruct (numeric_overflow p); [exact Hall|].
  destruct (with_default (Some gen) (ins_credit_id p)) as [id|]; [|exact Hall].
  destruct (with_default None (ins_opt_in_date p)) as [day|]; [|exact Hall].
  cbv zeta. cbn [verification_status credit_farmer_id].
  destruct (check_in verification_statuses
              (with_default (Some "pending") (ins_verification_status p))) eqn:Hcheck;
    cbn [negb]; [|exact Hall].
  destruct (existsb _ credits); [exact Hall|].
  destruct (negb (references_farmer farmers _)); [exact Hall|].
  cbn [snd]. apply Forall_app. split; [exact Hall|].
  constructor; [|constructor]. apply check_in_spec in Hcheck. exact Hcheck.
Qed.

Lemma set_verification_status_checked credits id s :
  Forall credit_checked credits ->
  Forall credit_checked (snd (set_verification_status credits id s)).
Proof.
  intros Hall. unfold set_verification_status.
  destruct (existsb (fun r => String.eqb (credit_id r) id) credits) eqn:Hex;
    cbn [andb].
  - destruct (check_in verification_statuses s) eqn:Hcheck; cbn [negb snd];
      [|exact Hall].
    apply Forall_fmap. eapply Forall_impl; [exact Hall|].
    intros r Hr. cbn. destruct (String.eqb (credit_id r) id); [|exact Hr].
    apply check_in_spec in Hcheck. exact Hcheck.
  - cbn [snd]. apply Forall_fmap. rewrite Forall_forall. intros r Hin. cbn.
    destruct (String.eqb (credit_id r) id) eqn:Hr.
    + exfalso. apply not_true_iff_false in Hex. apply Hex.
      apply existsb_exists. exists r. split; [|exact Hr].
      now apply list_elem_of_In.
    + rewrite Forall_forall in Hall. now apply Hall.
Qed.

Lemma insert_ivr_call_checked now gen farmers calls p :
  Forall call_checked calls ->
  Forall call_checked (snd (insert_ivr_call now gen farmers calls p)).
Proof.
  intros Hall. unfold insert_ivr_call.
  destruct (with_default (Some gen) (ins_call_id p)) as [id|]; [|exact Hall].
  cbv zeta. cbn [crop_condition call_type call_farmer_id].
  destruct (check_between 1 3 (with_default None (ins_crop_condition p))) eqn:Hc;
    cbn [negb]; [|exact Hall].
  destruct (check_in call_types
              (with_default (Some "traditional_ivr") (ins_call_type p))) eqn:Ht;
    cbn [negb]; [|exact Hall].
  destruct (existsb _ calls); [exact Hall|].
  destruct (negb (references_farmer farmers _)); [exact Hall|].
  cbn [snd]. apply Forall_app. split; [exact Hall|].
  constructor; [|constructor]. split; cbn [crop_condition call_type].
  - now apply check_between_spec.
  - now apply check_in_spec.
Qed.

Lemma execute_checked db st :
  Forall credit_checked (carbon_credits db) /\ Forall call_checked (ivr_calls db) ->
  Forall credit_checked (carbon_credits (execute db st))
  /\ Forall call_checked (ivr_calls (execute db st)).
Proof.
  intros [Hc Hi]. destruct st; cbn [execute carbon_credits ivr_calls]; split;
    auto using insert_carbon_credit_checked, set_verification_status_checked,
      insert_ivr_call_checked.
Qed.

(** C4 (as amended): whatever statements run on the empty database, every
    stored carbon_credits row has a verification_status that is NULL or one
    of pending, verified, rejected, and every stored ivr_calls row has a
    crop_condition that is NULL or between 1 and 3 and a call_type that is
    NULL or one of the six declared ones.  No constraint mentions
    call_status. *)
Theorem stored_rows_satisfy_checks (sts : list statement) :
  Forall credit_checked (carbon_credits (execute_all empty_database sts))
  /\ Forall call_checked (ivr_calls (execute_all empty_database sts)).
Proof.
  unfold execute_all.
  assert (Hgen : forall db,
             Forall credit_checked (carbon_credits db)
             /\ Forall call_checked (ivr_calls db) ->
             Forall credit_checked (carbon_credits (fold_left execute sts db))
             /\ Forall call_checked (ivr_calls (fold_left execute sts db))).
  { induction sts as [|st sts IH]; intros db Hdb; [exact Hdb|].
    cbn [fold_left]. apply IH. now apply execute_checked. }
  apply Hgen. split; constructor.
Qed.

(** C4 (counterexample): no finite set of values bounds call_status.  For
    any proposed set, a call record whose status is a string outside it is
    accepted by INSERT INTO ivr_calls on the empty database. *)
Lemma call_status_not_enumerated :
  ~ exists allowed : list string,
      forall p row calls',
        insert_ivr_call 1750150000000 "0b5c1c2e-0003" [] [] p = (PgOk row, calls') ->
        exists s, call_status row = Some s /\ In s allowed.
Proof.
  intros [allowed Hall].
  destruct (Hall (Samples.voice_call (fresh allowed)) _ _ eq_refl) as [s [Hs Hin]].
  cbn in Hs. inversion Hs; subst s.
  apply (infinite_is_fresh allowed). now apply list_elem_of_In.
Qed.

End SchemaFacts.

Module SaveApiCredentialsFacts.
Import JS Schema SaveApiCredentials.

Lemma save_single_row w rows last blob :
  single_row rows last ->
  db_failure w = None ->
  exists rows', save w rows blob = (None, rows') /\ single_row rows' (Some blob).
Proof.
  intros Hrows Hdb. unfold save. rewrite Hdb.
  destruct Hrows as [|r Hid].
  - cbn. eexists. split; [reflexivity|].
    apply (main_row {| cred_id := "main"; credentials := blob;
                       cred_created_at := Some (now w);
                       cred_updated_at := Some (now w) |}).
    reflexivity.
  - unfold api_credentials_by_id.
    rewrite filter_cons_True by (rewrite Hid; reflexivity).
    rewrite filter_nil. cbn [maybeSingle fst].
    unfold update_api_credential. cbn [map]. rewrite Hid. cbn [String.eqb Ascii.eqb Bool.eqb].
    eexists. split; [reflexivity|].
    apply (main_row {| cred_id := "main"; credentials := blob;
                       cred_created_at := cred_created_at r;
                       cred_updated_at := Some (now w) |}).
    reflexivity.
Qed.

Lemma save_failure w rows blob e :
  db_failure w = Some e -> save w rows blob = (Some e, rows).
Proof. intros H. unfold save. now rewrite H. Qed.

(** One invocation: the table afterwards holds the submitted blob, or is
    the table before when the invocation submitted none. *)
Lemma serve_single_row w req rows last :
  single_row rows last ->
  single_row (fst (serve w rows req))
    (match submitted (w, req) with Some blob => Some blob | None => last end).
Proof.
  intros Hrows. unfold serve, submitted, try_block.
  destruct (String.eqb (method req) "OPTIONS"); [exact Hrows|].
  destruct (try! client := createClient w in
            try! body := json_body req in destructure_credentials body)
    as [[blob|]|e]; cbn [fst]; try exact Hrows.
  unfold missing. destruct (json_truthy blob); cbn [negb fst]; [|exact Hrows].
  destruct (db_failure w) as [e|] eqn:Hdb.
  - rewrite (save_failure _ _ _ _ Hdb). exact Hrows.
  - destruct (save_single_row w rows last blob Hrows Hdb) as [rows' [Hsave Hrows']].
    rewrite Hsave. exact Hrows'.
Qed.

Lemma serve_all_single_row calls :
  forall rows last,
    single_row rows last ->
    single_row (serve_all rows calls)
      (fold_left (fun last call =>
                    match submitted call with
                    | Some blob => Some blob
                    | None => last
                    end) calls last).
Proof.
  induction calls as [|[w req] calls IH]; intros rows last Hrows; [exact Hrows|].
  unfold serve_all. cbn [fold_left fst snd]. apply IH.
  now apply serve_single_row.
Qed.

(** An invocation is answered [success: true] exactly when it submitted a
    blob. *)
Lemma success_iff_submitted w req rows last :
  single_row rows last ->
  returned (snd (serve w rows req))
  = Some (answer true "Credentials saved successfully")
  <-> exists blob, submitted (w, req) = Some blob.
Proof.
  intros Hrows. unfold serve, submitted, try_block.
  destruct (String.eqb (method req) "OPTIONS").
  { cbn. split; [discriminate|intros [b Hb]; discriminate]. }
  destruct (try! client := createClient w in
            try! body := json_body req in destructure_credentials body)
    as [[blob|]|e]; cbn [snd].
  - unfold missing. destruct (json_truthy blob); cbn [negb snd].
    + destruct (db_failure w) as [e|] eqn:Hdb.
      * rewrite (save_failure _ _ _ _ Hdb). cbn.
        split; [discriminate|intros [b Hb]; discriminate].
      * destruct (save_single_row w rows last blob Hrows Hdb) as [rows' [Hsave _]].
        rewrite Hsave. cbn. split; [eauto|reflexivity].
    + cbn. split; [discriminate|intros [b Hb]; discriminate].
  - cbn. split; [discriminate|intros [b Hb]; discriminate].
  - cbn. split; [discriminate|intros [b Hb]; discriminate].
Qed.

(** The handler accepts exactly the save operations. *)
Lemma submitted_save_operation (call : world * request) :
  submitted call = save_operation call.
Proof.
  destruct call as [w req]. unfold submitted, save_operation, posted_credentials.
  cbn [fst snd].
  destruct (String.eqb (method req) "OPTIONS"); [reflexivity|].
  destruct (createClient w) as [u|e]; cbn [bind]; [|reflexivity].
  destruct (json_body req) as [body|e]; cbn [bind];
    [|destruct (db_failure w); reflexivity].
  destruct body as [|b|n|t|l|fields]; cbn [destructure_credentials];
    try (destruct (db_failure w); reflexivity).
  destruct (field fields "credentials") as [blob|];
    [|destruct (db_failure w); reflexivity].
  destruct (json_truthy blob); destruct (db_failure w); reflexivity.
Qed.

Lemma last_submitted_most_recent (calls : list (world * request)) :
  last_submitted calls = most_recent_blob calls.
Proof.
  unfold last_submitted.
  assert (H : forall calls last,
             fold_left (fun last call =>
                          match submitted call with
                          | Some blob => Some blob
                          | None => last
                          end) calls last
             = match most_recent_blob calls with
               | Some blob => Some blob
               | None => last
               end).
  { clear calls. induction calls as [|call calls IH]; intros last; [reflexivity|].
    cbn [fold_left most_recent_blob]. rewrite IH, submitted_save_operation.
    destruct (most_recent_blob calls); [reflexivity|].
    destruct (save_operation call); reflexivity. }
  rewrite H. destruct (most_recent_blob calls); reflexivity.
Qed.

(** C8: after any sequence of invocations on the table the migration
    creates, the table holds at most one row, its id is 'main', and its blob
    is the one of the most recent save operation; the table is empty when
    there was none.  A save operation is a request, other than a preflight,
    whose body is a JSON object with a truthy [credentials], in a run in
    which the client is created and the database answers
    ([save_operation], read off the request and the run); it updates the row
    'main' when it exists and inserts it when it is absent, see [save]. *)
Theorem credential_store_single_row (calls : list (world * request)) :
  (List.length (serve_all [] calls) <= 1)%nat
  /\ (forall r, In r (serve_all [] calls) -> cred_id r = "main")
  /\ match most_recent_blob calls with
     | Some blob => exists r, serve_all [] calls = [r] /\ credentials r = blob
     | None => serve_all [] calls = []
     end.
Proof.
  pose proof (serve_all_single_row calls [] None no_row) as H.
  fold (last_submitted calls) in H. rewrite last_submitted_most_recent in H.
  destruct H as [|r Hid].
  - split; [cbn; lia|]. split; [intros r []|reflexivity].
  - split; [cbn; lia|]. split.
    + intros r' [<-|[]]. exact Hid.
    + exists r. split; reflexivity.
Qed.

Example two_saves_one_row :
  map (fun r => (cred_id r, credentials r))
    (serve_all []
       [ ({| createClient := Normal tt; db_failure := None; now := 1 |},
          {| method := "POST";
             json_body := Normal (JObj [ ("credentials", JObj [ ("maps", JStr "k1") ]) ]) |});
         ({| createClient := Normal tt; db_failure := None; now := 2 |},
          {| method := "POST"; json_body := Normal (JObj []) |});
         ({| createClient := Normal tt; db_failure := None; now := 3 |},
          {| method := "POST";
             json_body := Normal (JObj [ ("credentials", JObj [ ("maps", JStr "k2") ]) ]) |}) ])
  = [ ("main", JObj [ ("maps", JStr "k2") ]) ].
Proof. vm_compute. reflexivity. Qed.

End SaveApiCredentialsFacts.

Module WhatsappWebhookFacts.
Import JS Schema WhatsappWebhook.

(** C9: a message from a phone number that no farmer has registers a farmer
    with that number, and the call record of the same interaction is stored
    with a NULL farmer_id: the payload takes [farmer?.id] from the lookup
    made before the insert.  (The identifiers the database generates are
    taken to be unused.) *)
Theorem unknown_sender_logged_without_farmer
    (reply_text reply_excerpt : reply -> string) w db m contacts :
  has_phone_number (farmers db) (from m) = false ->
  has_farmer_id (farmers db) (farmer_uuid w) = false ->
  existsb (fun r => String.eqb (call_id r) (call_uuid w)) (ivr_calls db) = false ->
  exists f c,
    fst (handleIncomingMessage reply_text reply_excerpt w db m contacts)
    = {| farmers := farmers db ++ [f]; ivr_calls := ivr_calls db ++ [c] |}
    /\ phone_number f = from m
    /\ farmer_id f = farmer_uuid w
    /\ call_farmer_id c = None
    /\ call_status c = Some "whatsapp_received".
Proof.
  intros Hphone Hid Hcall. unfold handleIncomingMessage.
  rewrite (SchemaFacts.no_phone_no_rows _ _ Hphone).
  cbn [single fst option_map].
  unfold insert_farmer, registration.
  cbn [with_default ins_farmer_id ins_phone_number]. cbv zeta.
  rewrite Hid, Hphone. cbn [snd].
  unfold insert_ivr_call, interaction, property.
  cbn [with_default ins_call_id ins_call_farmer_id ins_crop_condition ins_call_type
       crop_condition call_type call_farmer_id check_between check_in negb
       references_farmer]. cbv zeta.
  cbn [with_default ins_call_id ins_call_farmer_id ins_crop_condition ins_call_type
       crop_condition call_type call_farmer_id check_between check_in negb
       references_farmer existsb call_types String.eqb Ascii.eqb Bool.eqb orb].
  rewrite Hcall. cbn [snd fst].
  do 2 eexists. split; [reflexivity|]. cbn. auto.
Qed.

Lemma unknown_sender_logged_without_farmer_witness :
  exists f c,
    fst (handleIncomingMessage (fun _ => "Hello!") (fun _ => "Hello!")
           Samples.webhook_world Samples.registered Samples.first_contact None)
    = {| farmers := Samples.one_farmer ++ [f]; ivr_calls := [c] |}
    /\ phone_number f = "+254700000002"
    /\ call_farmer_id c = None.
Proof.
  destruct (unknown_sender_logged_without_farmer (fun _ => "Hello!") (fun _ => "Hello!")
              Samples.webhook_world Samples.registered Samples.first_contact None
              eq_refl eq_refl eq_refl) as (f & c & Hdb & Hphone & _ & Hnull & _).
  exists f, c. split; [exact Hdb|]. split; [exact Hphone|exact Hnull].
Defined.

(** A sender who is registered is logged with the farmer's id. *)
Example known_sender_logged_with_farmer :
  map call_farmer_id
    (ivr_calls
       (fst (handleIncomingMessage (fun _ => "Hello!") (fun _ => "Hello!")
               Samples.webhook_world Samples.registered
               {| from := "+254700000001"; text_body := Some "weather" |} None)))
  = [ Some "0b5c1c2e-0001" ].
Proof. vm_compute. reflexivity. Qed.

(** The message after the first one is logged with the id: the sender is
    registered by then. *)
Example second_message_logged_with_farmer :
  map call_farmer_id
    (ivr_calls
       (fst (handle_messages (fun _ => "Hello!") (fun _ => "Hello!")
               Samples.registered
               [ (Samples.webhook_world, Samples.first_contact, None);
                 ({| now := 1750150180000; farmer_uuid := "0b5c1c2e-0007";
                     call_uuid := "0b5c1c2e-0008" |},
                  Samples.first_contact, None) ])))
  = [ None; Some "0b5c1c2e-0005" ].
Proof. vm_compute. reflexivity. Qed.

Example reply_to_menu : choose_reply (Some "menu") = PlatformMenu.
Proof. vm_compute. reflexivity. Qed.

Example reply_to_digit : choose_reply (Some "option 2 please") = WeatherForecast.
Proof. vm_compute. reflexivity. Qed.

End WhatsappWebhookFacts.

Module SentinelHubIntegrationFacts.
Import JS SentinelHubIntegration.
Local Open Scope float_scope.

Lemma own_property_assign {A} (o : list (string * A)) (k k' : string) (v : A) :
  own_property (assign o k v) k'
  = if String.eqb k k' then Some v else own_property o k'.
Proof.
  induction o as [|[k0 x] o IH]; cbn [assign own_property].
  - reflexivity.
  - destruct (String.eqb k0 k) eqn:H0; cbn [own_property].
    + apply String.eqb_eq in H0. subst k0.
      destruct (String.eqb k k'); reflexivity.
    + rewrite IH. destruct (String.eqb k0 k') eqn:H1; [|reflexivity].
      apply String.eqb_eq in H1. subst k'. rewrite String.eqb_sym, H0.
      reflexivity.
Qed.

Lemma own_property_set {A} rt (o : list (string * A)) (k k' : string) (v : A) :
  k' <> "__proto__" ->
  own_property (set_property rt o k v) k'
  = if String.eqb k k' then Some v else own_property o k'.
Proof.
  intros Hk'. unfold set_property.
  destruct (proto_accessor rt && String.eqb k "__proto__") eqn:Hp.
  - apply andb_true_iff in Hp as [_ Hp]. apply String.eqb_eq in Hp. subst k.
    destruct (String.eqb "__proto__" k') eqn:H; [|reflexivity].
    apply String.eqb_eq in H. congruence.
  - apply own_property_assign.
Qed.

(** The object a loop [for (const id of layers) results[id] = f(id)]
    builds. *)
Lemma own_property_loop {A} rt (f : string -> A) (layers : list string) (k : string) :
  k <> "__proto__" ->
  forall init,
    own_property (fold_left (fun results id => set_property rt results id (f id))
                    layers init) k
    = if existsb (String.eqb k) layers then Some (f k) else own_property init k.
Proof.
  intros Hk. induction layers as [|l ls IH]; intros init; [reflexivity|].
  cbn [fold_left existsb]. rewrite IH, own_property_set by assumption.
  rewrite (String.eqb_sym k l).
  destruct (String.eqb l k) eqn:Hl; cbn [orb].
  - apply String.eqb_eq in Hl. subst l. destruct (existsb _ ls); reflexivity.
  - reflexivity.
Qed.

Lemma generateMockImages_entry rt N M key lat lng date layers l :
  In l layers -> l <> "__proto__" ->
  own_property (generateMockImages rt N M key lat lng date layers) l
  = Some (if str_truthy key
          then ImageUrl (mock_image_url rt N M key lat lng l)
          else ImageError "Google Maps API key not configured").
Proof.
  intros Hin Hl. unfold generateMockImages.
  assert (Hex : existsb (String.eqb l) layers = true).
  { apply existsb_exists. exists l. split; [assumption|apply String.eqb_refl]. }
  destruct (str_truthy key); cbn [negb].
  - rewrite (own_property_loop rt
               (fun id => ImageUrl (mock_image_url rt N M key lat lng id)))
      by assumption.
    now rewrite Hex.
  - rewrite (own_property_loop rt
               (fun _ => ImageError "Google Maps API key not configured"))
      by assumption.
    now rewrite Hex.
Qed.

Lemma generateMockImages_no_entry rt N M key lat lng date layers l :
  ~ In l layers -> l <> "__proto__" ->
  own_property (generateMockImages rt N M key lat lng date layers) l = None.
Proof.
  intros Hin Hl. unfold generateMockImages.
  assert (Hex : existsb (String.eqb l) layers = false).
  { apply not_true_is_false. intros H. apply existsb_exists in H.
    destruct H as [k [Hk Heq]]. apply String.eqb_eq in Heq. now subst k. }
  destruct (str_truthy key); cbn [negb].
  - rewrite (own_property_loop rt
               (fun id => ImageUrl (mock_image_url rt N M key lat lng id)))
      by assumption.
    now rewrite Hex.
  - rewrite (own_property_loop rt
               (fun _ => ImageError "Google Maps API key not configured"))
      by assumption.
    now rewrite Hex.
Qed.

(** Every mock URL is a Google Maps Static API URL. *)
Lemma mock_image_url_staticmap rt N M key lat lng l :
  exists query, mock_image_url rt N M key lat lng l = staticmap +:+ "?" +:+ query.
Proof. unfold mock_image_url. eexists. reflexivity. Qed.

(** C10 (as amended): a fetch-images request with its required parameters
    and with Sentinel Hub credentials, whose [layers] is absent or an array
    of strings, when the token request fails, is answered [success: true]
    with [source: 'sentinel-hub'] and with the images of
    [generateMockImages] for the layers of the request (the array it
    carries or, without one, rgb, ndvi, moisture and infrared): for every
    one of them a Google Maps URL when the request carries a Google Maps
    key, and the error 'Google Maps API key not configured' when it does
    not; a layer that was not requested has no image. *)
Theorem fetch_images_falls_back_to_mock rt N M w req b e :
  method req = "POST" ->
  json_body req = Normal b ->
  action b = Some "fetch-images" ->
  text_given (farmerId b) = true ->
  number_given (latitude b) = true ->
  number_given (longitude b) = true ->
  text_given (imageDate b) = true ->
  str_truthy (body_clientId b) = true ->
  str_truthy (body_clientSecret b) = true ->
  oauth w = Throw e ->
  let requested :=
    match layers b with
    | Some chosen => chosen
    | None => [ "rgb"; "ndvi"; "moisture"; "infrared" ]
    end in
  let mock :=
    generateMockImages rt N M (body_googleMapsApiKey b) (number_of (latitude b))
      (number_of (longitude b)) (or_empty (imageDate b)) requested in
  returned (serve rt N M w req)
  = Some (Response 200
            (Json (JObj [ ("success", JBool true);
                          ("images", images_json mock);
                          ("source", JStr "sentinel-hub") ])))
  /\ (forall l,
        In l requested -> l <> "__proto__" ->
        own_property mock l
        = Some (if str_truthy (body_googleMapsApiKey b)
                then ImageUrl (mock_image_url rt N M (body_googleMapsApiKey b)
                                 (number_of (latitude b)) (number_of (longitude b)) l)
                else ImageError "Google Maps API key not configured"))
  /\ (forall l,
        ~ In l requested -> l <> "__proto__" -> own_property mock l = None).
Proof.
  intros Hm Hb Ha Hf Hlat Hlng Hd Hid Hsec Ho requested mock. split; [|split].
  - unfold serve, try_block. rewrite Hm, Hb. cbn [String.eqb Ascii.eqb Bool.eqb negb bind].
    rewrite Ha. cbn [bool_decide decide_rel]. 
    rewrite bool_decide_eq_false_2 by discriminate.
    rewrite bool_decide_eq_true_2 by reflexivity.
    unfold fetch_images_branch. rewrite Hf, Hlat, Hlng, Hd. cbn [negb orb].
    unfold fetch_images, fetchSatelliteImages, getAccessToken.
    rewrite Hid, Hsec, Ho. cbn [negb orb andb]. reflexivity.
  - intros l Hin Hl. now apply generateMockImages_entry.
  - intros l Hin Hl. now apply generateMockImages_no_entry.
Qed.

Lemma fetch_images_falls_back_to_mock_witness :
  let mock :=
    generateMockImages deno (fun _ => "0") (fun name => name) "maps-key" (-1.2921)
      36.8219 "2025-06-01" [ "rgb"; "moisture"; "thermal" ] in
  returned (serve deno (fun _ => "0") (fun name => name) (Samples.vendor_down 0.25)
              (Scenarios.edge_request "fetch-images" (-1.2921)
                 (Some Scenarios.sh_credentials)))
  = Some (Response 200
            (Json (JObj [ ("success", JBool true);
                          ("images", images_json mock);
                          ("source", JStr "sentinel-hub") ])))
  /\ own_property mock "thermal"
     = Some (ImageUrl (mock_image_url deno (fun _ => "0") (fun name => name) "maps-key"
                         (-1.2921) 36.8219 "thermal"))
  /\ own_property mock "ndvi" = None.
Proof.
  destruct (fetch_images_falls_back_to_mock deno (fun _ => "0") (fun name => name)
              (Samples.vendor_down 0.25)
              (Scenarios.edge_request "fetch-images" (-1.2921)
                 (Some Scenarios.sh_credentials))
              _ (ErrorObject "TypeError" "fetch failed")
              eq_refl eq_refl eq_refl eq_refl eq_refl eq_refl eq_refl eq_refl
              eq_refl eq_refl) as (Hanswer & Hrequested & Hothers).
  split; [exact Hanswer|]. split.
  - apply (Hrequested "thermal"); [cbn; auto|discriminate].
  - apply (Hothers "ndvi"); [|discriminate].
    cbn. intros [H|[H|[H|[]]]]; discriminate.
Defined.

(** C10 (counterexample): without a Google Maps key the fallback holds no
    URL.  The statement refuted is the claim's: that every such request is
    answered with a mock URL for every layer of the request. *)
Lemma fallback_without_maps_key_has_no_url :
  ~ forall rt N M w req b e,
      method req = "POST" ->
      json_body req = Normal b ->
      action b = Some "fetch-images" ->
      text_given (farmerId b) = true ->
      number_given (latitude b) = true ->
      number_given (longitude b) = true ->
      text_given (imageDate b) = true ->
      str_truthy (body_clientId b) = true ->
      str_truthy (body_clientSecret b) = true ->
      oauth w = Throw e ->
      returned (serve rt N M w req)
      = Some (Response 200
                (Json (JObj [ ("success", JBool true);
                              ("images", images_json (snd (fetch_images rt N M w b)));
                              ("source", JStr "sentinel-hub") ])))
      /\ forall l,
           In l (match layers b with
                 | Some chosen => chosen
                 | None => [ "rgb"; "ndvi"; "moisture"; "infrared" ]
                 end) ->
           exists url,
             own_property (snd (fetch_images rt N M w b)) l = Some (ImageUrl url).
Proof.
  intros Hclaim.
  destruct (Hclaim deno (fun _ => "0") (fun name => name) (Samples.vendor_down 0.25)
              (Samples.post (Samples.images_request None))
              (Samples.images_request None)
              (ErrorObject "TypeError" "fetch failed")
              eq_refl eq_refl eq_refl eq_refl eq_refl eq_refl eq_refl eq_refl
              eq_refl eq_refl) as [_ Hurls].
  destruct (Hurls "rgb") as [url Hurl]; [cbn; auto|].
  vm_compute in Hurl. discriminate.
Qed.

(** The fallback of [getSatelliteInsights] draws from [Math.random]. *)
Lemma insights_fallback_is_random w id secret farmer lat lng startDate endDate e :
  str_truthy id = true -> str_truthy secret = true ->
  oauth w = Throw e ->
  snd (getSatelliteInsights w id secret farmer lat lng startDate endDate)
  = insight_object w farmer lat lng endDate false "Mock Data (API Error)".
Proof.
  intros Hid Hsec Ho. unfold getSatelliteInsights, getAccessToken.
  rewrite Hid, Hsec, Ho. reflexivity.
Qed.


End SentinelHubIntegrationFacts.

Module SentinelHubClientFacts.
Import JS SentinelHubClient.
Local Open Scope float_scope.

Lemma scores_ignore_the_clock
    (Math_sin : number -> number) (Date_getMonth : string -> number)
    (c1 c2 : clock) farmerId latitude longitude date fieldBoundaries :
  let insight c :=
    generateEnhancedMockData Math_sin Date_getMonth c farmerId latitude
      longitude date fieldBoundaries in
  ndviScore (insight c1) = ndviScore (insight c2)
  /\ soilMoisture (insight c1) = soilMoisture (insight c2)
  /\ vegetationIndex (insight c1) = vegetationIndex (insight c2).
Proof. cbv zeta. repeat split; reflexivity. Qed.



(** The condition on the month is needed.  '2025-10-01' is midnight UTC of
    the first of October: a host on UTC reads the month 9, a host west of
    Greenwich the month 8, where it is still the thirtieth of September; the
    seasonal factor is 0.5 for the one and 0.8 for the other, and the same
    farmer, date and coordinates give two NDVI scores. *)
Lemma mock_scores_depend_on_the_time_zone :
  let score Date_getMonth :=
    ndviScore
      (generateEnhancedMockData (fun _ => 0) Date_getMonth {| now_month := 9 |}
         "farmer-1" 0 36.8 "2025-10-01" None) in
  score (fun _ => 9) = 0.375 /\ score (fun _ => 8) = 0.645
  /\ score (fun _ => 9) <> score (fun _ => 8).
Proof.
  cbv zeta. split; [vm_compute; reflexivity|]. split; [vm_compute; reflexivity|].
  intros H. apply (f_equal (fun x => PrimFloat.ltb x 0.5)) in H.
  vm_compute in H. discriminate.
Qed.

(** The recommendation text is built from the month of the clock, not from
    the month of the date: the same scores read differently in January and
    in July. *)
Lemma recommendation_reads_the_clock :
  generateEnhancedRecommendation {| now_month := 0 |} 0.65 55 0 36.8 None
  <> generateEnhancedRecommendation {| now_month := 6 |} 0.65 55 0 36.8 None.
Proof. vm_compute. discriminate. Qed.

Example hashCode_ab : hashCode "ab" = 3105.
Proof. vm_compute. reflexivity. Qed.

Example season_of_july_north : getSeason 6 10 = "Summer".
Proof. vm_compute. reflexivity. Qed.

Example season_of_invalid_date : getSeason nan 10 = "Winter".
Proof. vm_compute. reflexivity. Qed.

(** With a sine that is constantly 0 the generator always draws 0: the
    values of a single field on the equator in July. *)
Example mock_data_degenerate_sine :
  let insight :=
    generateEnhancedMockData (fun _ => 0) (fun _ => 6) {| now_month := 0 |}
      "farmer-1" 0 36.8 "2025-07-15" None in
  ndviScore insight = 0.645 /\ soilMoisture insight = 50.5
  /\ vegetationIndex insight = 61.3.
Proof. vm_compute. repeat split; reflexivity. Qed.

End SentinelHubClientFacts.

Module HandlersFacts.
Import JS Handlers.

(** The body of a [catch]: the message of an [Error], and what the body
    holds for a thrown value that is no [Error]. *)
Ltac catch_body e :=
  eexists; split; [reflexivity|];
  destruct e as [name m|v]; cbn;
  [ split; [intros m' H; now inversion H|reflexivity]
  | split; [discriminate|reflexivity] ].

Lemma carbon_credit_catch e :
  exists fields,
    CarbonCreditIntegration.catch e
    = {| console := [ console_error (label carbon_credit_integration) e ];
         returned := Some (Response 500 (Json (JObj fields))) |}
    /\ (forall m, message_of e = Some m ->
                  field fields (message_key carbon_credit_integration) = Some (JStr m))
    /\ field fields "success" = None.
Proof. catch_body e. Qed.

Lemma sentinel_hub_catch e :
  exists fields,
    SentinelHubIntegration.catch e
    = {| console := [ console_error (label sentinel_hub_integration) e ];
         returned := Some (Response 500 (Json (JObj fields))) |}
    /\ (forall m, message_of e = Some m ->
                  field fields (message_key sentinel_hub_integration) = Some (JStr m))
    /\ field fields "success" = None.
Proof. catch_body e. Qed.

Lemma save_api_credentials_catch e :
  exists fields,
    SaveApiCredentials.catch e
    = {| console := [ console_error (label save_api_credentials) e ];
         returned := Some (Response 500 (Json (JObj fields))) |}
    /\ (forall m, message_of e = Some m ->
                  field fields (message_key save_api_credentials) = Some (JStr m))
    /\ field fields "success" = Some (JBool false).
Proof. catch_body e. Qed.

(** C5 (as amended): when the [try] block of a handler throws, the handler
    writes one [console.error] line with the error and answers with status
    500 and a JSON object that carries the error's message, under [error]
    in carbon-credit-integration and under [message] in
    sentinel-hub-integration and save-api-credentials.  The object has
    [success: false] in save-api-credentials only. *)
Theorem caught_exception_answer h e r :
  caught h e r ->
  exists fields,
    r = {| console := [ console_error (label h) e ];
           returned := Some (Response 500 (Json (JObj fields))) |}
    /\ (forall m, message_of e = Some m ->
                  field fields (message_key h) = Some (JStr m))
    /\ field fields "success"
       = if has_success h then Some (JBool false) else None.
Proof.
  intros Hcaught. destruct Hcaught as
    [rt row_json w db req db' e Hm Htry | rt N M w req e Htry
    | w rows req rows' e Hm Htry].
  - unfold CarbonCreditIntegration.serve. rewrite Hm, Htry. cbn [snd].
    apply carbon_credit_catch.
  - unfold SentinelHubIntegration.serve. rewrite Htry.
    apply sentinel_hub_catch.
  - unfold SaveApiCredentials.serve. rewrite Hm, Htry. cbn [snd].
    apply save_api_credentials_catch.
Qed.

Lemma caught_exception_answer_witness :
  exists fields,
    snd (SaveApiCredentials.serve
           {| SaveApiCredentials.createClient := Normal tt;
              SaveApiCredentials.db_failure := None;
              SaveApiCredentials.now := 1750150000000 |}
           []
           {| SaveApiCredentials.method := "POST";
              SaveApiCredentials.json_body :=
                Throw (ErrorObject "SyntaxError" "Unexpected end of JSON input") |})
    = {| console := [ console_error "Error in save-api-credentials:"
                        (ErrorObject "SyntaxError" "Unexpected end of JSON input") ];
         returned := Some (Response 500 (Json (JObj fields))) |}
    /\ field fields "message" = Some (JStr "Unexpected end of JSON input")
    /\ field fields "success" = Some (JBool false).
Proof.
  destruct (caught_exception_answer save_api_credentials _ _
              (caught_save_api_credentials
                 {| SaveApiCredentials.createClient := Normal tt;
                    SaveApiCredentials.db_failure := None;
                    SaveApiCredentials.now := 1750150000000 |}
                 []
                 {| SaveApiCredentials.method := "POST";
                    SaveApiCredentials.json_body :=
                      Throw (ErrorObject "SyntaxError" "Unexpected end of JSON input") |}
                 [] _ eq_refl eq_refl))
    as [fields (Hrun & Hmsg & Hsucc)].
  exists fields. split; [exact Hrun|]. split; [|exact Hsucc].
  exact (Hmsg _ eq_refl).
Defined.

(** C5 (counterexample): a GET request without [farmer_id] to
    carbon-credit-integration.  The exception is caught and logged, the
    status is 500, and the body is [{ error }]: it has neither
    [success: false] nor [message]. *)
Lemma carbon_credit_error_body_has_no_success :
  snd (CarbonCreditIntegration.serve deno (fun _ => JNull) Samples.credit_world
         Samples.no_credits (Samples.get_status None))
  = {| console := [ console_error "Error in carbon-credit-integration:"
                      (new_Error "farmer_id is required") ];
       returned :=
         Some (Response 500 (Json (JObj [ ("error", JStr "farmer_id is required") ]))) |}
  /\ field [ ("error", JStr "farmer_id is required") ] "success" = None
  /\ field [ ("error", JStr "farmer_id is required") ] "message" = None.
Proof. repeat split; reflexivity. Qed.

End HandlersFacts.

Module SchemaInvariants.
Import JS Schema.

Lemma existsb_key_false {A} (key : A -> string) (rows : list A) (k : string) :
  existsb (fun r => String.eqb (key r) k) rows = false -> ~ In k (map key rows).
Proof.
  induction rows as [|r rows IH]; cbn; [tauto|].
  intros H [Hk|Hin].
  - rewrite Hk, String.eqb_refl in H. discriminate.
  - apply orb_false_iff in H. tauto.
Qed.

Lemma existsb_key_true {A} (key : A -> string) (rows : list A) (k : string) :
  existsb (fun r => String.eqb (key r) k) rows = true <-> In k (map key rows).
Proof.
  induction rows as [|r rows IH]; cbn; [split; [discriminate|tauto]|].
  rewrite orb_true_iff, IH, String.eqb_eq. tauto.
Qed.

Lemma NoDup_snoc {A} (l : list A) (x : A) :
  NoDup l -> ~ In x l -> NoDup (l ++ [x]).
Proof.
  intros Hl Hx. apply NoDup_app. split; [exact Hl|]. split.
  - intros y Hy Hy'. apply list_elem_of_singleton in Hy'. subst.
    apply Hx, list_elem_of_In, Hy.
  - apply NoDup_singleton.
Qed.

(** What an INSERT INTO farmers leaves: the old table, or the old table
    and a row whose id and phone number are new. *)
Lemma insert_farmer_cases now gen farmers p :
  snd (insert_farmer now gen farmers p) = farmers
  \/ exists row,
       snd (insert_farmer now gen farmers p) = farmers ++ [row]
       /\ has_farmer_id farmers (farmer_id row) = false
       /\ has_phone_number farmers (phone_number row) = false.
Proof.
  unfold insert_farmer.
  destruct (with_default (Some gen) (ins_farmer_id p)) as [id|]; [|now left].
  destruct (with_default None (ins_phone_number p)) as [phone|]; [|now left].
  destruct (has_farmer_id farmers id) eqn:Hid; [now left|].
  destruct (has_phone_number farmers phone) eqn:Hphone; [now left|].
  right. eexists. split; [reflexivity|]. split; assumption.
Qed.

Lemma insert_ivr_call_cases now gen farmers calls p :
  snd (insert_ivr_call now gen farmers calls p) = calls
  \/ exists row,
       snd (insert_ivr_call now gen farmers calls p) = calls ++ [row]
       /\ existsb (fun r => String.eqb (call_id r) (call_id row)) calls = false
       /\ references_farmer farmers (call_farmer_id row) = true
       /\ call_status row = with_default (Some "completed") (ins_call_status p).
Proof.
  unfold insert_ivr_call.
  destruct (with_default (Some gen) (ins_call_id p)) as [id|]; [|now left].
  cbv zeta.
  destruct (negb (check_between 1 3 _)); [now left|].
  destruct (negb (check_in call_types _)); [now left|].
  destruct (existsb _ calls) eqn:Hid; [now left|].
  destruct (references_farmer farmers _) eqn:Hfk; [|now left].
  right. eexists. split; [reflexivity|]. repeat split; assumption.
Qed.

Lemma insert_carbon_credit_cases now gen farmers credits p :
  snd (insert_carbon_credit now gen farmers credits p) = credits
  \/ exists row,
       snd (insert_carbon_credit now gen farmers credits p) = credits ++ [row]
       /\ existsb (fun r => String.eqb (credit_id r) (credit_id row)) credits = false
       /\ references_farmer farmers (credit_farmer_id row) = true
       /\ credit_farmer_id row = with_default None (ins_credit_farmer_id p).
Proof.
  unfold insert_carbon_credit.
  destruct (numeric_overflow p); [now left|].
  destruct (with_default (Some gen) (ins_credit_id p)) as [id|]; [|now left].
  destruct (with_default None (ins_opt_in_date p)) as [day|]; [|now left].
  cbv zeta.
  destruct (negb (check_in verification_statuses _)); [now left|].
  destruct (existsb _ credits) eqn:Hid; [now left|].
  destruct (references_farmer farmers _) eqn:Hfk; [|now left].
  right. eexists. split; [reflexivity|]. repeat split; assumption.
Qed.

Lemma set_verification_status_keys credits id s :
  map credit_id (snd (set_verification_status credits id s)) = map credit_id credits
  /\ map credit_farmer_id (snd (set_verification_status credits id s))
     = map credit_farmer_id credits.
Proof.
  unfold set_verification_status.
  destruct (_ && _); [split; reflexivity|]. cbn [snd].
  rewrite !map_map. split; apply map_ext; intros r;
    destruct (String.eqb (credit_id r) id); reflexivity.
Qed.

Lemma insert_farmer_keys now gen farmers p :
  NoDup (map farmer_id farmers) /\ NoDup (map phone_number farmers) ->
  NoDup (map farmer_id (snd (insert_farmer now gen farmers p)))
  /\ NoDup (map phone_number (snd (insert_farmer now gen farmers p))).
Proof.
  intros [Hid Hphone].
  destruct (insert_farmer_cases now gen farmers p) as [->|(row & -> & Hi & Hp)];
    [tauto|].
  rewrite !map_app. cbn [map]. split; apply NoDup_snoc; try assumption.
  - apply existsb_key_false, Hi.
  - apply existsb_key_false, Hp.
Qed.

Lemma has_farmer_id_insert now gen farmers p id :
  has_farmer_id farmers id = true ->
  has_farmer_id (snd (insert_farmer now gen farmers p)) id = true.
Proof.
  intros H.
  destruct (insert_farmer_cases now gen farmers p) as [->|(row & -> & _)];
    [exact H|].
  unfold has_farmer_id in *. rewrite existsb_app, H. reflexivity.
Qed.

Lemma references_farmer_insert now gen farmers p id :
  references_farmer farmers id = true ->
  references_farmer (snd (insert_farmer now gen farmers p)) id = true.
Proof.
  destruct id as [i|]; [|reflexivity]. apply has_farmer_id_insert.
Qed.

Lemma execute_keys db st :
  NoDup (map farmer_id (farmers db))
  /\ NoDup (map phone_number (farmers db))
  /\ NoDup (map call_id (ivr_calls db))
  /\ NoDup (map credit_id (carbon_credits db)) ->
  NoDup (map farmer_id (farmers (execute db st)))
  /\ NoDup (map phone_number (farmers (execute db st)))
  /\ NoDup (map call_id (ivr_calls (execute db st)))
  /\ NoDup (map credit_id (carbon_credits (execute db st))).
Proof.
  intros (Hf & Hp & Hc & Hk).
  destruct st as [now gen p|now gen p|now gen p|id s]; cbn.
  - destruct (insert_farmer_keys now gen (farmers db) p) as [? ?]; tauto.
  - repeat split; try assumption.
    destruct (insert_ivr_call_cases now gen (farmers db) (ivr_calls db) p)
      as [->|(row & -> & Hid & _)]; [assumption|].
    rewrite map_app. apply NoDup_snoc; [assumption|]. apply existsb_key_false, Hid.
  - repeat split; try assumption.
    destruct (insert_carbon_credit_cases now gen (farmers db) (carbon_credits db) p)
      as [->|(row & -> & Hid & _)]; [assumption|].
    rewrite map_app. apply NoDup_snoc; [assumption|]. apply existsb_key_false, Hid.
  - repeat split; try assumption.
    destruct (set_verification_status_keys (carbon_credits db) id s) as [-> _].
    assumption.
Qed.

(** X1: primary keys and the UNIQUE phone number.  Whatever statements run
    against the empty database, and whichever of them fail, no two farmers
    share an id or a phone number, no two call records share an id and no
    two carbon-credit rows share an id. *)
Theorem keys_stay_unique (sts : list statement) :
  NoDup (map farmer_id (farmers (execute_all empty_database sts)))
  /\ NoDup (map phone_number (farmers (execute_all empty_database sts)))
  /\ NoDup (map call_id (ivr_calls (execute_all empty_database sts)))
  /\ NoDup (map credit_id (carbon_credits (execute_all empty_database sts))).
Proof.
  unfold execute_all.
  assert (Hinit : NoDup (map farmer_id (farmers empty_database))
                  /\ NoDup (map phone_number (farmers empty_database))
                  /\ NoDup (map call_id (ivr_calls empty_database))
                  /\ NoDup (map credit_id (carbon_credits empty_database)))
    by (cbn; repeat split; apply NoDup_nil_2).
  revert Hinit. generalize empty_database as db.
  induction sts as [|st sts IH]; intros db H; [exact H|].
  cbn [fold_left]. apply IH, execute_keys, H.
Qed.

Lemma execute_references db st :
  (forall c, In c (ivr_calls db) ->
             references_farmer (farmers db) (call_farmer_id c) = true)
  /\ (forall c, In c (carbon_credits db) ->
                references_farmer (farmers db) (credit_farmer_id c) = true) ->
  (forall c, In c (ivr_calls (execute db st)) ->
             references_farmer (farmers (execute db st)) (call_farmer_id c) = true)
  /\ (forall c, In c (carbon_credits (execute db st)) ->
                references_farmer (farmers (execute db st)) (credit_farmer_id c) = true).
Proof.
  intros [Hcalls Hcredits].
  destruct st as [now gen p|now gen p|now gen p|id s]; cbn.
  - split; intros c Hc; apply references_farmer_insert; auto.
  - split; [|assumption]. intros c.
    destruct (insert_ivr_call_cases now gen (farmers db) (ivr_calls db) p)
      as [->|(row & -> & _ & Hfk & _)]; [auto|].
    rewrite in_app_iff. intros [Hc|[<-|[]]]; auto.
  - split; [assumption|]. intros c.
    destruct (insert_carbon_credit_cases now gen (farmers db) (carbon_credits db) p)
      as [->|(row & -> & _ & Hfk & _)]; [auto|].
    rewrite in_app_iff. intros [Hc|[<-|[]]]; auto.
  - split; [assumption|]. intros c Hc.
    unfold set_verification_status in Hc.
    destruct (_ && _); [auto|]. cbn [snd] in Hc.
    apply in_map_iff in Hc. destruct Hc as (r & <- & Hr).
    destruct (String.eqb (credit_id r) id); cbn; auto.
Qed.

(** X2: referential integrity.  Whatever statements run against the empty
    database, every stored call record and every stored carbon-credit row
    has a farmer_id that is NULL or the id of a stored farmer. *)
Theorem foreign_keys_hold (sts : list statement) :
  (forall c, In c (ivr_calls (execute_all empty_database sts)) ->
             references_farmer (farmers (execute_all empty_database sts))
               (call_farmer_id c) = true)
  /\ (forall c, In c (carbon_credits (execute_all empty_database sts)) ->
                references_farmer (farmers (execute_all empty_database sts))
                  (credit_farmer_id c) = true).
Proof.
  unfold execute_all.
  assert (Hinit :
    (forall c, In c (ivr_calls empty_database) ->
               references_farmer (farmers empty_database) (call_farmer_id c) = true)
    /\ (forall c, In c (carbon_credits empty_database) ->
                  references_farmer (farmers empty_database) (credit_farmer_id c) = true))
    by (split; intros c []).
  revert Hinit. generalize empty_database as db.
  induction sts as [|st sts IH]; intros db H; [exact H|].
  cbn [fold_left]. apply IH, execute_references, H.
Qed.

End SchemaInvariants.

Module CarbonCreditLedgerFacts.
Import JS Schema CarbonCreditService CarbonCreditIntegration Histories.
Local Open Scope float_scope.

(** the estimate as the column receives it *)
Lemma estimate_column rt (r : CarbonCreditRequest) :
  exists x,
    post_estimatedCredits rt r = Normal x
    /\ sent_number (CarbonCreditIntegration.round2 x)
       = sent_number
           (calculateEstimatedCredits rt (practices r) (acreage r) (cropType r)).
Proof. eexists. split; reflexivity. Qed.


Lemma rewrite_estimate_length credits f text e p v u :
  List.length (rewrite_estimate credits f text e p v u) = List.length credits.
Proof. unfold rewrite_estimate. apply length_map. Qed.

Lemma rewrite_estimate_other credits f f' text e p v u :
  f' <> f ->
  credits_of_farmer (rewrite_estimate credits f text e p v u) f'
  = credits_of_farmer credits f'.
Proof.
  intros Hf. unfold credits_of_farmer, rewrite_estimate.
  induction credits as [|r credits IH]; [reflexivity|].
  cbn [map]. rewrite !filter_cons, IH.
  destruct (bool_decide (credit_farmer_id r = Some f)) eqn:Hr; [|reflexivity].
  apply bool_decide_eq_true in Hr. cbn [credit_farmer_id].
  destruct (decide (credit_farmer_id r = Some f')) as [Heq|Hne]; [|reflexivity].
  congruence.
Qed.

Lemma rewrite_estimate_same credits f text e p v u :
  credits_of_farmer (rewrite_estimate credits f text e p v u) f
  = rewrite_estimate (credits_of_farmer credits f) f text e p v u.
Proof.
  unfold credits_of_farmer, rewrite_estimate.
  induction credits as [|r credits IH]; [reflexivity|].
  cbn [map]. rewrite !filter_cons, IH.
  destruct (bool_decide (credit_farmer_id r = Some f)) eqn:Hr.
  - apply bool_decide_eq_true in Hr. cbn [credit_farmer_id].
    destruct (decide (credit_farmer_id r = Some f)) as [_|Hne]; [|contradiction].
    cbn [map]. rewrite bool_decide_eq_true_2 by exact Hr. reflexivity.
  - apply bool_decide_eq_false in Hr.
    destruct (decide (credit_farmer_id r = Some f)) as [Heq|_]; [contradiction|].
    reflexivity.
Qed.


Lemma update_estimate_fits credits f text e p v u :
  supplied_fits numeric_10_2 e = true ->
  supplied_fits numeric_10_2 p = true ->
  supplied_fits numeric_12_2 v = true ->
  update_estimate credits f text e p v u
  = (None, rewrite_estimate credits f text e p v u).
Proof. unfold update_estimate. intros -> -> ->. reflexivity. Qed.

Lemma credits_of_farmer_In credits f row :
  In row (credits_of_farmer credits f) -> credit_farmer_id row = Some f.
Proof.
  unfold credits_of_farmer. intros H.
  apply list_elem_of_In, list_elem_of_filter in H. tauto.
Qed.

Lemma zero_fits :
  fits_numeric numeric_10_2 (Some 0) = true.
Proof. reflexivity. Qed.

(** X3: a resubmission for a farmer who has exactly one carbon-credit row,
    when the database answers both requests of the run and the estimate,
    the price and the total value fit their columns, rewrites that row in
    place: the table keeps its length and the rows of the other farmers,
    the row keeps its id, opt-in date, verification status, verified credits
    and registry id, and takes the new practices, the new estimate (that of
    the client's calculator, as the payload carries it) and the clock of
    the run; the answer is 200 and carries the rewritten row. *)
Theorem resubmission_updates_in_place rt row_json w db req r row x :
  method req = "POST" ->
  createClient w = Normal tt ->
  select_failure w = None ->
  write_failure w = None ->
  json_body req = Normal r ->
  credits_of_farmer (carbon_credits db) (farmerId r) = [row] ->
  post_estimatedCredits rt r = Normal x ->
  fits_numeric numeric_10_2 (sent_number (CarbonCreditIntegration.round2 x)) = true ->
  fits_numeric numeric_10_2
    (sent_number (CarbonCreditIntegration.round2 (15 + Math_random w 0 * 10))) = true ->
  fits_numeric numeric_12_2
    (sent_number (CarbonCreditIntegration.round2 (x * (15 + Math_random w 0 * 10))))
  = true ->
  exists row' body,
    credits_of_farmer (carbon_credits (fst (serve rt row_json w db req))) (farmerId r)
    = [row']
    /\ List.length (carbon_credits (fst (serve rt row_json w db req)))
       = List.length (carbon_credits db)
    /\ (forall f, f <> farmerId r ->
          credits_of_farmer (carbon_credits (fst (serve rt row_json w db req))) f
          = credits_of_farmer (carbon_credits db) f)
    /\ credit_id row' = credit_id row
    /\ opt_in_date row' = opt_in_date row
    /\ verification_status row' = verification_status row
    /\ verified_credits row' = verified_credits row
    /\ registry_id row' = registry_id row
    /\ practices_reported row' = Some (String.concat ", " (practices r))
    /\ estimated_credits row'
       = sent_number
           (calculateEstimatedCredits rt (practices r) (acreage r) (cropType r))
    /\ credit_updated_at row' = Some (now w)
    /\ returned (snd (serve rt row_json w db req))
       = Some (Response 200 (Json (JObj body)))
    /\ field body "carbonCredit" = Some (row_json row').
Proof.
  intros Hmethod Hclient Hsel Hwrite Hjson Hrows Hx Hestimate Hprice Hvalue.
  assert (Hrow : credit_farmer_id row = Some (farmerId r)).
  { apply (credits_of_farmer_In (carbon_credits db)). rewrite Hrows. now left. }
  destruct (estimate_column rt r) as (x' & Hx' & Hcol).
  rewrite Hx in Hx'. injection Hx' as <-.
  unfold serve, try_block. rewrite Hmethod, Hclient. cbn [String.eqb Ascii.eqb Bool.eqb].
  unfold post_branch. rewrite Hjson, Hx. cbv zeta. rewrite Hsel, Hwrite, Hrows.
  cbn [single fst].
  rewrite update_estimate_fits by assumption.
  rewrite rewrite_estimate_same, Hrows.
  cbn [rewrite_estimate map]. rewrite (bool_decide_eq_true_2 _ Hrow).
  cbn [single fst snd bind returned carbon_credits].
  rewrite rewrite_estimate_same, Hrows.
  cbn [rewrite_estimate map]. rewrite (bool_decide_eq_true_2 _ Hrow).
  eexists _, _. split; [reflexivity|].
  split; [apply rewrite_estimate_length|].
  split; [intros f Hf; apply rewrite_estimate_other, Hf|].
  cbn [credit_id opt_in_date verification_status verified_credits registry_id
       practices_reported estimated_credits credit_updated_at number_column
       with_default].
  repeat (split; [reflexivity|]).
  split; [exact Hcol|].
  split; [reflexivity|]. split; reflexivity.
Qed.

(** X4: the first submission of a stored farmer who has no carbon-credit
    row, when the database answers the INSERT, the generated id is unused
    and the estimate, the price and the total value fit their columns, adds
    one row: for that farmer, dated today, 'pending', with no verified
    credits, with the estimate of the client's calculator as the payload
    carries it, and with the registry id AGS-<clock>-<last six characters of
    the farmer id>; the answer is 200 and carries the new row. *)
Theorem first_submission_is_stored rt row_json w db req r x :
  method req = "POST" ->
  createClient w = Normal tt ->
  write_failure w = None ->
  json_body req = Normal r ->
  has_farmer_id (farmers db) (farmerId r) = true ->
  credits_of_farmer (carbon_credits db) (farmerId r) = [] ->
  existsb (fun c => String.eqb (credit_id c) (gen_random_uuid w)) (carbon_credits db)
  = false ->
  post_estimatedCredits rt r = Normal x ->
  fits_numeric numeric_10_2 (sent_number (CarbonCreditIntegration.round2 x)) = true ->
  fits_numeric numeric_10_2
    (sent_number (CarbonCreditIntegration.round2 (15 + Math_random w 0 * 10))) = true ->
  fits_numeric numeric_12_2
    (sent_number (CarbonCreditIntegration.round2 (x * (15 + Math_random w 0 * 10))))
  = true ->
  exists row body,
    fst (serve rt row_json w db req)
    = {| farmers := farmers db; carbon_credits := carbon_credits db ++ [row] |}
    /\ credit_id row = gen_random_uuid w
    /\ credit_farmer_id row = Some (farmerId r)
    /\ opt_in_date row = today w
    /\ verification_status row = Some "pending"
    /\ verified_credits row = Some 0
    /\ practices_reported row = Some (String.concat ", " (practices r))
    /\ estimated_credits row
       = sent_number
           (calculateEstimatedCredits rt (practices r) (acreage r) (cropType r))
    /\ registry_id row
       = Some ("AGS-" +:+ Date_now w +:+ "-" +:+ slice_last6 (farmerId r))
    /\ returned (snd (serve rt row_json w db req))
       = Some (Response 200 (Json (JObj body)))
    /\ field body "carbonCredit" = Some (row_json row).
Proof.
  intros Hmethod Hclient Hwrite Hjson Hfarmer Hrows Hfresh Hx Hestimate Hprice Hvalue.
  destruct (estimate_column rt r) as (x' & Hx' & Hcol).
  rewrite Hx in Hx'. injection Hx' as <-.
  unfold serve, try_block. rewrite Hmethod, Hclient. cbn [String.eqb Ascii.eqb Bool.eqb].
  unfold post_branch. rewrite Hjson, Hx. cbv zeta. rewrite Hwrite, Hrows.
  assert (Hnone : match select_failure w with
                  | Some _ => None
                  | None => fst (single (@nil carbon_credit))
                  end = None) by (destruct (select_failure w); reflexivity).
  rewrite Hnone.
  unfold insert_carbon_credit, numeric_overflow.
  cbn [with_default ins_credit_id ins_opt_in_date ins_verification_status
       ins_credit_farmer_id ins_estimated_credits ins_verified_credits
       ins_credit_price ins_total_value number_column
       verification_status credit_id credit_farmer_id
       check_in verification_statuses existsb String.eqb Ascii.eqb Bool.eqb
       orb references_farmer].
  rewrite Hestimate, Hprice, Hvalue, zero_fits, Hfresh, Hfarmer.
  cbn [negb fst snd bind returned].
  eexists _, _. split; [reflexivity|].
  cbn [credit_id opt_in_date verification_status verified_credits registry_id
       practices_reported estimated_credits credit_farmer_id with_default
       ins_verified_credits ins_practices_reported ins_registry_id
       ins_estimated_credits].
  repeat (split; [reflexivity|]).
  split; [exact Hcol|].
  split; [reflexivity|]. split; reflexivity.
Qed.

(** What an INSERT that fails leaves. *)
Lemma insert_without_farmer now gen farmers credits p f :
  ins_credit_farmer_id p = Given (Some f) ->
  has_farmer_id farmers f = false ->
  exists e, insert_carbon_credit now gen farmers credits p = (PgErr e, credits).
Proof.
  intros Hp Hf. unfold insert_carbon_credit.
  destruct (numeric_overflow p); [eauto|].
  destruct (with_default (Some gen) (ins_credit_id p)); [|eauto].
  destruct (with_default None (ins_opt_in_date p)); [|eauto].
  cbv zeta. cbn [verification_status credit_id credit_farmer_id].
  destruct (negb (check_in _ _)); [eauto|].
  destruct (existsb _ credits); [eauto|].
  rewrite Hp. cbn [with_default references_farmer]. rewrite Hf. cbn [negb]. eauto.
Qed.

(** X5: a submission for a farmer id, in the form the database writes ids
    in, that is not the id of a stored farmer and for which no carbon-credit
    row is stored, is refused: both tables are as before and the answer is
    the 500 of the handler's catch, whatever the database answers. *)
Theorem submission_for_unknown_farmer_is_refused rt row_json w db req r :
  method req = "POST" ->
  createClient w = Normal tt ->
  json_body req = Normal r ->
  canonical_uuid (farmerId r) = true ->
  has_farmer_id (farmers db) (farmerId r) = false ->
  credits_of_farmer (carbon_credits db) (farmerId r) = [] ->
  exists e,
    serve rt row_json w db req = (db, catch e)
    /\ exists body,
         returned (catch e) = Some (Response 500 (Json (JObj body))).
Proof.
  intros Hmethod Hclient Hjson _ Hfarmer Hrows.
  destruct (estimate_column rt r) as (x & Hx & _).
  unfold serve, try_block. rewrite Hmethod, Hclient. cbn [String.eqb Ascii.eqb Bool.eqb].
  unfold post_branch. rewrite Hjson, Hx. cbv zeta. rewrite Hrows.
  assert (Hnone : match select_failure w with
                  | Some _ => None
                  | None => fst (single (@nil carbon_credit))
                  end = None) by (destruct (select_failure w); reflexivity).
  rewrite Hnone.
  destruct db as [fs cs]. cbn [farmers carbon_credits] in *.
  destruct (write_failure w) as [e|].
  - cbn [fst snd bind]. eexists. split; [reflexivity|]. eexists. reflexivity.
  - match goal with
    | |- context [insert_carbon_credit ?n ?g ?f ?c ?p] =>
        destruct (insert_without_farmer n g f c p (farmerId r) eq_refl Hfarmer)
          as [e ->]
    end.
    cbn [fst snd bind]. eexists. split; [reflexivity|]. eexists. reflexivity.
Qed.





(** X7: the answers of the handler.  It returns no response at all exactly
    for a method other than OPTIONS, POST and GET when the database client
    could be created; a response it returns has status 200 or 500, and 200
    only for OPTIONS and POST. *)
Theorem carbon_handler_answers rt row_json w db req :
  (returned (snd (serve rt row_json w db req)) = None
   <-> (method req <> "OPTIONS" /\ method req <> "POST" /\ method req <> "GET"
        /\ exists u, createClient w = Normal u))
  /\ forall resp,
       returned (snd (serve rt row_json w db req)) = Some resp ->
       (status resp = 200%Z /\ (method req = "OPTIONS" \/ method req = "POST"))
       \/ status resp = 500%Z.
Proof.
  unfold serve.
  destruct (String.eqb (method req) "OPTIONS") eqn:Hoptions.
  { apply String.eqb_eq in Hoptions. cbn. split.
    - split; [discriminate|]. intros (H & _). contradiction.
    - intros resp H. inversion H; subst. left. cbn. tauto. }
  apply String.eqb_neq in Hoptions.
  unfold try_block.
  destruct (createClient w) as [u|e].
  2:{ cbn. split.
      - split; [discriminate|]. intros (_ & _ & _ & u & Hu). discriminate.
      - intros resp H. inversion H; subst. now right. }
  destruct (String.eqb (method req) "POST") eqn:Hpost.
  { apply String.eqb_eq in Hpost.
    destruct (post_branch rt row_json w db req) as [db' [resp|e]] eqn:Hbranch; cbn.
    - split.
      + split; [discriminate|]. intros (_ & H & _). contradiction.
      + intros resp' H. inversion H; subst.
        unfold post_branch in Hbranch.
        destruct (json_body req); [|discriminate].
        destruct (post_estimatedCredits rt a); [|discriminate].
        cbv zeta in Hbranch.
        match type of Hbranch with
        | (match fst ?x with _ => _ end) = _ => destruct (fst x)
        end; inversion Hbranch; subst. left. cbn. tauto.
    - split.
      + split; [discriminate|]. intros (_ & H & _). contradiction.
      + intros resp' H. inversion H; subst. now right. }
  apply String.eqb_neq in Hpost.
  destruct (String.eqb (method req) "GET") eqn:Hget.
  { apply String.eqb_eq in Hget.
    destruct (CarbonCreditIntegrationFacts.get_branch_throws row_json w db req)
      as [e ->]. cbn. split.
    - split; [discriminate|]. intros (_ & _ & H & _). contradiction.
    - intros resp' H. inversion H; subst. now right. }
  apply String.eqb_neq in Hget. cbn. split.
  - split; [intros _|reflexivity]. repeat split; try assumption. now exists u.
  - discriminate.
Qed.

End CarbonCreditLedgerFacts.

Module SentinelEdgeFacts.
Import JS SentinelHubIntegration.
Local Open Scope float_scope.

(** X8: the answers of the handler.  Every request is answered, with status
    200, 400, 405 or 500; the status is 405 exactly for a method other than
    OPTIONS and POST, and 500 exactly when reading the body of a POST
    throws: once the body is read (an object whose [layers], if present, is
    a list of strings), no failure of Sentinel Hub turns into a 500. *)
Theorem sentinel_handler_answers rt N M w req :
  exists resp,
    returned (serve rt N M w req) = Some resp
    /\ In (status resp) [200; 400; 405; 500]%Z
    /\ (status resp = 405%Z <-> method req <> "OPTIONS" /\ method req <> "POST")
    /\ (status resp = 500%Z <-> method req = "POST" /\ exists e, json_body req = Throw e).
Proof.
  unfold serve, try_block.
  destruct (String.eqb (method req) "OPTIONS") eqn:Hoptions.
  { apply String.eqb_eq in Hoptions. eexists. split; [reflexivity|]. cbn.
    split; [tauto|]. split.
    - split; [discriminate|]. intros [H _]. contradiction.
    - split; [discriminate|]. intros [H _]. rewrite Hoptions in H. discriminate. }
  apply String.eqb_neq in Hoptions.
  destruct (String.eqb (method req) "POST") eqn:Hpost; cbn [negb].
  2:{ apply String.eqb_neq in Hpost. eexists. split; [reflexivity|]. cbn.
      split; [tauto|]. split.
      - split; [intros _; split; assumption|reflexivity].
      - split; [discriminate|]. intros [H _]. contradiction. }
  apply String.eqb_eq in Hpost.
  destruct (json_body req) as [b|e] eqn:Hbody; cbn [bind].
  2:{ eexists. split; [reflexivity|]. cbn. split; [tauto|]. split.
      - split; [discriminate|]. intros [_ H]. contradiction.
      - split; [intros _; split; [assumption|now exists e]|reflexivity]. }
  assert (Hread : forall resp : response,
             status resp = 200%Z \/ status resp = 400%Z ->
             In (status resp) [200; 400; 405; 500]%Z
             /\ (status resp = 405%Z <-> method req <> "OPTIONS" /\ method req <> "POST")
             /\ (status resp = 500%Z
                 <-> method req = "POST" /\ exists e, Normal b = Throw e)).
  { intros resp Hresp. split; [cbn; lia|]. split.
    - split; [lia|]. intros [_ H]. contradiction.
    - split; [lia|]. intros [_ [e He]]. discriminate. }
  destruct (bool_decide (action b = Some "test-connection")).
  { destruct (testConnection w (body_clientId b) (body_clientSecret b))
      as [log [success message]].
    eexists. split; [reflexivity|]. apply Hread. now left. }
  destruct (bool_decide (action b = Some "fetch-images")).
  { unfold fetch_images_branch.
    destruct (_ || _).
    - eexists. split; [reflexivity|]. apply Hread. now right.
    - destruct (fetch_images rt N M w b) as [log images].
      eexists. split; [reflexivity|]. apply Hread. now left. }
  unfold insights_branch.
  destruct (_ || _).
  - eexists. split; [reflexivity|]. apply Hread. now right.
  - destruct (getSatelliteInsights w _ _ _ _ _ _ _) as [log insights].
    eexists. split; [reflexivity|]. apply Hread. now left.
Qed.

(** X9: a fetch-images request without Sentinel Hub credentials, whose
    [layers] is absent or an array of strings, never consults Sentinel Hub:
    the run is the same in every world, and with the four parameters given
    it answers 200 with the images of [generateMockImages] for the layers
    of the request (the array it carries or, without one, rgb, ndvi,
    moisture and infrared) and the source 'google-maps-mock'. *)
Theorem images_without_credentials_ignore_the_vendor rt N M w1 w2 req b :
  method req = "POST" ->
  json_body req = Normal b ->
  action b = Some "fetch-images" ->
  str_truthy (body_clientId b) && str_truthy (body_clientSecret b) = false ->
  serve rt N M w1 req = serve rt N M w2 req
  /\ (text_given (farmerId b) = true -> number_given (latitude b) = true ->
      number_given (longitude b) = true -> text_given (imageDate b) = true ->
      serve rt N M w1 req
      = {| console := [];
           returned :=
             Some (Response 200
                     (Json (JObj
                        [ ("success", JBool true);
                          ("images",
                           images_json
                             (generateMockImages rt N M (body_googleMapsApiKey b)
                                (number_of (latitude b)) (number_of (longitude b))
                                (or_empty (imageDate b))
                                (match layers b with
                                 | Some chosen => chosen
                                 | None => [ "rgb"; "ndvi"; "moisture"; "infrared" ]
                                 end)));
                          ("source", JStr "google-maps-mock") ]))) |}).
Proof.
  intros Hmethod Hbody Haction Hcreds.
  unfold serve, try_block. rewrite Hmethod, Hbody. cbn [String.eqb Ascii.eqb Bool.eqb negb bind].
  rewrite Haction. cbn [bool_decide decide_rel].
  rewrite (bool_decide_eq_false_2 (Some "fetch-images" = Some "test-connection"))
    by discriminate.
  rewrite (bool_decide_eq_true_2 (Some "fetch-images" = Some "fetch-images"))
    by reflexivity.
  unfold fetch_images_branch, fetch_images. rewrite Hcreds.
  split; [reflexivity|].
  intros -> -> -> ->. reflexivity.
Qed.

(** X10: a point on the equator or on the prime meridian.  A request for
    images or for insights whose latitude or longitude is 0 is answered 400,
    as if the coordinate were missing, and nothing is logged. *)
Theorem equator_and_meridian_are_rejected rt N M w req b :
  method req = "POST" ->
  json_body req = Normal b ->
  action b <> Some "test-connection" ->
  latitude b = Some 0 \/ longitude b = Some 0 ->
  exists body,
    serve rt N M w req
    = {| console := []; returned := Some (Response 400 (Json (JObj body))) |}
    /\ exists text, field body "error" = Some (JStr text).
Proof.
  intros Hmethod Hbody Haction Hzero.
  assert (Hgiven : number_given (latitude b) && number_given (longitude b) = false).
  { destruct Hzero as [-> | ->]; [reflexivity|]. apply andb_false_r. }
  unfold serve, try_block. rewrite Hmethod, Hbody. cbn [String.eqb Ascii.eqb Bool.eqb negb bind].
  rewrite (bool_decide_eq_false_2 _ Haction).
  apply andb_false_iff in Hgiven.
  destruct (bool_decide (action b = Some "fetch-images")).
  - unfold fetch_images_branch.
    replace (negb (text_given (farmerId b)) || negb (number_given (latitude b))
             || negb (number_given (longitude b)) || negb (text_given (imageDate b)))
      with true.
    + eexists. split; [reflexivity|]. eexists. reflexivity.
    + destruct Hgiven as [-> | ->]; cbn [negb]; rewrite ?orb_true_r; reflexivity.
  - unfold insights_branch.
    replace (negb (text_given (farmerId b)) || negb (number_given (latitude b))
             || negb (number_given (longitude b)) || negb (text_given (startDate b))
             || negb (text_given (endDate b)))
      with true.
    + eexists. split; [reflexivity|]. eexists. reflexivity.
    + destruct Hgiven as [-> | ->]; cbn [negb]; rewrite ?orb_true_r; reflexivity.
Qed.

Lemma fetch_layer_results rt w layers :
  forall log results,
    snd (fold_left (fetch_layer rt w) layers (log, results))
    = fold_left
        (fun results layerId =>
           set_property rt results layerId
             (if existsb (String.eqb layerId) image_layer_ids
              then match process w layerId with
                   | Normal base64 =>
                       ImageUrl ("data:" +:+ layer_format +:+ ";base64," +:+ base64)
                   | Throw e => ImageError (message_or_unknown e)
                   end
              else ImageError "Layer not found"))
        layers results.
Proof.
  induction layers as [|l layers IH]; intros log results; [reflexivity|].
  cbn [fold_left]. unfold fetch_layer at 2.
  destruct (existsb (String.eqb l) image_layer_ids).
  - destruct (process w l); apply IH.
  - apply IH.
Qed.

(** X11: the layers of a fetch are independent.  With a token, the fetch
    does not throw, and the entry of each requested layer depends on that
    layer alone: 'Layer not found' for an id that is none of rgb, ndvi,
    moisture and infrared, else the data URL of the image, or the message of
    what the request for this layer threw. *)
Theorem fetched_layers_are_independent rt w id secret lat lng date layers token :
  str_truthy id = true ->
  str_truthy secret = true ->
  oauth w = Normal token ->
  exists log images,
    fetchSatelliteImages rt w id secret lat lng date layers = (log, Normal images)
    /\ forall l,
         In l layers -> l <> "__proto__" ->
         own_property images l
         = Some (if existsb (String.eqb l) image_layer_ids
                 then match process w l with
                      | Normal base64 => ImageUrl ("data:image/png;base64," +:+ base64)
                      | Throw e => ImageError (message_or_unknown e)
                      end
                 else ImageError "Layer not found").
Proof.
  intros Hid Hsecret Htoken.
  unfold fetchSatelliteImages, getAccessToken. rewrite Hid, Hsecret, Htoken.
  cbn [negb orb].
  destruct (fold_left (fetch_layer rt w) layers ([], [])) as [log images] eqn:Hfold.
  exists log, images. split; [reflexivity|].
  intros l Hl Hproto.
  pose proof (fetch_layer_results rt w layers [] []) as Hresults.
  rewrite Hfold in Hresults. cbn [snd] in Hresults. rewrite Hresults.
  rewrite (SentinelHubIntegrationFacts.own_property_loop rt
             (fun layerId =>
                if existsb (String.eqb layerId) image_layer_ids
                then match process w layerId with
                     | Normal base64 =>
                         ImageUrl ("data:" +:+ layer_format +:+ ";base64," +:+ base64)
                     | Throw e => ImageError (message_or_unknown e)
                     end
                else ImageError "Layer not found") layers l Hproto).
  assert (Hin : existsb (String.eqb l) layers = true).
  { apply existsb_exists. exists l. split; [exact Hl|apply String.eqb_refl]. }
  rewrite Hin. reflexivity.
Qed.

Lemma assign_keys {A} (o : list (string * A)) (k : string) (v : A) :
  map fst (assign o k v)
  = if existsb (String.eqb k) (map fst o) then map fst o else map fst o ++ [k].
Proof.
  induction o as [|[k' x] o IH]; [reflexivity|].
  cbn [assign map fst existsb]. rewrite (String.eqb_sym k k').
  destruct (String.eqb k' k) eqn:Hk; [reflexivity|].
  cbn [map fst orb]. rewrite IH.
  destruct (existsb (String.eqb k) (map fst o)); reflexivity.
Qed.

Lemma set_property_keys {A} rt (o : list (string * A)) (k : string) (v : A) :
  NoDup (map fst o) ->
  NoDup (map fst (set_property rt o k v))
  /\ forall x, In x (map fst (set_property rt o k v)) -> x = k \/ In x (map fst o).
Proof.
  intros Hnodup. unfold set_property.
  destruct (proto_accessor rt && String.eqb k "__proto__"); [split; auto|].
  rewrite assign_keys.
  destruct (existsb (String.eqb k) (map fst o)) eqn:Hk; [split; auto|].
  split.
  - apply SchemaInvariants.NoDup_snoc; [exact Hnodup|].
    intros Hin. apply (SchemaFacts.existsb_eqb_In (map fst o) k) in Hin. congruence.
  - intros x Hx. apply in_app_iff in Hx as [Hx|[<-|[]]]; auto.
Qed.

Lemma loop_keys {A} rt (f : string -> A) (layers : list string) :
  forall init,
    NoDup (map fst init) ->
    NoDup (map fst (fold_left (fun results id => set_property rt results id (f id))
                      layers init))
    /\ forall x,
         In x (map fst (fold_left (fun results id => set_property rt results id (f id))
                          layers init)) ->
         In x layers \/ In x (map fst init).
Proof.
  induction layers as [|l layers IH]; intros init Hnodup; [cbn; auto|].
  cbn [fold_left].
  destruct (set_property_keys rt init l (f l) Hnodup) as [Hnodup' Hkeys].
  destruct (IH _ Hnodup') as [Hn Hk]. split; [exact Hn|].
  intros x Hx. destruct (Hk x Hx) as [Hin|Hin]; [left; now right|].
  destruct (Hkeys x Hin) as [->|Hin']; [left; now left|now right].
Qed.

(** X12: the images object of a fetch-images answer holds each requested
    layer once.  Whether the images come from Sentinel Hub or from the mock,
    no key occurs twice and every key is a requested layer, however often a
    layer is named in the request. *)
Theorem images_hold_each_layer_once rt N M w b :
  NoDup (map fst (snd (fetch_images rt N M w b)))
  /\ forall k, In k (map fst (snd (fetch_images rt N M w b))) ->
               In k (requested_layers b).
Proof.
  assert (Hmock :
    forall key lat lng date,
      NoDup (map fst (generateMockImages rt N M key lat lng date (requested_layers b)))
      /\ forall k,
           In k (map fst (generateMockImages rt N M key lat lng date (requested_layers b))) ->
           In k (requested_layers b)).
  { intros key lat lng date. unfold generateMockImages.
    destruct (negb (str_truthy key));
      match goal with
      | |- context [fold_left (fun results id => set_property rt results id (@?f id)) _ _] =>
          destruct (loop_keys rt f (requested_layers b) [] NoDup_nil_2) as [Hn Hk]
      end;
      (split; [exact Hn|]); intros k Hin; destruct (Hk k Hin) as [?|[]]; assumption. }
  unfold fetch_images.
  destruct (_ && _); [|apply Hmock].
  unfold fetchSatelliteImages.
  destruct (getAccessToken w _ _) as [log [token|e]]; [|apply Hmock].
  destruct (fold_left _ _ (log, [])) as [log' images] eqn:Hfold.
  cbn [snd].
  pose proof (fetch_layer_results rt w (requested_layers b) log []) as Hresults.
  rewrite Hfold in Hresults. cbn [snd] in Hresults. rewrite Hresults.
  match goal with
  | |- context [fold_left (fun results id => set_property rt results id (@?f id)) _ _] =>
      destruct (loop_keys rt f (requested_layers b) [] NoDup_nil_2) as [Hn Hk]
  end.
  split; [exact Hn|]. intros k Hin. destruct (Hk k Hin) as [?|[]]; assumption.
Qed.

Lemma hex_digit_unreserved (n : nat) :
  (n < 16)%nat -> unreserved (hex_digit n) = true.
Proof.
  intros Hn.
  do 16 (destruct n as [|n]; [reflexivity|]). lia.
Qed.

(** The form encoding of a string is made of letters, digits, the four
    characters [* - . _], [+] and [%] alone. *)
Lemma form_urlencode_safe (s : string) (c : ascii) :
  In c (list_ascii_of_string (form_urlencode s)) ->
  unreserved c = true \/ c = "+"%char \/ c = "%"%char.
Proof.
  induction s as [|a s IH]; cbn [form_urlencode list_ascii_of_string]; [intros []|].
  destruct (unreserved a) eqn:Ha.
  - cbn [list_ascii_of_string]. intros [<-|Hin]; [now left|auto].
  - destruct (nat_of_ascii a =? 32)%nat.
    + cbn [list_ascii_of_string]. intros [<-|Hin]; [right; now left|auto].
    + cbn [list_ascii_of_string]. intros [<-|[<-|[<-|Hin]]]; [right; now right| | |auto].
      * left. apply hex_digit_unreserved.
        pose proof (nat_ascii_bounded a) as Hbound.
        apply Nat.Div0.div_lt_upper_bound. lia.
      * left. apply hex_digit_unreserved. apply Nat.mod_upper_bound. lia.
Qed.

Lemma chars_app (a b : string) :
  list_ascii_of_string (a +:+ b) = list_ascii_of_string a ++ list_ascii_of_string b.
Proof.
  induction a as [|c a IH]; [reflexivity|].
  cbn [String.app list_ascii_of_string app]. rewrite <- IH. reflexivity.
Qed.

Lemma form_urlencode_no_separator (s : string) :
  count_occ ascii_dec (list_ascii_of_string (form_urlencode s)) "&"%char = 0%nat.
Proof.
  apply count_occ_not_In. intros Hin.
  destruct (form_urlencode_safe s "&"%char Hin) as [H|[H|H]]; discriminate.
Qed.

Lemma chars_of_parameter (k v : string) :
  (forall c,
     In c (list_ascii_of_string (form_urlencode k +:+ "=" +:+ form_urlencode v)) ->
     unreserved c = true \/ In c [ "+"; "%"; "&"; "=" ]%char)
  /\ count_occ ascii_dec
       (list_ascii_of_string (form_urlencode k +:+ "=" +:+ form_urlencode v)) "&"%char
     = 0%nat.
Proof.
  rewrite !chars_app. split.
  - intros c Hin. rewrite !in_app_iff in Hin.
    destruct Hin as [Hin|[[<-|[]]|Hin]].
    + destruct (form_urlencode_safe k c Hin) as [?|[->| ->]]; cbn; tauto.
    + cbn; tauto.
    + destruct (form_urlencode_safe v c Hin) as [?|[->| ->]]; cbn; tauto.
  - rewrite !count_occ_app, !form_urlencode_no_separator. reflexivity.
Qed.

Lemma chars_of_query (params : list (string * string)) :
  (forall c,
     In c (list_ascii_of_string (URLSearchParams_toString params)) ->
     unreserved c = true \/ In c [ "+"; "%"; "&"; "=" ]%char)
  /\ count_occ ascii_dec (list_ascii_of_string (URLSearchParams_toString params)) "&"%char
     = (List.length params - 1)%nat.
Proof.
  unfold URLSearchParams_toString.
  induction params as [|[k v] params IH]; [split; [intros c []|reflexivity]|].
  destruct (chars_of_parameter k v) as [Hchars Hcount].
  destruct params as [|kv params]; [cbn [map String.concat fst snd]; split; assumption|].
  destruct IH as [IHchars IHcount].
  change (String.concat "&"
            (map (fun kv => form_urlencode kv.1 +:+ "=" +:+ form_urlencode kv.2)
               ((k, v) :: kv :: params)))
    with ((form_urlencode k +:+ "=" +:+ form_urlencode v)
          +:+ "&"
          +:+ String.concat "&"
                (map (fun kv => form_urlencode kv.1 +:+ "=" +:+ form_urlencode kv.2)
                   (kv :: params))).
  rewrite (chars_app (form_urlencode k +:+ "=" +:+ form_urlencode v)),
    (chars_app "&").
  split.
  - intros c Hin. rewrite !in_app_iff in Hin.
    destruct Hin as [Hin|[[<-|[]]|Hin]]; [auto|cbn; tauto|auto].
  - rewrite !count_occ_app, Hcount, IHcount. cbn [List.length]. cbn. lia.
Qed.

(** X13: the URL of a mock image is well formed whatever the key, the
    coordinates and the layer are.  It is the address of the Static Maps API,
    a question mark and a query made of letters, digits and [* - . _ + %],
    with [=] and [&] as separators; the query has seven parameters for the
    layer rgb and eight for any other layer, so that nothing in the key or in
    the layer id adds or ends a parameter. *)
Theorem mock_image_url_is_well_formed rt N M key lat lng layerId :
  exists query,
    mock_image_url rt N M key lat lng layerId = staticmap +:+ "?" +:+ query
    /\ (forall c,
          In c (list_ascii_of_string query) ->
          unreserved c = true \/ In c [ "+"; "%"; "&"; "=" ]%char)
    /\ count_occ ascii_dec (list_ascii_of_string query) "&"%char
       = (if String.eqb layerId "rgb" then 6 else 7)%nat.
Proof.
  unfold mock_image_url. cbv zeta.
  eexists. split; [reflexivity|].
  match goal with
  | |- context [URLSearchParams_toString ?p] =>
      destruct (chars_of_query p) as [Hchars Hcount]
  end.
  split; [exact Hchars|]. rewrite Hcount.
  destruct (String.eqb layerId "rgb"); reflexivity.
Qed.

(** X14: the answer to a test-connection request.  The status is 200 in
    every case; [success] is true exactly when both credentials are given
    and the token request succeeds; when the token request fails, the
    message is the same whatever the failure was, which is only logged. *)
Theorem test_connection_answer rt N M w req b :
  method req = "POST" ->
  json_body req = Normal b ->
  action b = Some "test-connection" ->
  exists log success message,
    serve rt N M w req
    = {| console := log;
         returned :=
           Some (Response 200
                   (Json (JObj [ ("success", JBool success);
                                 ("message", JStr message) ]))) |}
    /\ (success = true
        <-> str_truthy (body_clientId b) = true
            /\ str_truthy (body_clientSecret b) = true
            /\ exists token, oauth w = Normal token)
    /\ forall e,
         str_truthy (body_clientId b) = true ->
         str_truthy (body_clientSecret b) = true ->
         oauth w = Throw e ->
         log = [ console_error "Failed to get Sentinel Hub access token:" e ]
         /\ message
            = "Failed to connect to Sentinel Hub: Failed to authenticate with Sentinel Hub".
Proof.
  intros Hmethod Hbody Haction.
  unfold serve, try_block. rewrite Hmethod, Hbody. cbn [String.eqb Ascii.eqb Bool.eqb negb bind].
  rewrite (bool_decide_eq_true_2 _ Haction).
  unfold testConnection, getAccessToken.
  destruct (str_truthy (body_clientId b)); cbn [negb orb].
  2:{ eexists _, _, _. split; [reflexivity|]. split.
      - split; [discriminate|]. intros [H _]. discriminate.
      - intros e H. discriminate. }
  destruct (str_truthy (body_clientSecret b)); cbn [negb orb].
  2:{ eexists _, _, _. split; [reflexivity|]. split.
      - split; [discriminate|]. intros (_ & H & _). discriminate.
      - intros e _ H. discriminate. }
  destruct (oauth w) as [token|e].
  - eexists _, _, _. split; [reflexivity|]. split.
    + split; [intros _; repeat split; now exists token|reflexivity].
    + intros e _ _ H. discriminate.
  - eexists _, _, _. split; [reflexivity|]. split.
    + split; [discriminate|]. intros (_ & _ & token & H). discriminate.
    + intros e' _ _ H. inversion H; subst. split; reflexivity.
Qed.

(** X15: what an insights answer takes from Sentinel Hub.  With or without
    a token, the scores are draws of [Math.random]: the token decides the
    label alone ([apiResponse] and [dataSource]).  The recommendation is
    worded for a draw of its own, not for the NDVI score of the answer. *)
Theorem insights_take_only_the_label_from_the_vendor
    w id secret farmer lat lng startDate endDate :
  let insights := snd (getSatelliteInsights w id secret farmer lat lng startDate endDate) in
  ndviScore insights = 0.3 + Math_random w 0 * 0.5
  /\ soilMoisture insights = 20 + Math_random w 1 * 60
  /\ vegetationIndex insights = (0.3 + Math_random w 2 * 0.5) * 100
  /\ recommendation insights = generateRecommendation (0.3 + Math_random w 3 * 0.5)
  /\ cloudCoverage (sentinelData insights) = Math_random w 4 * 30
  /\ (apiResponse (sentinelData insights) = true
      <-> str_truthy id = true /\ str_truthy secret = true
          /\ exists token, oauth w = Normal token)
  /\ dataSource (sentinelData insights)
     = (if apiResponse (sentinelData insights)
        then "Sentinel Hub API" else "Mock Data (API Error)").
Proof.
  cbv zeta. unfold getSatelliteInsights, getAccessToken.
  destruct (str_truthy id); cbn [negb orb].
  2:{ cbn. repeat split; try reflexivity; try discriminate.
      intros (H & _). discriminate. }
  destruct (str_truthy secret); cbn [negb orb].
  2:{ cbn. repeat split; try reflexivity; try discriminate.
      intros (_ & H & _). discriminate. }
  destruct (oauth w) as [token|e]; cbn.
  - repeat split; try reflexivity. now exists token.
  - repeat split; try reflexivity; try discriminate.
    intros (_ & _ & token & H). discriminate.
Qed.

End SentinelEdgeFacts.

Module SatelliteProxyFacts.
Import JS SatelliteProxy.
Local Open Scope float_scope.

Lemma posted_number_given (n : number) :
  num_truthy n = true -> PrimFloat.is_infinity n = false ->
  posted_number n = Some n.
Proof.
  unfold num_truthy, posted_number. intros Htruthy ->.
  destruct (PrimFloat.is_nan n); [discriminate|reflexivity].
Qed.

(** The edge function's run on the client's request. *)
Lemma edge_run_on_client_request rt N M vendor farmerId lat lng startDate endDate :
  str_truthy farmerId = true ->
  num_truthy lat = true -> PrimFloat.is_infinity lat = false ->
  num_truthy lng = true -> PrimFloat.is_infinity lng = false ->
  str_truthy startDate = true -> str_truthy endDate = true ->
  SentinelHubIntegration.serve rt N M vendor
    {| SentinelHubIntegration.method := "POST";
       SentinelHubIntegration.json_body :=
         Normal (posted_body farmerId lat lng startDate endDate) |}
  = {| console :=
         [ console_error "Failed to get satellite insights:"
             (new_Error "Sentinel Hub credentials not provided") ];
       returned :=
         Some (Response 200
                 (Json (SentinelHubIntegration.insight_json
                          (SentinelHubIntegration.insight_object vendor farmerId
                             lat lng endDate false "Mock Data (API Error)")))) |}.
Proof.
  intros Hfarmer Hlat Hlat' Hlng Hlng' Hstart Hend.
  unfold SentinelHubIntegration.serve, SentinelHubIntegration.try_block.
  cbn [SentinelHubIntegration.method SentinelHubIntegration.json_body
       String.eqb Ascii.eqb Bool.eqb negb bind].
  unfold posted_body at 1 2. cbn [SentinelHubIntegration.action].
  rewrite !bool_decide_eq_false_2 by discriminate.
  unfold SentinelHubIntegration.insights_branch, posted_body.
  cbn [SentinelHubIntegration.farmerId SentinelHubIntegration.latitude
       SentinelHubIntegration.longitude SentinelHubIntegration.startDate
       SentinelHubIntegration.endDate].
  rewrite (posted_number_given lat Hlat Hlat'), (posted_number_given lng Hlng Hlng').
  unfold SentinelHubIntegration.text_given, SentinelHubIntegration.number_given,
    SentinelHubIntegration.or_empty.
  rewrite Hfarmer, Hlat, Hlng, Hstart, Hend. cbn [negb orb].
  reflexivity.
Qed.

(** X16: the client's satellite request reaches no vendor.  With credentials
    loaded, the client posts them as [credentials.clientId] and
    [credentials.clientSecret]; the edge function looks for
    [credentials.sentinelHub], finds none, and answers with the values it
    draws from [Math.random], marked as mock data; the client takes the
    answer for real data and marks it 'Sentinel Hub API'.  What the vendor
    would have answered plays no part. *)
Theorem client_request_reaches_no_vendor rt N M Math_sin Date_getMonth vendor c
    farmerId lat lng startDate endDate fieldBoundaries :
  str_truthy farmerId = true ->
  num_truthy lat = true -> PrimFloat.is_infinity lat = false ->
  num_truthy lng = true -> PrimFloat.is_infinity lng = false ->
  str_truthy startDate = true -> str_truthy endDate = true ->
  exists data sentinelData,
    getSatelliteInsights_through_edge rt N M Math_sin Date_getMonth vendor c
      farmerId lat lng startDate endDate fieldBoundaries
    = SentinelHubClient.FromApi data
    /\ field data "ndviScore"
       = Some (json_number (0.3 + SentinelHubIntegration.Math_random vendor 0 * 0.5))
    /\ field data "soilMoisture"
       = Some (json_number (20 + SentinelHubIntegration.Math_random vendor 1 * 60))
    /\ field data "recommendation"
       = Some (JStr (SentinelHubIntegration.generateRecommendation
                       (0.3 + SentinelHubIntegration.Math_random vendor 3 * 0.5)))
    /\ field data "sentinelData" = Some (JObj sentinelData)
    /\ field sentinelData "apiResponse" = Some (JBool true)
    /\ field sentinelData "dataSource" = Some (JStr "Sentinel Hub API").
Proof.
  intros Hfarmer Hlat Hlat' Hlng Hlng' Hstart Hend.
  unfold getSatelliteInsights_through_edge.
  rewrite (edge_run_on_client_request rt N M vendor farmerId lat lng startDate endDate)
    by assumption.
  unfold SentinelHubClient.getSatelliteInsights, SentinelHubClient.delivered, axios_data.
  cbn [returned SentinelHubClient.hasCredentials SentinelHubClient.post
       Z.leb Z.ltb Z.compare Pos.compare Pos.compare_cont andb
       SentinelHubIntegration.insight_json field rev app own_property
       String.eqb Ascii.eqb Bool.eqb json_truthy
       SentinelHubIntegration.insight_object
       SentinelHubIntegration.insight_farmerId].
  change (negb (String.eqb farmerId "")) with (str_truthy farmerId).
  rewrite Hfarmer.
  destruct fieldBoundaries as [fields|];
    (eexists _, _; split; [reflexivity|]; repeat split; reflexivity).
Qed.

End SatelliteProxyFacts.

Module SentinelClientRanges.
Import JS SentinelHubClient.
Local Open Scope float_scope.

Lemma to_int32_range (z : Z) : (- 2 ^ 31 <= to_int32 z < 2 ^ 31)%Z.
Proof.
  unfold to_int32.
  pose proof (Z.mod_pos_bound (z + 2 ^ 31) (2 ^ 32) ltac:(lia)). lia.
Qed.

Lemma hash_range (cs : list ascii) :
  forall h, (- 2 ^ 31 <= h < 2 ^ 31)%Z ->
            (- 2 ^ 31 <= fold_left hash_step cs h < 2 ^ 31)%Z.
Proof.
  induction cs as [|c cs IH]; intros h Hh; [exact Hh|].
  cbn [fold_left]. apply IH. unfold hash_step. apply to_int32_range.
Qed.

(** X17: [hashCode] returns a whole number between 0 and 2^31, whatever the
    string: the hash stays a 32-bit integer through the loop and
    [Math.abs] removes its sign. *)
Theorem hashCode_range (str : string) :
  exists n : Z, (0 <= n <= 2 ^ 31)%Z /\ hashCode str = of_Z n.
Proof.
  unfold hashCode.
  pose proof (hash_range (list_ascii_of_string str) 0%Z ltac:(lia)) as H.
  eexists. split; [|reflexivity]. lia.
Qed.

(** X18: the seasonal factor of the mock NDVI agrees with the season the
    insight reports.  For a month 0 to 11 and any latitude, the factor is
    0.8 when the season is Spring or Summer and 0.5 otherwise, and the
    season is one of the four names; south of the equator the season is
    never Spring, so that September to November count as Summer. *)
Theorem seasonal_factor_follows_season (m : Z) (latitude : number) :
  (0 <= m <= 11)%Z ->
  getSeasonalFactor (of_Z m) latitude
  = (if existsb (String.eqb (getSeason (of_Z m) latitude)) ["Spring"; "Summer"]
     then 0.8 else 0.5)
  /\ In (getSeason (of_Z m) latitude) ["Spring"; "Summer"; "Fall"; "Winter"]
  /\ (ge latitude 0 = false -> getSeason (of_Z m) latitude <> "Spring").
Proof.
  intros Hm.
  assert (Hcases : (m = 0 \/ m = 1 \/ m = 2 \/ m = 3 \/ m = 4 \/ m = 5 \/ m = 6
                    \/ m = 7 \/ m = 8 \/ m = 9 \/ m = 10 \/ m = 11)%Z) by lia.
  unfold getSeasonalFactor, getSeason.
  destruct (ge latitude 0);
    repeat (destruct Hcases as [->|Hcases]; [vm_compute; intuition discriminate|]);
    subst m; vm_compute; intuition discriminate.
Qed.

(** X19: the climate zone is one of Tropical, Subtropical, Temperate and
    Polar, with the climate factor 0.9, 0.8, 0.7 and 0.4 that goes with it;
    it is never 'Arid', the zone for which the recommendation has an advice
    of its own. *)
Theorem climate_zone_is_never_arid (latitude longitude : number) :
  In (getClimateZone latitude longitude, getClimateFactor latitude longitude)
    [ ("Tropical", 0.9); ("Subtropical", 0.8); ("Temperate", 0.7); ("Polar", 0.4) ]
  /\ String.eqb (getClimateZone latitude longitude) "Arid" = false.
Proof.
  unfold getClimateZone, getClimateFactor. cbv zeta.
  destruct (le (Math_abs latitude) 23.5); [cbn; tauto|].
  destruct (le (Math_abs latitude) 35); [cbn; tauto|].
  destruct (le (Math_abs latitude) 60); cbn; tauto.
Qed.

(** X20: an empty list of field boundaries.  The mock insight counts it as
    one field without enhanced precision, and its bounding box is made of
    the infinities the fold starts from (null once serialised), where a
    missing list gives the box around the point. *)
Theorem empty_field_list_has_no_box Math_sin Date_getMonth c farmerId lat lng date :
  let some_empty :=
    sentinelData (generateEnhancedMockData Math_sin Date_getMonth c farmerId lat lng
                    date (Some [])) in
  let missing :=
    sentinelData (generateEnhancedMockData Math_sin Date_getMonth c farmerId lat lng
                    date None) in
  bbox some_empty = [ infinity; infinity; neg_infinity; neg_infinity ]
  /\ map json_number (bbox some_empty) = [ JNull; JNull; JNull; JNull ]
  /\ fieldCount some_empty = 1%nat
  /\ enhancedPrecision some_empty = false
  /\ bbox missing = [ lng - 0.005; lat - 0.005; lng + 0.005; lat + 0.005 ].
Proof.
  cbv zeta. unfold generateEnhancedMockData. cbn.
  repeat split; vm_compute; reflexivity.
Qed.

End SentinelClientRanges.

Module CredentialStoreFacts.
Import JS Schema SaveApiCredentials Histories.

(** What an invocation of save-api-credentials does to the table. *)
Lemma serve_table w rows req :
  fst (serve w rows req)
  = match submitted (w, req) with
    | Some blob => snd (save w rows blob)
    | None => rows
    end.
Proof.
  unfold serve, submitted, try_block.
  destruct (String.eqb (method req) "OPTIONS"); [reflexivity|].
  destruct (createClient w) as [u|e]; [|reflexivity]. cbn [bind].
  destruct (json_body req) as [body|e]; [|reflexivity]. cbn [bind].
  destruct (destructure_credentials body) as [[blob|]|e]; try reflexivity.
  unfold missing. destruct (json_truthy blob); [|reflexivity]. cbn [negb].
  unfold save. destruct (db_failure w) as [e|]; [reflexivity|].
  match goal with
  | |- context [fst (maybeSingle ?l)] => destruct (fst (maybeSingle l))
  end.
  - reflexivity.
  - match goal with
    | |- context [insert_api_credential ?n ?r ?p] =>
        destruct (insert_api_credential n r p) as [[e|] rows']
    end; reflexivity.
Qed.

Lemma submitted_reaches_database w req blob :
  submitted (w, req) = Some blob -> db_failure w = None /\ json_truthy blob = true.
Proof.
  unfold submitted.
  destruct (String.eqb (method req) "OPTIONS"); [discriminate|].
  destruct (try! client := createClient w in
            try! body := json_body req in destructure_credentials body)
    as [[blob'|]|e]; try discriminate.
  destruct (json_truthy blob') eqn:Htruthy; [|discriminate].
  destruct (db_failure w); [discriminate|].
  intros H. inversion H; subst. split; [reflexivity|exact Htruthy].
Qed.

Lemma last_submitted_truthy calls :
  forall last,
    (forall blob, last = Some blob -> json_truthy blob = true) ->
    forall blob,
      fold_left (fun last call =>
                   match submitted call with
                   | Some blob => Some blob
                   | None => last
                   end) calls last = Some blob ->
      json_truthy blob = true.
Proof.
  induction calls as [|[w req] calls IH]; intros last Hlast blob; cbn [fold_left];
    [apply Hlast|].
  apply IH. intros blob'.
  destruct (submitted (w, req)) as [b|] eqn:Hsub; [|apply Hlast].
  intros H. inversion H; subst.
  apply (submitted_reaches_database w req), Hsub.
Qed.

(** X21: what was saved is what is read.  After any sequence of invocations
    of save-api-credentials on an empty table, get-api-credentials (with the
    client created and the database reached) answers 200 with success true
    and the blob of the last invocation that stored one, or with an empty
    object when none did. *)
Theorem saved_credentials_are_read_back
    (calls : list (world * request)) (w : GetApiCredentials.world) (method : string) :
  method <> "OPTIONS" ->
  GetApiCredentials.createClient w = Normal tt ->
  GetApiCredentials.db_failure w = None ->
  GetApiCredentials.serve w (serve_all [] calls) method
  = {| console := [];
       returned :=
         Some (Response 200
                 (Json (JObj [ ("success", JBool true);
                               ("credentials",
                                match last_submitted calls with
                                | Some blob => blob
                                | None => JObj []
                                end) ]))) |}.
Proof.
  intros Hmethod Hclient Hdb.
  unfold GetApiCredentials.serve. rewrite Hclient, Hdb.
  apply String.eqb_neq in Hmethod. rewrite Hmethod.
  pose proof (SaveApiCredentialsFacts.serve_all_single_row calls [] None no_row) as H.
  fold (last_submitted calls) in H.
  pose proof (last_submitted_truthy calls None ltac:(discriminate)) as Htruthy.
  fold (last_submitted calls) in Htruthy.
  inversion H as [Hrows Hlast|r Hid Hrows Hlast].
  - reflexivity.
  - unfold api_credentials_by_id. rewrite filter_cons.
    rewrite Hid. cbn [String.eqb Ascii.eqb Bool.eqb].
    destruct (decide (true = true)) as [_|Hne]; [|contradiction].
    cbn [filter list_filter maybeSingle GetApiCredentials.credentials_or_empty].
    rewrite (Htruthy (credentials r)) by (symmetry; exact Hlast).
    reflexivity.
Qed.

Lemma accepted_iff_submitted call :
  accepted_at call = match submitted call with
                     | Some _ => Some (now (fst call))
                     | None => None
                     end.
Proof. reflexivity. Qed.

(** the table together with the clock of the first and of the last
    invocation that stored a blob *)
Lemma serve_all_timestamps calls :
  forall rows first last,
    (rows = [] /\ first = None /\ last = None
     \/ exists r t u,
          rows = [r] /\ cred_id r = "main" /\ first = Some t /\ last = Some u
          /\ cred_created_at r = Some t /\ cred_updated_at r = Some u) ->
    let rows' := serve_all rows calls in
    let first' :=
      fold_left (fun first call =>
                   match first with
                   | Some t => Some t
                   | None => accepted_at call
                   end) calls first in
    let last' :=
      fold_left (fun last call =>
                   match accepted_at call with
                   | Some t => Some t
                   | None => last
                   end) calls last in
    rows' = [] /\ first' = None /\ last' = None
    \/ exists r t u,
         rows' = [r] /\ cred_id r = "main" /\ first' = Some t /\ last' = Some u
         /\ cred_created_at r = Some t /\ cred_updated_at r = Some u.
Proof.
  unfold serve_all.
  induction calls as [|[w req] calls IH]; intros rows first last Hinv;
    [exact Hinv|].
  cbn [fold_left fst snd]. apply IH. clear IH.
  rewrite serve_table. unfold accepted_at. cbn [fst].
  destruct (submitted (w, req)) as [blob|] eqn:Hsub.
  - destruct (submitted_reaches_database w req blob Hsub) as [Hdb _].
    right. unfold save. rewrite Hdb.
    destruct Hinv as [(-> & -> & ->)|(r & t & u & -> & Hid & -> & -> & Hc & Hu)].
    + cbn. eexists _, _, _. repeat split; reflexivity.
    + unfold api_credentials_by_id. rewrite filter_cons, Hid.
      cbn [String.eqb Ascii.eqb Bool.eqb].
      destruct (decide (true = true)) as [_|Hne]; [|contradiction].
      cbn [filter list_filter maybeSingle fst update_api_credential snd map].
      rewrite Hid. cbn [String.eqb Ascii.eqb Bool.eqb].
      eexists _, _, _. split; [reflexivity|]. cbn.
      split; [reflexivity|]. split; [reflexivity|]. split; [reflexivity|].
      split; [exact Hc|reflexivity].
  - destruct Hinv as [(-> & -> & ->)|(r & t & u & -> & Hid & -> & -> & Hc & Hu)].
    + now left.
    + right. exists r, t, u. repeat split; assumption.
Qed.

(** X22: the timestamps of the credential row.  After any sequence of
    invocations on an empty table, the table is empty when no invocation
    stored a blob; otherwise its one row carries as [created_at] the clock
    of the first invocation that stored a blob and as [updated_at] the clock
    of the last one. *)
Theorem credential_row_timestamps (calls : list (world * request)) :
  (serve_all [] calls = []
   /\ first_accepted_at calls = None /\ last_accepted_at calls = None)
  \/ exists r t u,
       serve_all [] calls = [r]
       /\ first_accepted_at calls = Some t /\ last_accepted_at calls = Some u
       /\ cred_created_at r = Some t /\ cred_updated_at r = Some u.
Proof.
  destruct (serve_all_timestamps calls [] None None ltac:(left; tauto))
    as [H|(r & t & u & Hrows & _ & Hfirst & Hlast & Hc & Hu)].
  - left. exact H.
  - right. exists r, t, u. repeat split; assumption.
Qed.

(** X23: the handler reports success exactly when it stored the blob.  For
    a table reached from the empty one, the answer is the 200 'Credentials
    saved successfully' if and only if the request is no preflight, the
    client was created, the database answered and the body is a JSON object
    whose [credentials] is truthy ([accepted], read off the request and the
    run); the table then holds that blob alone, and otherwise the table is
    as it was. *)
Theorem save_succeeds_iff_stored (calls : list (world * request)) w req :
  (returned (snd (serve w (serve_all [] calls) req))
   = Some (answer true "Credentials saved successfully")
   <-> exists blob, accepted w req blob)
  /\ (forall blob,
        accepted w req blob ->
        exists r, fst (serve w (serve_all [] calls) req) = [r] /\ credentials r = blob)
  /\ ((forall blob, ~ accepted w req blob) ->
      fst (serve w (serve_all [] calls) req) = serve_all [] calls).
Proof.
  assert (Haccepted : forall blob,
            submitted (w, req) = Some blob <-> accepted w req blob).
  { intros blob. unfold accepted.
    rewrite (SaveApiCredentialsFacts.submitted_save_operation (w, req)).
    unfold save_operation, posted_credentials. cbn [fst snd].
    destruct (String.eqb (method req) "OPTIONS") eqn:Hmethod.
    { apply String.eqb_eq in Hmethod. split; [discriminate|]. intros [H _].
      contradiction. }
    apply String.eqb_neq in Hmethod.
    destruct (createClient w) as [u|e].
    2:{ split; [discriminate|]. intros (_ & [u Hu] & _). discriminate. }
    destruct (db_failure w) as [e|].
    { split; [discriminate|]. intros (_ & _ & H & _). discriminate. }
    destruct (json_body req) as [body|e].
    2:{ split; [discriminate|]. intros (_ & _ & _ & fields & H & _). discriminate. }
    destruct body as [|b|n|t|l|fields];
      try (split; [discriminate|]; intros (_ & _ & _ & fields' & H & _); discriminate).
    destruct (field fields "credentials") as [blob'|] eqn:Hfield.
    2:{ split; [discriminate|]. intros (_ & _ & _ & fields' & H & H' & _).
        inversion H; subst. rewrite Hfield in H'. discriminate. }
    destruct (json_truthy blob') eqn:Htruthy.
    - split.
      + intros H. inversion H; subst. split; [exact Hmethod|].
        split; [now exists u|]. split; [reflexivity|].
        exists fields. repeat split; assumption.
      + intros (_ & _ & _ & fields' & H & H' & _). inversion H; subst.
        rewrite Hfield in H'. exact H'.
    - split; [discriminate|]. intros (_ & _ & _ & fields' & H & H' & H'').
      inversion H; subst. rewrite Hfield in H'. inversion H'; subst.
      rewrite Htruthy in H''. discriminate. }
  pose proof (SaveApiCredentialsFacts.serve_all_single_row calls [] None no_row) as H.
  split.
  - rewrite (SaveApiCredentialsFacts.success_iff_submitted w req _ _ H).
    split; intros [blob Hblob]; exists blob; apply Haccepted; exact Hblob.
  - split.
    + intros blob Hblob. apply Haccepted in Hblob.
      pose proof (SaveApiCredentialsFacts.serve_single_row w req _ _ H) as H'.
      rewrite Hblob in H'. inversion H' as [|r Hid Hrows Hr].
      exists r. split; reflexivity.
    + intros Hnone. rewrite serve_table.
      destruct (submitted (w, req)) as [blob|] eqn:Hsub; [|reflexivity].
      destruct (Hnone blob). apply Haccepted. reflexivity.
Qed.

(** X24: the answers of get-api-credentials.  Every answer to a request
    that is no preflight carries a [credentials] property: the stored blob
    with success true, and an empty object with success false on every
    failure.  A failure of the database is answered with status 200, like a
    success; only a thrown exception is answered with 500. *)
Theorem reading_always_yields_credentials
    (w : GetApiCredentials.world) (rows : list api_credential) (method : string) :
  method <> "OPTIONS" ->
  exists st fields c,
    returned (GetApiCredentials.serve w rows method)
    = Some (Response st (Json (JObj fields)))
    /\ field fields "credentials" = Some c
    /\ (field fields "success" = Some (JBool true) /\ st = 200
        /\ GetApiCredentials.db_failure w = None
        \/ field fields "success" = Some (JBool false) /\ c = JObj []
           /\ (st = 500 <-> exists e, GetApiCredentials.createClient w = Throw e)).
Proof.
  intros Hmethod. apply String.eqb_neq in Hmethod.
  unfold GetApiCredentials.serve. rewrite Hmethod.
  destruct (GetApiCredentials.createClient w) as [u|e].
  2:{ eexists _, _, _. split; [reflexivity|]. split; [reflexivity|].
      right. split; [reflexivity|]. split; [reflexivity|].
      split; [intros _; now exists e|reflexivity]. }
  destruct (GetApiCredentials.db_failure w) as [e|].
  { eexists _, _, _. split; [reflexivity|]. split; [reflexivity|].
    right. split; [reflexivity|]. split; [reflexivity|].
    split; [discriminate|]. intros [e' H]. discriminate. }
  destruct (maybeSingle (api_credentials_by_id rows "main")) as [data [e|]].
  - eexists _, _, _. split; [reflexivity|]. split; [reflexivity|].
    right. split; [reflexivity|]. split; [reflexivity|].
    split; [discriminate|]. intros [e' H]. discriminate.
  - eexists _, _, _. split; [reflexivity|]. split; [reflexivity|].
    left. repeat split; reflexivity.
Qed.

End CredentialStoreFacts.

Module WhatsappLedgerFacts.
Import JS Schema WhatsappWebhook.

Lemma farmers_by_phone_In farmers phone f :
  In f (farmers_by_phone farmers phone) -> In f farmers /\ phone_number f = phone.
Proof.
  unfold farmers_by_phone. intros H.
  apply list_elem_of_In, list_elem_of_filter in H as [Hphone Hin].
  split; [apply list_elem_of_In, Hin|apply String.eqb_eq, Hphone].
Qed.

(** X25: a message of a registered sender, with the database answering
    every request.  When exactly one farmer has the sender's phone number,
    no farmer is added and the message is logged as one call record with
    that farmer's id, the status 'whatsapp_received', the duration 0 and, as
    the payload names no call type, the type 'traditional_ivr'. *)
Theorem registered_sender_is_logged_with_farmer
    (reply_text reply_excerpt : reply -> string) w db m contacts f :
  farmers_by_phone (farmers db) (from m) = [f] ->
  existsb (fun r => String.eqb (call_id r) (call_uuid w)) (ivr_calls db) = false ->
  exists c,
    fst (handleIncomingMessage reply_text reply_excerpt w db m contacts)
    = {| farmers := farmers db; ivr_calls := ivr_calls db ++ [c] |}
    /\ call_id c = call_uuid w
    /\ call_farmer_id c = Some (farmer_id f)
    /\ call_status c = Some "whatsapp_received"
    /\ call_type c = Some "traditional_ivr"
    /\ call_duration c = Some 0%Z.
Proof.
  intros Hfarmer Hfresh.
  assert (Hstored : has_farmer_id (farmers db) (farmer_id f) = true).
  { destruct (farmers_by_phone_In (farmers db) (from m) f) as [Hin _];
      [rewrite Hfarmer; now left|].
    unfold has_farmer_id. apply existsb_exists. exists f.
    split; [exact Hin|apply String.eqb_refl]. }
  unfold handleIncomingMessage. cbv zeta. rewrite Hfarmer. cbn [single fst].
  unfold insert_ivr_call, interaction.
  cbn [with_default ins_call_id ins_call_farmer_id ins_crop_condition ins_call_type
       property option_map crop_condition call_type call_farmer_id
       check_between check_in call_types existsb String.eqb Ascii.eqb Bool.eqb
       orb negb references_farmer].
  rewrite Hfresh, Hstored. cbn [negb snd fst].
  eexists. split; [reflexivity|]. cbn. repeat split; reflexivity.
Qed.

Lemma handleIncomingMessage_invariant
    (reply_text reply_excerpt : reply -> string) w db m contacts :
  (NoDup (map phone_number (farmers db))
   /\ NoDup (map farmer_id (farmers db))
   /\ forall c, In c (ivr_calls db) ->
                references_farmer (farmers db) (call_farmer_id c) = true
                /\ call_status c = Some "whatsapp_received") ->
  let db' := fst (handleIncomingMessage reply_text reply_excerpt w db m contacts) in
  NoDup (map phone_number (farmers db'))
  /\ NoDup (map farmer_id (farmers db'))
  /\ forall c, In c (ivr_calls db') ->
               references_farmer (farmers db') (call_farmer_id c) = true
               /\ call_status c = Some "whatsapp_received".
Proof.
  intros (Hphones & Hids & Hcalls). unfold handleIncomingMessage. cbv zeta.
  cbn [fst farmers ivr_calls].
  set (farmer := fst (single (farmers_by_phone (farmers db) (from m)))).
  set (farmers' := match farmer with
                   | Some _ => farmers db
                   | None => _
                   end).
  assert (Hfarmers : NoDup (map phone_number farmers')
                     /\ NoDup (map farmer_id farmers')
                     /\ forall id, references_farmer (farmers db) id = true ->
                                   references_farmer farmers' id = true).
  { subst farmers'. destruct farmer; [tauto|].
    destruct (SchemaInvariants.insert_farmer_keys (now w) (farmer_uuid w) (farmers db)
                (registration (from m) (contact_name contacts (from m))))
      as [? ?]; [tauto|].
    repeat split; try assumption.
    intros id. apply SchemaInvariants.references_farmer_insert. }
  destruct Hfarmers as (Hphones' & Hids' & Hrefs).
  split; [exact Hphones'|]. split; [exact Hids'|].
  intros c.
  match goal with
  | |- context [insert_ivr_call ?n ?g ?f ?cs ?p] =>
      destruct (SchemaInvariants.insert_ivr_call_cases n g f cs p)
        as [->|(row & -> & _ & Hfk & Hstatus)]
  end.
  - intros Hc. destruct (Hcalls c Hc). split; auto.
  - rewrite in_app_iff. intros [Hc|[<-|[]]].
    + destruct (Hcalls c Hc). split; auto.
    + split; [exact Hfk|exact Hstatus].
Qed.

(** X26: the tables under a webhook's messages.  Starting from empty
    tables, and whatever messages arrive in whatever order, no phone number
    and no id is held by two farmers, and every logged call record has the
    status 'whatsapp_received' and a farmer_id that is NULL or the id of a
    stored farmer. *)
Theorem messages_keep_the_tables_consistent
    (reply_text reply_excerpt : reply -> string)
    (messages : list (world * message * option (list contact))) :
  let db :=
    fst (handle_messages reply_text reply_excerpt
           {| farmers := []; ivr_calls := [] |} messages) in
  NoDup (map phone_number (farmers db))
  /\ NoDup (map farmer_id (farmers db))
  /\ forall c, In c (ivr_calls db) ->
               references_farmer (farmers db) (call_farmer_id c) = true
               /\ call_status c = Some "whatsapp_received".
Proof.
  cbv zeta. unfold handle_messages.
  assert (Hinit :
    NoDup (map phone_number (farmers {| farmers := []; ivr_calls := [] |}))
    /\ NoDup (map farmer_id (farmers {| farmers := []; ivr_calls := [] |}))
    /\ forall c, In c (ivr_calls {| farmers := []; ivr_calls := [] |}) ->
                 references_farmer (farmers {| farmers := []; ivr_calls := [] |})
                   (call_farmer_id c) = true
                 /\ call_status c = Some "whatsapp_received").
  { cbn. repeat split; try apply NoDup_nil_2; contradiction. }
  revert Hinit. generalize {| farmers := []; ivr_calls := [] |} as db.
  generalize (@nil console_line) as log.
  induction messages as [|[[w m] contacts] messages IH]; intros log db Hinv;
    [exact Hinv|].
  cbn [fold_left].
  pose proof (handleIncomingMessage_invariant reply_text reply_excerpt w db m contacts
                Hinv) as Hstep.
  destruct (handleIncomingMessage reply_text reply_excerpt w db m contacts)
    as [db' log'].
  apply IH. exact Hstep.
Qed.

End WhatsappLedgerFacts.

Module CalculatorFacts.
Import JS CarbonCreditService EligiblePractices.
Local Open Scope float_scope.

Lemma rate_of_plain_name rt (practice : string) :
  inherited rt practice = false ->
  ToNumber (or_else (get rt creditRates practice) (VNumber 0.1))
  = default 0.1 (own_property creditRates practice).
Proof.
  intros Hplain. unfold get, creditRates. cbn [own_property].
  repeat match goal with
         | |- context [String.eqb ?k practice] =>
             destruct (String.eqb k practice); [reflexivity|]
         end.
  rewrite Hplain. reflexivity.
Qed.

Lemma multiplier_of_plain_name rt (crop : string) :
  inherited rt crop = false ->
  ToNumber (or_else (get rt cropMultipliers crop) (VNumber 1.0))
  = default 1.0 (own_property cropMultipliers crop).
Proof.
  intros Hplain. unfold get, cropMultipliers. cbn [own_property].
  repeat match goal with
         | |- context [String.eqb ?k crop] =>
             destruct (String.eqb k crop); [reflexivity|]
         end.
  rewrite Hplain. reflexivity.
Qed.

Lemma fold_of_plain_names rt (acreage : number) (practices : list string) :
  forallb (fun p => negb (inherited rt p)) practices = true ->
  forall acc,
    fold_left (add_practice rt acreage) practices acc
    = fold_left (fun sum p => sum + default 0.1 (own_property creditRates p) * acreage)
        practices acc.
Proof.
  induction practices as [|p practices IH]; intros Hplain acc; [reflexivity|].
  cbn [forallb] in Hplain. apply andb_true_iff in Hplain as [Hp Hplain].
  apply negb_true_iff in Hp.
  cbn [fold_left]. unfold add_practice at 2. rewrite (rate_of_plain_name rt p Hp).
  apply IH, Hplain.
Qed.

(** X27: the estimate in closed form.  When no practice name and not the
    lower-cased crop name is the name of a member of [Object.prototype], the
    estimate is the sum over the practices of rate times acreage, with the
    rate of the table or 0.1 for a practice the table does not list, times
    the multiplier of the lower-cased crop or 1.0 for a crop the table does
    not list, rounded to two decimals. *)
Theorem estimate_for_plain_names rt practices acreage cropType :
  forallb (fun p => negb (inherited rt p)) practices = true ->
  inherited rt (toLowerCase cropType) = false ->
  calculateEstimatedCredits rt practices acreage cropType
  = Math_round
      (fold_left (fun sum p => sum + default 0.1 (own_property creditRates p) * acreage)
         practices 0
       * default 1.0 (own_property cropMultipliers (toLowerCase cropType))
       * 100) / 100.
Proof.
  intros Hpractices Hcrop. unfold calculateEstimatedCredits. cbv zeta.
  rewrite (fold_of_plain_names rt acreage practices Hpractices).
  rewrite (multiplier_of_plain_name rt _ Hcrop). reflexivity.
Qed.

Lemma estimate_for_plain_names_witness :
  calculateEstimatedCredits deno [ "no-till"; "mulching" ] 12.5 "RICE" = 9.
Proof.
  rewrite (estimate_for_plain_names deno [ "no-till"; "mulching" ] 12.5 "RICE"
             eq_refl eq_refl).
  vm_compute. reflexivity.
Defined.

(** X28: the practices the client offers are the practices the calculator
    rates, in the same order, and the rate shown with an offered practice
    is the rate the calculator applies to it. *)
Theorem offered_practices_are_the_rated_ones rt :
  map id getEligiblePractices = map fst creditRates
  /\ forall p,
       In p getEligiblePractices ->
       get rt creditRates (id p) = VNumber (creditRate p).
Proof.
  split; [reflexivity|].
  intros p Hp. cbn in Hp.
  repeat (destruct Hp as [<-|Hp]; [reflexivity|]). contradiction.
Qed.

End CalculatorFacts.

Module ScenarioFacts.
Import JS Schema.
Local Open Scope float_scope.

Lemma resubmission_updates_in_place_witness :
  exists row,
    CarbonCreditIntegration.credits_of_farmer
      (CarbonCreditIntegration.carbon_credits
         (fst (CarbonCreditIntegration.serve deno (fun _ => JNull)
                 Scenarios.later_run Scenarios.amina_opted_in
                 (Scenarios.submission Scenarios.amina_id
                    [ "agroforestry"; "no-till" ] 100))))
      Scenarios.amina_id
    = [row]
    /\ credit_id row = "0b5c1c2e-0000-4000-8000-000000000004"
    /\ opt_in_date row = "2025-06-17"
    /\ practices_reported row = Some "agroforestry, no-till"
    /\ estimated_credits row = Some 143
    /\ credit_updated_at row = Some 1750236400000%Z.
Proof.
  destruct (CarbonCreditLedgerFacts.resubmission_updates_in_place deno (fun _ => JNull)
              Scenarios.later_run Scenarios.amina_opted_in
              (Scenarios.submission Scenarios.amina_id [ "agroforestry"; "no-till" ] 100)
              _ _ _
              eq_refl eq_refl eq_refl eq_refl eq_refl eq_refl eq_refl
              eq_refl eq_refl eq_refl)
    as (row & body & Hrow & _ & _ & Hid & Hday & _ & _ & _ & Htext & Hest & Hclock & _).
  exists row. split; [exact Hrow|].
  split; [exact Hid|]. split; [exact Hday|]. split; [exact Htext|].
  split; [|exact Hclock].
  rewrite Hest. vm_compute. reflexivity.
Defined.

Lemma first_submission_is_stored_witness :
  exists row,
    CarbonCreditIntegration.carbon_credits Scenarios.amina_opted_in = [row]
    /\ credit_farmer_id row = Some Scenarios.amina_id
    /\ verification_status row = Some "pending"
    /\ estimated_credits row = Some 88
    /\ registry_id row = Some "AGS-1750150000000-000001".
Proof.
  destruct (CarbonCreditLedgerFacts.first_submission_is_stored deno (fun _ => JNull)
              Scenarios.first_run Scenarios.amina_registered
              (Scenarios.submission Scenarios.amina_id [ "no-till"; "cover-cropping" ] 100)
              _ _
              eq_refl eq_refl eq_refl eq_refl eq_refl eq_refl eq_refl eq_refl
              eq_refl eq_refl eq_refl)
    as (row & body & Hdb & _ & Hfarmer & _ & Hstatus & _ & _ & Hest & Hreg & _).
  exists row. unfold Scenarios.amina_opted_in. rewrite Hdb.
  split; [reflexivity|]. split; [exact Hfarmer|]. split; [exact Hstatus|].
  split; [|exact Hreg].
  rewrite Hest. vm_compute. reflexivity.
Defined.

(** A report of a thousand million acres: the estimate does not fit
    [numeric(10,2)], the INSERT is refused and the answer is 500. *)
Example overflowing_estimate_is_refused :
  CarbonCreditIntegration.serve deno (fun _ => JNull) Scenarios.first_run
    Scenarios.amina_registered
    (Scenarios.submission Scenarios.amina_id [ "no-till" ] 1000000000)
  = (Scenarios.amina_registered,
     CarbonCreditIntegration.catch
       (new_Error (error_message (numeric_value_out_of_range "estimated_credits")))).
Proof. vm_compute. reflexivity. Qed.

Lemma submission_for_unknown_farmer_is_refused_witness :
  exists e,
    CarbonCreditIntegration.serve deno (fun _ => JNull) Scenarios.first_run
      Scenarios.amina_registered
      (Scenarios.submission "0b5c1c2e-0000-4000-8000-000000000002" [ "no-till" ] 100)
    = (Scenarios.amina_registered, CarbonCreditIntegration.catch e).
Proof.
  destruct (CarbonCreditLedgerFacts.submission_for_unknown_farmer_is_refused deno
              (fun _ => JNull) Scenarios.first_run Scenarios.amina_registered
              (Scenarios.submission "0b5c1c2e-0000-4000-8000-000000000002"
                 [ "no-till" ] 100) _
              eq_refl eq_refl eq_refl eq_refl eq_refl eq_refl) as (e & Hserve & _).
  exists e. exact Hserve.
Defined.


(** The POST branch does not read the error of its SELECT: in a run whose
    SELECT is not answered while its INSERT is, a farmer who has a row gets a
    second one. *)
Example unanswered_select_adds_a_row :
  map credit_farmer_id
    (CarbonCreditIntegration.carbon_credits
       (Histories.carbon_serve_all deno (fun _ => JNull) Scenarios.amina_registered
          [ (Scenarios.first_run,
             Scenarios.submission Scenarios.amina_id [ "no-till"; "cover-cropping" ] 100);
            (Scenarios.unanswered_run,
             Scenarios.submission Scenarios.amina_id [ "agroforestry" ] 100) ]))
  = [ Some Scenarios.amina_id; Some Scenarios.amina_id ].
Proof. vm_compute. reflexivity. Qed.

Lemma images_without_credentials_ignore_the_vendor_witness :
  SentinelHubIntegration.serve deno (fun _ => "0") (fun name => name)
    (Scenarios.vendor_up 0.5) (Scenarios.edge_request "fetch-images" (-1.2921) None)
  = SentinelHubIntegration.serve deno (fun _ => "0") (fun name => name)
      (Samples.vendor_down 0.25) (Scenarios.edge_request "fetch-images" (-1.2921) None)
  /\ SentinelHubIntegration.serve deno (fun _ => "0") (fun name => name)
       (Scenarios.vendor_up 0.5) (Scenarios.edge_request "fetch-images" (-1.2921) None)
     = {| console := [];
          returned :=
            Some (Response 200
                    (Json (JObj
                       [ ("success", JBool true);
                         ("images",
                          SentinelHubIntegration.images_json
                            (SentinelHubIntegration.generateMockImages deno
                               (fun _ => "0") (fun name => name) "maps-key" (-1.2921)
                               36.8219 "2025-06-01" [ "rgb"; "moisture"; "thermal" ]));
                         ("source", JStr "google-maps-mock") ]))) |}.
Proof.
  destruct (SentinelEdgeFacts.images_without_credentials_ignore_the_vendor deno
              (fun _ => "0") (fun name => name)
              (Scenarios.vendor_up 0.5) (Samples.vendor_down 0.25)
              (Scenarios.edge_request "fetch-images" (-1.2921) None) _
              eq_refl eq_refl eq_refl eq_refl) as [Hsame Hanswer].
  split; [exact Hsame|].
  exact (Hanswer eq_refl eq_refl eq_refl eq_refl).
Defined.

Lemma equator_and_meridian_are_rejected_witness :
  exists body,
    SentinelHubIntegration.serve deno (fun _ => "0") (fun name => name)
      (Scenarios.vendor_up 0.5)
      (Scenarios.edge_request "fetch-images" 0 (Some Scenarios.sh_credentials))
    = {| console := []; returned := Some (Response 400 (Json (JObj body))) |}.
Proof.
  destruct (SentinelEdgeFacts.equator_and_meridian_are_rejected deno (fun _ => "0")
              (fun name => name) (Scenarios.vendor_up 0.5)
              (Scenarios.edge_request "fetch-images" 0 (Some Scenarios.sh_credentials)) _
              eq_refl eq_refl ltac:(discriminate) (or_introl eq_refl))
    as (body & Hserve & _).
  exists body. exact Hserve.
Defined.

Lemma fetched_layers_are_independent_witness :
  exists log images,
    SentinelHubIntegration.fetchSatelliteImages deno (Scenarios.vendor_up 0.5)
      "sh-client" "sh-secret" (-1.2921) 36.8219 "2025-06-01"
      [ "rgb"; "moisture"; "thermal" ]
    = (log, Normal images)
    /\ own_property images "rgb"
       = Some (SentinelHubIntegration.ImageUrl "data:image/png;base64,iVBORw0KGgo=")
    /\ own_property images "moisture"
       = Some (SentinelHubIntegration.ImageError "HTTP 503: Service Unavailable")
    /\ own_property images "thermal"
       = Some (SentinelHubIntegration.ImageError "Layer not found").
Proof.
  destruct (SentinelEdgeFacts.fetched_layers_are_independent deno
              (Scenarios.vendor_up 0.5) "sh-client" "sh-secret" (-1.2921) 36.8219
              "2025-06-01" [ "rgb"; "moisture"; "thermal" ] "token"
              eq_refl eq_refl eq_refl) as (log & images & Hfetch & Hentries).
  exists log, images. split; [exact Hfetch|].
  split; [|split].
  - exact (Hentries "rgb" ltac:(cbn; tauto) ltac:(discriminate)).
  - exact (Hentries "moisture" ltac:(cbn; tauto) ltac:(discriminate)).
  - exact (Hentries "thermal" ltac:(cbn; tauto) ltac:(discriminate)).
Defined.

Lemma test_connection_answer_witness :
  exists log,
    SentinelHubIntegration.serve deno (fun _ => "0") (fun name => name)
      (Samples.vendor_down 0.25)
      (Scenarios.edge_request "test-connection" (-1.2921) (Some Scenarios.sh_credentials))
    = {| console := log;
         returned :=
           Some (Response 200
                   (Json (JObj
                      [ ("success", JBool false);
                        ("message",
                         JStr "Failed to connect to Sentinel Hub: Failed to authenticate with Sentinel Hub") ]))) |}.
Proof.
  destruct (SentinelEdgeFacts.test_connection_answer deno (fun _ => "0")
              (fun name => name) (Samples.vendor_down 0.25)
              (Scenarios.edge_request "test-connection" (-1.2921)
                 (Some Scenarios.sh_credentials)) _
              eq_refl eq_refl eq_refl)
    as (log & success & message & Hserve & Hsuccess & Hfailure).
  exists log. rewrite Hserve.
  destruct (Hfailure _ eq_refl eq_refl eq_refl) as [_ ->].
  destruct success; [|reflexivity].
  destruct (proj1 Hsuccess eq_refl) as (_ & _ & token & Htoken). discriminate.
Defined.

Lemma client_request_reaches_no_vendor_witness :
  exists data sentinelData,
    SatelliteProxy.getSatelliteInsights_through_edge deno (fun _ => "0")
      (fun name => name) (fun _ => 0) (fun _ => 6) (Scenarios.vendor_up 0.5)
      {| SentinelHubClient.now_month := 6 |}
      "farmer-1" (-1.2921) 36.8219 "2025-05-01" "2025-06-01" None
    = SentinelHubClient.FromApi data
    /\ field data "ndviScore" = Some (JNum 0.55)
    /\ field data "sentinelData" = Some (JObj sentinelData)
    /\ field sentinelData "dataSource" = Some (JStr "Sentinel Hub API").
Proof.
  destruct (SatelliteProxyFacts.client_request_reaches_no_vendor deno (fun _ => "0")
              (fun name => name) (fun _ => 0) (fun _ => 6) (Scenarios.vendor_up 0.5)
              {| SentinelHubClient.now_month := 6 |}
              "farmer-1" (-1.2921) 36.8219 "2025-05-01" "2025-06-01" None
              eq_refl eq_refl eq_refl eq_refl eq_refl eq_refl eq_refl)
    as (data & sentinelData & Hinsight & Hndvi & _ & _ & Hdata & _ & Hsource).
  exists data, sentinelData. split; [exact Hinsight|].
  split; [|split; assumption].
  rewrite Hndvi. vm_compute. reflexivity.
Defined.

Lemma seasonal_factor_follows_season_witness :
  SentinelHubClient.getSeasonalFactor 9 (-1.2921) = 0.8
  /\ SentinelHubClient.getSeason 9 (-1.2921) = "Summer".
Proof.
  destruct (SentinelClientRanges.seasonal_factor_follows_season 9 (-1.2921)
              ltac:(lia)) as (Hfactor & _ & _).
  split; [|reflexivity].
  change (of_Z 9) with 9 in Hfactor. rewrite Hfactor. reflexivity.
Defined.

Lemma saved_credentials_are_read_back_witness :
  GetApiCredentials.serve
    {| GetApiCredentials.createClient := Normal tt;
       GetApiCredentials.db_failure := None |}
    (SaveApiCredentials.serve_all []
       [ Scenarios.save_request (JObj [ ("maps", JStr "k1") ]) 1;
         Scenarios.save_request JNull 2;
         Scenarios.save_request (JObj [ ("maps", JStr "k2") ]) 3;
         Scenarios.save_request (JStr "") 4 ])
    "GET"
  = {| console := [];
       returned :=
         Some (Response 200
                 (Json (JObj [ ("success", JBool true);
                               ("credentials", JObj [ ("maps", JStr "k2") ]) ]))) |}.
Proof.
  rewrite (CredentialStoreFacts.saved_credentials_are_read_back
             [ Scenarios.save_request (JObj [ ("maps", JStr "k1") ]) 1;
               Scenarios.save_request JNull 2;
               Scenarios.save_request (JObj [ ("maps", JStr "k2") ]) 3;
               Scenarios.save_request (JStr "") 4 ]
             {| GetApiCredentials.createClient := Normal tt;
                GetApiCredentials.db_failure := None |}
             "GET" ltac:(discriminate) eq_refl eq_refl).
  reflexivity.
Defined.

Lemma registered_sender_is_logged_with_farmer_witness :
  exists c,
    WhatsappWebhook.ivr_calls
      (fst (WhatsappWebhook.handleIncomingMessage (fun _ => "Hello!") (fun _ => "Hello!")
              Scenarios.whatsapp_run Scenarios.amina_on_whatsapp
              {| WhatsappWebhook.from := "+254700000001";
                 WhatsappWebhook.text_body := Some "Weather?" |} None))
    = [c]
    /\ call_farmer_id c = Some Scenarios.amina_id
    /\ call_status c = Some "whatsapp_received"
    /\ call_type c = Some "traditional_ivr".
Proof.
  destruct (WhatsappLedgerFacts.registered_sender_is_logged_with_farmer
              (fun _ => "Hello!") (fun _ => "Hello!")
              Scenarios.whatsapp_run Scenarios.amina_on_whatsapp
              {| WhatsappWebhook.from := "+254700000001";
                 WhatsappWebhook.text_body := Some "Weather?" |} None _
              eq_refl eq_refl)
    as (c & Hdb & _ & Hfarmer & Hstatus & Htype & _).
  exists c. rewrite Hdb. split; [reflexivity|].
  split; [exact Hfarmer|]. split; [exact Hstatus|exact Htype].
Defined.

Lemma reading_always_yields_credentials_witness :
  exists st fields,
    returned
      (GetApiCredentials.serve
         {| GetApiCredentials.createClient := Normal tt;
            GetApiCredentials.db_failure := Some (PgError "57P03" "cannot connect now") |}
         [] "GET")
    = Some (Response st (Json (JObj fields)))
    /\ field fields "credentials" = Some (JObj [])
    /\ st <> 500%Z.
Proof.
  destruct (CredentialStoreFacts.reading_always_yields_credentials
              {| GetApiCredentials.createClient := Normal tt;
                 GetApiCredentials.db_failure :=
                   Some (PgError "57P03" "cannot connect now") |}
              [] "GET" ltac:(discriminate))
    as (st & fields & c & Hanswer & Hc & [(_ & _ & Hdb)|(_ & -> & Hst)]);
    [discriminate|].
  exists st, fields. split; [exact Hanswer|]. split; [exact Hc|].
  intros H. apply Hst in H as [e He]. discriminate.
Defined.

End ScenarioFacts.
